(** * cyttsp4_core: a shallow embedding of the Cypress TrueTouch V4 core driver

    The development follows drivers/input/touchscreen/cyttsp4_core.c.
    Machine integers are [Z] with the C conversions written out, buffers are
    [list Z] of bytes, the driver state [struct cyttsp4_core_data] is a
    record, and code that talks to the bus or sleeps on the wait queue is
    written in a state monad over a world made of the driver state, the
    device behind the bus adapter and the log of everything the driver did
    to its environment. *)

From Stdlib Require Import ZArith List Bool Lia.
Import ListNotations.
Local Open Scope Z_scope.

(** ** C integer conversions *)

Definition u8 (z : Z) : Z := z mod 256.
Definition u16 (z : Z) : Z := z mod 65536.
Definition u32 (z : Z) : Z := z mod 4294967296.
Definition u64 (z : Z) : Z := z mod 18446744073709551616.

(** Conversion to [int]: two's complement wrap-around (the kernel is built
    with -fno-strict-overflow). *)
Definition int32 (z : Z) : Z := (z + 2147483648) mod 4294967296 - 2147483648.

(** [HI_BYTE] and [LO_BYTE] of a [u16]. *)
Definition HI_BYTE (x : Z) : Z := u8 (Z.shiftr x 8).
Definition LO_BYTE (x : Z) : Z := u8 x.

(** [merge_bytes], line 66. *)
Definition merge_bytes (high low : Z) : Z := Z.shiftl high 8 + low.

(** [get_unaligned_be16] on the two bytes found at an index of a buffer. *)
Definition get_unaligned_be16 (buf : list Z) (i : nat) : Z :=
  Z.lor (Z.shiftl (nth i buf 0) 8) (nth (S i) buf 0).

(** ** Linux error numbers (include/uapi/asm-generic/errno*.h) *)

Module Errno.
Definition EIO : Z := 5.
Definition ENOMEM : Z := 12.
Definition EACCES : Z := 13.
Definition EBUSY : Z := 16.
Definition ENODEV : Z := 19.
Definition EINVAL : Z := 22.
Definition ENOSYS : Z := 38.
Definition ETIME : Z := 62.
End Errno.
Import Errno.

(** ** Fixed byte sequences, lines 37-51 *)

Definition security_key : list Z :=
  [0xA5; 0x01; 0x02; 0x03; 0xFF; 0xFE; 0xFD; 0x5A].
Definition ldr_exit : list Z :=
  [0xFF; 0x01; 0x3B; 0x00; 0x00; 0x4F; 0x6D; 0x17].
Definition ldr_fast_exit : list Z :=
  [0xFF; 0x01; 0x3C; 0x00; 0x00; 0xC3; 0x68; 0x17].
Definition ldr_err_app : list Z :=
  [0x01; 0x02; 0x00; 0x00; 0x55; 0xDD; 0x17].

(** ** Config block CRC, lines 177-196 *)

Module Crc.

(** The inner loop [for (j = 8; j > 0; j--)] on a [u16] register. *)
Fixpoint crc_shift (j : nat) (crc : Z) : Z :=
  match j with
  | O => crc
  | S j' =>
      crc_shift j'
        (if Z.land crc 0x8000 =? 0
         then u16 (Z.shiftl crc 1)
         else u16 (Z.lxor (Z.shiftl crc 1) 0x1021))
  end.

(** One iteration of the outer loop: [crc ^= ((u16)data[i] << 8)] and the
    eight shifts. *)
Definition crc_update (crc : Z) (byte : Z) : Z :=
  crc_shift 8 (u16 (Z.lxor crc (Z.shiftl (u16 (u8 byte)) 8))).

(** The outer loop [for (i = 0; i < size; i++)] reading [data[i]]; the
    callers pass a [size] that is at most the length of the buffer, and the
    loop stops at the end of the list. *)
Fixpoint crc_loop (data : list Z) (size : nat) (crc : Z) : Z :=
  match size, data with
  | S n, b :: rest => crc_loop rest n (crc_update crc b)
  | _, _ => crc
  end.

Definition cyttsp4_calc_partial_app_crc (data : list Z) (size : Z) (crc : Z) : Z :=
  crc_loop data (Z.to_nat size) (u16 crc).

Definition cyttsp4_calc_app_crc (data : list Z) (size : Z) : Z :=
  cyttsp4_calc_partial_app_crc data size 0xFFFF.

End Crc.

(** ** Touch record decoder, lines 207-228 and 443-447 *)

Module Touch.

(** [cyttsp4_bits_2_bytes]: returns the byte count and stores [1UL << nbits]
    through [max] (an [unsigned long] of 64 bits). *)
Definition cyttsp4_bits_2_bytes (nbits : Z) : Z * Z :=
  (u32 (u32 nbits + 7) / 8, u64 (Z.shiftl 1 nbits)).

(** The loop of [cyttsp4_get_touch_axis]: [nbyte] and [next] run together
    from 0, and every byte is shifted right by [bofs] on its own before it is
    added to [*axis * 256]. A read past the buffer is read as 0. *)
Definition touch_axis_loop (size : Z) (xy_data : list Z) (bofs : Z) : Z :=
  fold_left
    (fun axis next => int32 (axis * 256 + Z.shiftr (u8 (nth next xy_data 0)) bofs))
    (seq 0 (Z.to_nat size)) 0.

(** [cyttsp4_get_touch_axis]: the value left in [*axis]. [max] arrives as an
    [int]. *)
Definition cyttsp4_get_touch_axis (size max : Z) (xy_data : list Z) (bofs : Z) : Z :=
  Z.land (touch_axis_loop size xy_data bofs) (int32 (int32 max - 1)).

(** The decoder applied to a field of [bits] bits as the descriptor loader
    sets it up (lines 731-742): size and max come from
    [cyttsp4_bits_2_bytes]. *)
Definition decode_field (bits bofs : Z) (xy_data : list Z) : Z :=
  let '(size, max) := cyttsp4_bits_2_bytes bits in
  cyttsp4_get_touch_axis size max xy_data bofs.

(** Big-endian bytes of [x], [n] of them. *)
Fixpoint be_bytes (n : nat) (x : Z) : list Z :=
  match n with
  | O => []
  | S k => (x / 256 ^ Z.of_nat k) mod 256 :: be_bytes k x
  end.

(** Modelled from the spec: the reference encoding of a touch field, which
    the driver does not contain (the device firmware produces the bytes). A
    field of [bits] bits at bit offset [bofs] occupies ceil(bits/8)
    consecutive bytes, the value sitting [bofs] bits above the least
    significant bit of the big-endian number these bytes form. *)
Definition encode_field (bits bofs v : Z) : list Z :=
  be_bytes (Z.to_nat (fst (cyttsp4_bits_2_bytes bits))) (Z.shiftl v bofs).

(** The decoding in the spec's words: the bytes taken together as one
    number, shifted right by the bit offset and masked to 2^bits - 1. *)
Definition spec_decode_field (bits bofs : Z) (xy_data : list Z) : Z :=
  let size := Z.to_nat ((bits + 7) / 8) in
  Z.land
    (Z.shiftr (fold_left (fun acc b => acc * 256 + b) (firstn size xy_data) 0) bofs)
    (2 ^ bits - 1).

End Touch.

(** ** Constants and macros of cyttsp4_regs.h

    The header is included by the driver but is not among the sources, so
    the register constants and the macros the modelled functions use are
    fields of a class: every statement below holds for any value of them. *)

Class Regs : Type := {
  CY_REG_BASE : Z;
  CY_REG_CAT_CMD : Z;
  CY_HST_TOGGLE : Z;
  CY_HST_MODE_CHANGE : Z;
  CY_HST_DEVICE_MODE : Z;
  CY_HST_OPERATE : Z;
  CY_HST_SYSINFO : Z;
  CY_HST_CAT : Z;
  CY_HST_SLEEP : Z;
  CY_HST_RESET : Z;
  CY_CMD_COMPLETE : Z;
  CY_CMD_COMPLETE_MASK : Z;
  CY_CMD_MASK : Z;
  CY_CMD_OP_WAIT_FOR_EVENT : Z;
  CY_INT_IGNORE : Z;
  CY_INT_MODE_CHANGE : Z;
  CY_INT_EXEC_CMD : Z;
  CY_INT_AWAKE : Z;
  IS_BOOTLOADER : Z -> Z -> bool;
  IS_BOOTLOADER_IDLE : Z -> Z -> bool;
  IS_DEEP_SLEEP_CONFIGURED : Z -> bool;
  GET_TOGGLE : Z -> Z;
  GET_NUM_TOUCH_RECORDS : Z -> Z;
  CY_CORE_RESET_AND_WAIT_TIMEOUT : Z;
  CY_CORE_WAIT_SYSINFO_MODE_TIMEOUT : Z;
  CY_CORE_MODE_CHANGE_TIMEOUT : Z;
  CY_COMMAND_COMPLETE_TIMEOUT : Z;
  CY_WATCHDOG_TIMEOUT : Z;
  (* the kernel's conversion of milliseconds to timer ticks *)
  msecs_to_jiffies : Z -> nat
}.

(** Flags of [enum cyttsp4_core_platform_flags]
    (include/linux/platform_data/cyttsp4.h). *)
Definition CY_CORE_FLAG_POWEROFF_ON_SLEEP : Z := 2.
Definition CY_CORE_FLAG_SCAN_MODE_USES_RAM_ID_SCAN_TYPE : Z := 4.

(** [CY_CORE_STARTUP_RETRY_COUNT], line 21. *)
Definition CY_CORE_STARTUP_RETRY_COUNT : nat := 3.

(** Modelled from the spec: [IS_TMO] tells that a bounded wait elapsed;
    [wait_event_timeout] returns 0 in that case and a positive number of
    remaining ticks otherwise. *)
Definition IS_TMO (t : Z) : bool := t =? 0.

(** ** Enumerations

    The constants of each enumeration are the case labels of one switch of
    the driver ([mode2str], [ss2str]) and hence pairwise different. *)

Inductive cyttsp4_mode : Set :=
| CY_MODE_UNKNOWN
| CY_MODE_BOOTLOADER
| CY_MODE_OPERATIONAL
| CY_MODE_SYSINFO
| CY_MODE_CAT
| CY_MODE_STARTUP
| CY_MODE_LOADER
| CY_MODE_CHANGE_MODE
| CY_MODE_CHANGED
| CY_MODE_CMD_COMPLETE.

Inductive cyttsp4_startup_state : Set :=
| STARTUP_NONE
| STARTUP_QUEUED
| STARTUP_RUNNING.

Inductive cyttsp4_sleep_state : Set :=
| SS_SLEEP_OFF
| SS_SLEEP_ON
| SS_SLEEPING
| SS_WAKING.

Inductive cyttsp4_atten_type : Set :=
| CY_ATTEN_IRQ
| CY_ATTEN_STARTUP
| CY_ATTEN_WAKE.

Definition mode_eqb (a b : cyttsp4_mode) : bool :=
  match a, b with
  | CY_MODE_UNKNOWN, CY_MODE_UNKNOWN
  | CY_MODE_BOOTLOADER, CY_MODE_BOOTLOADER
  | CY_MODE_OPERATIONAL, CY_MODE_OPERATIONAL
  | CY_MODE_SYSINFO, CY_MODE_SYSINFO
  | CY_MODE_CAT, CY_MODE_CAT
  | CY_MODE_STARTUP, CY_MODE_STARTUP
  | CY_MODE_LOADER, CY_MODE_LOADER
  | CY_MODE_CHANGE_MODE, CY_MODE_CHANGE_MODE
  | CY_MODE_CHANGED, CY_MODE_CHANGED
  | CY_MODE_CMD_COMPLETE, CY_MODE_CMD_COMPLETE => true
  | _, _ => false
  end.

(** ** Driver state *)

(** The fields of [struct cyttsp4_sysinfo_ofs] the modelled code reads. *)
Record cyttsp4_sysinfo_ofs : Set := {
  cmd_ofs : Z;
  rep_ofs : Z;
  tt_stat_ofs : Z;
  rep_hdr_size : Z;
  tch_rec_size : Z;
  max_tchs : Z;
  mode_size : Z
}.

Record cyttsp4_sysinfo : Set := {
  ready : bool;
  si_ofs : cyttsp4_sysinfo_ofs;
  (* the register mirror; [None] is the NULL pointer *)
  xy_mode : option (list Z)
}.

(** [struct cyttsp4_core_platform_data]: a callback is [true] when its
    pointer is set. *)
Record cyttsp4_core_platform_data : Set := {
  flags : Z;
  xres : bool;
  power : bool;
  level_irq_udelay : Z
}.

Record cyttsp4_core_data : Set := {
  mode : cyttsp4_mode;
  int_status : Z;
  heartbeat_count : Z;
  startup_state : cyttsp4_startup_state;
  sleep_state : cyttsp4_sleep_state;
  cmd_toggle : Z;
  invalid_touch_app : bool;
  bl_fast_exit : bool;
  wake_initiated_by_device : Z;
  easy_wakeup_gesture : Z;
  sysinfo : cyttsp4_sysinfo;
  cpdata : cyttsp4_core_platform_data
}.

Definition with_mode (m : cyttsp4_mode) (c : cyttsp4_core_data) : cyttsp4_core_data :=
  {| mode := m; int_status := int_status c; heartbeat_count := heartbeat_count c;
     startup_state := startup_state c; sleep_state := sleep_state c;
     cmd_toggle := cmd_toggle c; invalid_touch_app := invalid_touch_app c;
     bl_fast_exit := bl_fast_exit c;
     wake_initiated_by_device := wake_initiated_by_device c;
     easy_wakeup_gesture := easy_wakeup_gesture c; sysinfo := sysinfo c;
     cpdata := cpdata c |}.

Definition with_int_status (s : Z) (c : cyttsp4_core_data) : cyttsp4_core_data :=
  {| mode := mode c; int_status := s; heartbeat_count := heartbeat_count c;
     startup_state := startup_state c; sleep_state := sleep_state c;
     cmd_toggle := cmd_toggle c; invalid_touch_app := invalid_touch_app c;
     bl_fast_exit := bl_fast_exit c;
     wake_initiated_by_device := wake_initiated_by_device c;
     easy_wakeup_gesture := easy_wakeup_gesture c; sysinfo := sysinfo c;
     cpdata := cpdata c |}.

Definition with_heartbeat_count (n : Z) (c : cyttsp4_core_data) : cyttsp4_core_data :=
  {| mode := mode c; int_status := int_status c; heartbeat_count := n;
     startup_state := startup_state c; sleep_state := sleep_state c;
     cmd_toggle := cmd_toggle c; invalid_touch_app := invalid_touch_app c;
     bl_fast_exit := bl_fast_exit c;
     wake_initiated_by_device := wake_initiated_by_device c;
     easy_wakeup_gesture := easy_wakeup_gesture c; sysinfo := sysinfo c;
     cpdata := cpdata c |}.

Definition with_startup_state (s : cyttsp4_startup_state) (c : cyttsp4_core_data)
  : cyttsp4_core_data :=
  {| mode := mode c; int_status := int_status c; heartbeat_count := heartbeat_count c;
     startup_state := s; sleep_state := sleep_state c;
     cmd_toggle := cmd_toggle c; invalid_touch_app := invalid_touch_app c;
     bl_fast_exit := bl_fast_exit c;
     wake_initiated_by_device := wake_initiated_by_device c;
     easy_wakeup_gesture := easy_wakeup_gesture c; sysinfo := sysinfo c;
     cpdata := cpdata c |}.

Definition with_sleep_state (s : cyttsp4_sleep_state) (c : cyttsp4_core_data)
  : cyttsp4_core_data :=
  {| mode := mode c; int_status := int_status c; heartbeat_count := heartbeat_count c;
     startup_state := startup_state c; sleep_state := s;
     cmd_toggle := cmd_toggle c; invalid_touch_app := invalid_touch_app c;
     bl_fast_exit := bl_fast_exit c;
     wake_initiated_by_device := wake_initiated_by_device c;
     easy_wakeup_gesture := easy_wakeup_gesture c; sysinfo := sysinfo c;
     cpdata := cpdata c |}.

Definition with_cmd_toggle (t : Z) (c : cyttsp4_core_data) : cyttsp4_core_data :=
  {| mode := mode c; int_status := int_status c; heartbeat_count := heartbeat_count c;
     startup_state := startup_state c; sleep_state := sleep_state c;
     cmd_toggle := t; invalid_touch_app := invalid_touch_app c;
     bl_fast_exit := bl_fast_exit c;
     wake_initiated_by_device := wake_initiated_by_device c;
     easy_wakeup_gesture := easy_wakeup_gesture c; sysinfo := sysinfo c;
     cpdata := cpdata c |}.

Definition with_invalid_touch_app (b : bool) (c : cyttsp4_core_data) : cyttsp4_core_data :=
  {| mode := mode c; int_status := int_status c; heartbeat_count := heartbeat_count c;
     startup_state := startup_state c; sleep_state := sleep_state c;
     cmd_toggle := cmd_toggle c; invalid_touch_app := b;
     bl_fast_exit := bl_fast_exit c;
     wake_initiated_by_device := wake_initiated_by_device c;
     easy_wakeup_gesture := easy_wakeup_gesture c; sysinfo := sysinfo c;
     cpdata := cpdata c |}.

Definition with_bl_fast_exit (b : bool) (c : cyttsp4_core_data) : cyttsp4_core_data :=
  {| mode := mode c; int_status := int_status c; heartbeat_count := heartbeat_count c;
     startup_state := startup_state c; sleep_state := sleep_state c;
     cmd_toggle := cmd_toggle c; invalid_touch_app := invalid_touch_app c;
     bl_fast_exit := b;
     wake_initiated_by_device := wake_initiated_by_device c;
     easy_wakeup_gesture := easy_wakeup_gesture c; sysinfo := sysinfo c;
     cpdata := cpdata c |}.

Definition with_wake_initiated_by_device (v : Z) (c : cyttsp4_core_data)
  : cyttsp4_core_data :=
  {| mode := mode c; int_status := int_status c; heartbeat_count := heartbeat_count c;
     startup_state := startup_state c; sleep_state := sleep_state c;
     cmd_toggle := cmd_toggle c; invalid_touch_app := invalid_touch_app c;
     bl_fast_exit := bl_fast_exit c;
     wake_initiated_by_device := v;
     easy_wakeup_gesture := easy_wakeup_gesture c; sysinfo := sysinfo c;
     cpdata := cpdata c |}.

Definition with_xy_mode (buf : option (list Z)) (c : cyttsp4_core_data)
  : cyttsp4_core_data :=
  {| mode := mode c; int_status := int_status c; heartbeat_count := heartbeat_count c;
     startup_state := startup_state c; sleep_state := sleep_state c;
     cmd_toggle := cmd_toggle c; invalid_touch_app := invalid_touch_app c;
     bl_fast_exit := bl_fast_exit c;
     wake_initiated_by_device := wake_initiated_by_device c;
     easy_wakeup_gesture := easy_wakeup_gesture c;
     sysinfo := {| ready := ready (sysinfo c); si_ofs := si_ofs (sysinfo c);
                   xy_mode := buf |};
     cpdata := cpdata c |}.

(** ** The environment

    [struct cyttsp4_bus_ops] and the platform callbacks are an interface of
    the hardware behind the driver: a read returns a status and the bytes
    put into the buffer, a write and the power callback return a status. *)

Class Hardware (D : Type) : Type := {
  bus_read : D -> Z -> Z -> (Z * list Z) * D;
  bus_write : D -> Z -> list Z -> Z * D;
  plat_power : D -> Z -> Z * D;
  plat_xres : D -> D
}.

(** What the driver does to its environment, in order. *)
Inductive event : Type :=
| EvRead (addr size rc : Z) (data : list Z)
| EvWrite (addr : Z) (data : list Z) (rc : Z)
| EvAtten (type : cyttsp4_atten_type) (m : option cyttsp4_mode)
| EvScheduleStartup
| EvWakeUp
| EvUdelay (usecs : Z)
| EvXres
| EvPower (on rc : Z)
| EvStopWd
| EvStartWd.

(** What happens during one timer tick spent on the wait queue: the device
    raises its interrupt line, or nothing. *)
Inductive tick : Set :=
| TickIrq
| TickIdle.

Record world (D : Type) : Type := {
  cd : cyttsp4_core_data;
  dev : D;
  log : list event;
  future : list tick
}.
Arguments cd {D} _.
Arguments dev {D} _.
Arguments log {D} _.
Arguments future {D} _.

(** ** The state monad *)

Definition M (S A : Type) : Type := S -> A * S.

Definition ret {S A : Type} (a : A) : M S A := fun s => (a, s).

Definition bind {S A B : Type} (m : M S A) (f : A -> M S B) : M S B :=
  fun s => let (a, s') := m s in f a s'.

Declare Scope monad_scope.
Delimit Scope monad_scope with monad.
Notation "x <- m ;; k" := (bind m (fun x => k))
  (at level 61, m at next level, right associativity) : monad_scope.
Notation "' pat <- m ;; k" := (bind m (fun x => match x with pat => k end))
  (at level 61, pat pattern, m at next level, right associativity) : monad_scope.
Notation "m ;; k" := (bind m (fun _ => k))
  (at level 61, right associativity) : monad_scope.
Open Scope monad_scope.

Section Core.
Context {R : Regs} {D : Type} {H : Hardware D}.

Definition Drv (A : Type) : Type := M (world D) A.

Definition get_cd : Drv cyttsp4_core_data := fun w => (cd w, w).

Definition modify_cd (f : cyttsp4_core_data -> cyttsp4_core_data) : Drv unit :=
  fun w => (tt, {| cd := f (cd w); dev := dev w; log := log w; future := future w |}).

Definition emit (e : event) : Drv unit :=
  fun w => (tt, {| cd := cd w; dev := dev w; log := log w ++ [e]; future := future w |}).

(** [cyttsp4_adap_read], line 152: the address is a [u16]. *)
Definition cyttsp4_adap_read (addr size : Z) : Drv (Z * list Z) :=
  fun w =>
    let '((rc, data), d) := bus_read (dev w) (u16 addr) size in
    ((rc, data),
     {| cd := cd w; dev := d; log := log w ++ [EvRead (u16 addr) size rc data];
        future := future w |}).

(** [cyttsp4_adap_write], line 158. *)
Definition cyttsp4_adap_write (addr : Z) (buf : list Z) : Drv Z :=
  fun w =>
    let '(rc, d) := bus_write (dev w) (u16 addr) buf in
    (rc,
     {| cd := cd w; dev := d; log := log w ++ [EvWrite (u16 addr) buf rc];
        future := future w |}).

(** [cd->cpdata->power(cd->cpdata, on, cd->dev, &cd->ignore_irq)]. *)
Definition cpdata_power (on : Z) : Drv Z :=
  fun w =>
    let '(rc, d) := plat_power (dev w) on in
    (rc, {| cd := cd w; dev := d; log := log w ++ [EvPower on rc]; future := future w |}).

(** [cd->cpdata->xres(cd->cpdata, cd->dev)]. *)
Definition cpdata_xres : Drv unit :=
  fun w =>
    (tt, {| cd := cd w; dev := plat_xres (dev w); log := log w ++ [EvXres];
            future := future w |}).

(** [cyttsp4_handshake], line 346. *)
Definition cyttsp4_handshake (hst_mode : Z) : Drv Z :=
  let cmd := u8 (Z.lxor hst_mode CY_HST_TOGGLE) in
  if negb (Z.land hst_mode CY_HST_MODE_CHANGE =? 0) then
    (* Host mode change bit set, NO handshake *)
    ret 0
  else
    rc <- cyttsp4_adap_write CY_REG_BASE [cmd] ;;
    ret rc.

(** [cyttsp4_queue_startup], line 1069. *)
Definition cyttsp4_queue_startup : Drv unit :=
  c <- get_cd ;;
  match startup_state c with
  | STARTUP_NONE =>
      modify_cd (with_startup_state STARTUP_QUEUED) ;;
      emit EvScheduleStartup
  | _ => ret tt
  end.

(** [call_atten_cb], line 1083: the subscribers are code of other modules;
    the dispatch is recorded with its type and mode ([None] for mode 0). *)
Definition call_atten_cb (type : cyttsp4_atten_type) (m : option cyttsp4_mode) : Drv unit :=
  emit (EvAtten type m).

(** [wake_up(&cd->wait_q)]. *)
Definition wake_up : Drv unit := emit EvWakeUp.

(** [cyttsp4_stop_wd_timer] and [cyttsp4_start_wd_timer], lines 1375-1395. *)
Definition cyttsp4_start_wd_timer : Drv unit :=
  if CY_WATCHDOG_TIMEOUT =? 0 then ret tt else emit EvStartWd.

Definition cyttsp4_stop_wd_timer : Drv unit :=
  if CY_WATCHDOG_TIMEOUT =? 0 then ret tt else emit EvStopWd.

(** Bytes stored into a buffer from an index on; what falls past the end of
    the buffer is dropped. *)
Fixpoint store_at (buf : list Z) (ofs : nat) (data : list Z) : list Z :=
  match buf, ofs with
  | [], _ => []
  | b :: rest, S n => b :: store_at rest n data
  | b :: rest, O =>
      match data with
      | [] => buf
      | x :: data' => x :: store_at rest O data'
      end
  end.

(** [cyttsp4_load_status_and_touch_regs], line 257. *)
Definition cyttsp4_load_status_and_touch_regs (optimize : bool) : Drv Z :=
  c <- get_cd ;;
  let si := sysinfo c in
  match xy_mode si with
  | None => ret (- EINVAL)
  | Some buf =>
      let first_read_len :=
        if optimize then rep_hdr_size (si_ofs si) + tch_rec_size (si_ofs si)
        else rep_hdr_size (si_ofs si) in
      '(rc, data) <- cyttsp4_adap_read (rep_ofs (si_ofs si)) (int32 first_read_len) ;;
      let buf := store_at buf (Z.to_nat (rep_ofs (si_ofs si))) data in
      modify_cd (with_xy_mode (Some buf)) ;;
      if rc <? 0 then ret rc
      else
        let rep_len := nth (Z.to_nat (rep_ofs (si_ofs si))) buf 0 in
        let tt_stat := nth (Z.to_nat (tt_stat_ofs (si_ofs si))) buf 0 in
        let num_cur_rec := u8 (GET_NUM_TOUCH_RECORDS tt_stat) in
        if (rep_len =? 0) && (0 <? num_cur_rec) then ret (- EIO)
        else
          let num_cur_rec :=
            if max_tchs (si_ofs si) <? num_cur_rec then u8 (max_tchs (si_ofs si))
            else num_cur_rec in
          let num_read_rec := if optimize then num_cur_rec - 1 else num_cur_rec in
          let second_read_off :=
            if optimize then tt_stat_ofs (si_ofs si) + 1 + tch_rec_size (si_ofs si)
            else tt_stat_ofs (si_ofs si) + 1 in
          if num_read_rec <=? 0 then ret 0
          else
            '(rc, data) <- cyttsp4_adap_read second_read_off
                             (int32 (num_read_rec * tch_rec_size (si_ofs si))) ;;
            modify_cd (with_xy_mode (Some (store_at buf (Z.to_nat second_read_off) data))) ;;
            if rc <? 0 then ret rc else ret 0
  end.

(** [_cyttsp4_put_device_into_deep_sleep], line 3238. *)
Definition _cyttsp4_put_device_into_deep_sleep (hst_mode_reg : Z) : Drv Z :=
  let hst_mode_reg := u8 (Z.lor hst_mode_reg CY_HST_SLEEP) in
  rc <- cyttsp4_adap_write CY_REG_BASE [hst_mode_reg] ;;
  if negb (rc =? 0) then ret (- EINVAL)
  else
    c <- get_cd ;;
    rc <- (if power (cpdata c) then cpdata_power 0 else ret 0) ;;
    if rc <? 0 then ret (- EINVAL) else ret 0.

(** The classification [switch (mode[0] & CY_HST_DEVICE_MODE)] of
    [cyttsp4_irq], line 1238. *)
Definition classify_hst_mode (mode0 : Z) : cyttsp4_mode :=
  let m := Z.land mode0 CY_HST_DEVICE_MODE in
  if m =? CY_HST_OPERATE then CY_MODE_OPERATIONAL
  else if m =? CY_HST_CAT then CY_MODE_CAT
  else if m =? CY_HST_SYSINFO then CY_MODE_SYSINFO
  else CY_MODE_UNKNOWN.

(** The label [cyttsp4_irq_handshake] of [cyttsp4_irq], line 1353. *)
Definition cyttsp4_irq_handshake (mode0 : Z) : Drv unit :=
  _ <- cyttsp4_handshake mode0 ;;
  c <- get_cd ;;
  emit (EvUdelay (level_irq_udelay (cpdata c))).

(** [cyttsp4_irq], line 1167. The handler always returns [IRQ_HANDLED];
    [mode3] is its local array [u8 mode[3]]. *)
Definition cyttsp4_irq : Drv unit :=
  c <- get_cd ;;
  match sleep_state c with
  | SS_SLEEP_ON => ret tt
  | _ =>
  '(rc, mode3) <- cyttsp4_adap_read CY_REG_BASE 3 ;;
  if negb (rc =? 0) then ret tt
  else
  let mode0 := nth 0 mode3 0 in
  let mode1 := nth 1 mode3 0 in
  let mode_cmd := nth (Z.to_nat (u8 (cmd_ofs (si_ofs (sysinfo c))))) mode3 0 in
  if IS_BOOTLOADER mode0 mode1 then
    call_atten_cb CY_ATTEN_IRQ (Some CY_MODE_BOOTLOADER) ;;
    (* switch to bootloader *)
    (if negb (mode_eqb (mode c) CY_MODE_BOOTLOADER)
     then modify_cd (with_heartbeat_count 0) else ret tt) ;;
    (* catch operation->bl glitch *)
    if negb (mode_eqb (mode c) CY_MODE_BOOTLOADER)
       && negb (mode_eqb (mode c) CY_MODE_UNKNOWN)
    then
      modify_cd (with_mode CY_MODE_UNKNOWN) ;;
      cyttsp4_queue_startup
    else
      c <- get_cd ;;
      (* Recover if stuck in bootloader idle mode *)
      if mode_eqb (mode c) CY_MODE_BOOTLOADER && IS_BOOTLOADER_IDLE mode0 mode1
      then
        if 3 <? heartbeat_count c then
          modify_cd (with_heartbeat_count 0) ;;
          cyttsp4_queue_startup
        else
          modify_cd (with_heartbeat_count (int32 (heartbeat_count c + 1))) ;;
          modify_cd (with_mode CY_MODE_BOOTLOADER) ;;
          wake_up
      else
        modify_cd (with_mode CY_MODE_BOOTLOADER) ;;
        wake_up
  else
  let cur_mode := classify_hst_mode mode0 in
  (* Check whether this IRQ should be ignored (internal) *)
  if negb (Z.land (int_status c) CY_INT_IGNORE =? 0)
     && IS_DEEP_SLEEP_CONFIGURED (easy_wakeup_gesture c)
  then
    _ <- _cyttsp4_put_device_into_deep_sleep mode0 ;;
    ret tt
  else if negb (Z.land (int_status c) CY_INT_IGNORE =? 0)
          && (Z.land mode_cmd CY_CMD_MASK =? CY_CMD_OP_WAIT_FOR_EVENT)
          && negb (Z.land mode_cmd CY_CMD_COMPLETE =? 0)
  then
    modify_cd (with_wake_initiated_by_device 1) ;;
    call_atten_cb CY_ATTEN_WAKE None ;;
    cyttsp4_irq_handshake mode0
  (* Check for wake up interrupt *)
  else if negb (Z.land (int_status c) CY_INT_AWAKE =? 0) then
    modify_cd (with_int_status (Z.land (int_status c) (Z.lnot CY_INT_AWAKE))) ;;
    wake_up ;;
    cyttsp4_irq_handshake mode0
  (* Expecting mode change interrupt *)
  else if negb (Z.land (int_status c) CY_INT_MODE_CHANGE =? 0)
          && (Z.land mode0 CY_HST_MODE_CHANGE =? 0)
  then
    modify_cd (with_int_status (Z.land (int_status c) (Z.lnot CY_INT_MODE_CHANGE))) ;;
    modify_cd (with_mode cur_mode) ;;
    wake_up ;;
    cyttsp4_irq_handshake mode0
  (* compare current core mode to current device mode *)
  else if (Z.land mode0 CY_HST_MODE_CHANGE =? 0) && negb (mode_eqb (mode c) cur_mode)
  then
    (* Unexpected mode change occurred *)
    cyttsp4_queue_startup
  else
    (* Expecting command complete interrupt *)
    let command_complete :=
      negb (Z.land (int_status c) CY_INT_EXEC_CMD =? 0)
      && negb (Z.land mode_cmd CY_CMD_COMPLETE =? 0) in
    (if command_complete then
       modify_cd (with_int_status (Z.land (int_status c) (Z.lnot CY_INT_EXEC_CMD))) ;;
       wake_up
     else ret tt) ;;
    (* Copy the mode registers *)
    (match xy_mode (sysinfo c) with
     | Some buf => modify_cd (with_xy_mode (Some (store_at buf 0 (firstn 3 mode3))))
     | None => ret tt
     end) ;;
    (* This should be status report, read status and touch regs *)
    (if mode_eqb (mode c) CY_MODE_OPERATIONAL
     then _ <- cyttsp4_load_status_and_touch_regs (negb command_complete) ;; ret tt
     else ret tt) ;;
    (* attention IRQ *)
    call_atten_cb CY_ATTEN_IRQ (Some (mode c)) ;;
    cyttsp4_irq_handshake mode0
  end.


(** *** Sleeping on the wait queue

    [wait_event_timeout(cd->wait_q, condition, timeout)]: the caller holds no
    lock while it sleeps. Every tick that passes takes the next entry of the
    world's future, on which the interrupt handler may run (the work items
    of the driver, the startup work and the watchdog, are not run during a
    wait). The result is 0
    when the condition is still false after the timeout, and the remaining
    ticks, at least 1, as soon as the condition holds. *)

Definition run_tick (t : tick) : Drv unit :=
  match t with
  | TickIrq => cyttsp4_irq
  | TickIdle => ret tt
  end.

Definition next_tick : Drv unit :=
  fun w =>
    match future w with
    | [] => (tt, w)
    | t :: rest =>
        run_tick t {| cd := cd w; dev := dev w; log := log w; future := rest |}
    end.

Fixpoint wait_event_timeout (condition : cyttsp4_core_data -> bool) (timeout : nat)
  (w : world D) {struct timeout} : Z * world D :=
  if condition (cd w) then (Z.max 1 (Z.of_nat timeout), w)
  else
    match timeout with
    | O => (0, w)
    | S t => wait_event_timeout condition t (snd (next_tick w))
    end.

(** The interrupt handler run on [n] interrupt occurrences in a row, with
    nothing else of the driver running in between. *)
Fixpoint irq_times (n : nat) : Drv unit :=
  match n with
  | O => ret tt
  | S k => cyttsp4_irq ;; irq_times k
  end.

(** How many times a log shows [schedule_work(&cd->startup_work)], the
    deferred restart. *)
Definition restarts (l : list event) : nat :=
  length (filter (fun e => match e with EvScheduleStartup => true | _ => false end) l).

(** [cd->int_status &= ~flag] and [cd->int_status |= flag]. *)
Definition clear_int_status (flag : Z) : Drv unit :=
  modify_cd (fun c => with_int_status (Z.land (int_status c) (Z.lnot flag)) c).

Definition set_int_status (flag : Z) : Drv unit :=
  modify_cd (fun c => with_int_status (Z.lor (int_status c) flag) c).

(** [cyttsp4_wait_bl_heartbeat], line 1585. *)
Definition cyttsp4_wait_bl_heartbeat : Drv Z :=
  t <- wait_event_timeout (fun c => mode_eqb (mode c) CY_MODE_BOOTLOADER)
         (msecs_to_jiffies CY_CORE_RESET_AND_WAIT_TIMEOUT) ;;
  if IS_TMO t then ret (- ETIME) else ret 0.

(** [cyttsp4_wait_sysinfo_mode], line 1603. *)
Definition cyttsp4_wait_sysinfo_mode : Drv Z :=
  t <- wait_event_timeout (fun c => mode_eqb (mode c) CY_MODE_SYSINFO)
         (msecs_to_jiffies CY_CORE_WAIT_SYSINFO_MODE_TIMEOUT) ;;
  if IS_TMO t then
    clear_int_status CY_INT_MODE_CHANGE ;;
    ret (- ETIME)
  else ret 0.

(** [cyttsp4_hw_soft_reset_], line 388. *)
Definition cyttsp4_hw_soft_reset_ : Drv Z :=
  rc <- cyttsp4_adap_write CY_REG_BASE [u8 CY_HST_RESET] ;;
  if rc <? 0 then ret rc else ret 0.

(** [cyttsp4_hw_hard_reset_], line 413. *)
Definition cyttsp4_hw_hard_reset_ : Drv Z :=
  c <- get_cd ;;
  if xres (cpdata c) then cpdata_xres ;; ret 0
  else ret (- ENOSYS).

(** [cyttsp4_hw_reset_], line 435. *)
Definition cyttsp4_hw_reset_ : Drv Z :=
  rc <- cyttsp4_hw_hard_reset_ ;;
  if rc =? - ENOSYS then cyttsp4_hw_soft_reset_ else ret rc.

(** [cyttsp4_reset_and_wait], line 1623. *)
Definition cyttsp4_reset_and_wait : Drv Z :=
  rc <- cyttsp4_hw_reset_ ;;
  modify_cd (with_mode CY_MODE_UNKNOWN) ;;
  if rc <? 0 then ret rc
  else cyttsp4_wait_bl_heartbeat.

(** The end of [set_mode], from line 1695 on: the mode change has been
    written with status [rc], the caller waits for the interrupt that
    confirms it. *)
Definition set_mode_wait (rc : Z) : Drv Z :=
  t <- wait_event_timeout
         (fun c => Z.land (int_status c) CY_INT_MODE_CHANGE =? 0)
         (msecs_to_jiffies CY_CORE_MODE_CHANGE_TIMEOUT) ;;
  if IS_TMO t then
    clear_int_status CY_INT_MODE_CHANGE ;;
    ret (- EINVAL)
  else ret rc.

(** [set_mode], line 1646. *)
Definition set_mode (new_mode : cyttsp4_mode) : Drv Z :=
  let request (new_dev_mode : Z) : Drv Z :=
    '(rc, data) <- cyttsp4_adap_read CY_REG_BASE 1 ;;
    if rc <? 0 then ret rc
    else
      (* Clear device mode bits and set to new mode *)
      let mode1 := u8 (Z.land (nth 0 data 0) (Z.lnot CY_HST_DEVICE_MODE)) in
      let mode1 := u8 (Z.lor mode1 (Z.lor new_dev_mode CY_HST_MODE_CHANGE)) in
      set_int_status CY_INT_MODE_CHANGE ;;
      rc <- cyttsp4_adap_write CY_REG_BASE [mode1] ;;
      if rc <? 0 then ret rc
      else set_mode_wait rc in
  match new_mode with
  | CY_MODE_OPERATIONAL => request (u8 CY_HST_OPERATE)
  | CY_MODE_SYSINFO => request (u8 CY_HST_SYSINFO)
  | CY_MODE_CAT => request (u8 CY_HST_CAT)
  | _ => ret (- EINVAL)
  end.

(** [_cyttsp4_wait_cmd_exec], line 1835. *)
Definition _cyttsp4_wait_cmd_exec (timeout_ms : Z) : Drv Z :=
  rc <- wait_event_timeout
          (fun c => Z.land (int_status c) CY_INT_EXEC_CMD =? 0)
          (msecs_to_jiffies timeout_ms) ;;
  if IS_TMO rc then
    clear_int_status CY_INT_EXEC_CMD ;;
    ret (- ETIME)
  else ret 0.

(** [_get_cmd_offs], line 1852. *)
Definition _get_cmd_offs (m : cyttsp4_mode) : Drv Z :=
  c <- get_cd ;;
  match m with
  | CY_MODE_CAT => ret CY_REG_CAT_CMD
  | CY_MODE_OPERATIONAL => ret (int32 (cmd_ofs (si_ofs (sysinfo c))))
  | _ => ret (- EACCES)
  end.

(** [_cyttsp4_exec_cmd], line 1878. The result is the status together with
    the caller's command buffer, whose first byte the function masks in
    place once the device is found ready. *)
Definition _cyttsp4_exec_cmd (m : cyttsp4_mode) (cmd_buf : list Z) (cmd_size : Z)
  : Drv (Z * list Z) :=
  c <- get_cd ;;
  if negb (mode_eqb m (mode c)) then ret (- EACCES, cmd_buf)
  else
    cmd_ofs <- _get_cmd_offs m ;;
    if cmd_ofs <? 0 then ret (- EACCES, cmd_buf)
    else
      let cmd_param_ofs := cmd_ofs + 1 in
      let cmd_param_buf := skipn 1 cmd_buf in
      let cmd_param_size := u64 (cmd_size - 1) in
      (* Check if complete is set, so write new command *)
      '(rc, data) <- cyttsp4_adap_read cmd_ofs 1 ;;
      if rc <? 0 then ret (rc, cmd_buf)
      else
        let command := nth 0 data 0 in
        modify_cd (with_cmd_toggle (GET_TOGGLE command)) ;;
        set_int_status CY_INT_EXEC_CMD ;;
        if Z.land command CY_CMD_COMPLETE_MASK =? 0 then ret (- EBUSY, cmd_buf)
        else
          (* Only update command bits 0:5 *)
          let cmd_buf := u8 (Z.land (nth 0 cmd_buf 0) CY_CMD_MASK) :: skipn 1 cmd_buf in
          (* Write command parameters first *)
          rc <- (if 1 <? cmd_size
                 then cyttsp4_adap_write cmd_param_ofs
                        (firstn (Z.to_nat cmd_param_size) cmd_param_buf)
                 else ret 0) ;;
          if rc <? 0 then ret (rc, cmd_buf)
          else
            (* Write the command *)
            rc <- cyttsp4_adap_write cmd_ofs (firstn 1 cmd_buf) ;;
            if rc <? 0 then ret (rc, cmd_buf)
            else ret (0, cmd_buf).

(** The world left by a first attempt that found the device busy. *)
Definition busy_world (w : world D) (ofs rc : Z) (data : list Z) (d : D) : world D :=
  {| cd := with_int_status
             (Z.lor (int_status (with_cmd_toggle (GET_TOGGLE (nth 0 data 0)) (cd w)))
                CY_INT_EXEC_CMD)
             (with_cmd_toggle (GET_TOGGLE (nth 0 data 0)) (cd w));
     dev := d;
     log := log w ++ [EvRead (u16 ofs) 1 rc data];
     future := future w |}.

(** The rest of [cyttsp4_exec_cmd] once the command has been handed to
    [_cyttsp4_exec_cmd] with status [rc], from line 1970 on. [return_buf]
    tells whether the caller passed a buffer (a pointer that is not NULL);
    the result carries the bytes read into it. *)
Definition exec_cmd_finish (m : cyttsp4_mode) (rc : Z)
  (return_buf : bool) (return_buf_size : Z) (timeout_ms : Z) : Drv (Z * list Z) :=
  if rc <? 0 then ret (rc, [])
  else if timeout_ms =? 0 then ret (0, [])
  else
    (* Wait command to be completed *)
    rc <- _cyttsp4_wait_cmd_exec timeout_ms ;;
    if rc <? 0 then ret (rc, [])
    else if (return_buf_size =? 0) || negb return_buf then ret (0, [])
    else
      cmd_ofs <- _get_cmd_offs m ;;
      if cmd_ofs <? 0 then ret (- EACCES, [])
      else
        let cmd_return_ofs := cmd_ofs + 1 in
        '(rc, data) <- cyttsp4_adap_read cmd_return_ofs (int32 return_buf_size) ;;
        if rc <? 0 then ret (rc, data)
        else ret (0, data).

(** [cyttsp4_exec_cmd], line 1948. *)
Definition cyttsp4_exec_cmd (m : cyttsp4_mode) (cmd_buf : list Z) (cmd_size : Z)
  (return_buf : bool) (return_buf_size : Z) (timeout_ms : Z) : Drv (Z * list Z) :=
  '(rc, cmd_buf) <- _cyttsp4_exec_cmd m cmd_buf cmd_size ;;
  if rc =? - EBUSY then
    rc <- _cyttsp4_wait_cmd_exec CY_COMMAND_COMPLETE_TIMEOUT ;;
    if negb (rc =? 0) then ret (rc, [])
    else
      '(rc, cmd_buf) <- _cyttsp4_exec_cmd m cmd_buf cmd_size ;;
      exec_cmd_finish m rc return_buf return_buf_size timeout_ms
  else exec_cmd_finish m rc return_buf return_buf_size timeout_ms.

(** [_cyttsp4_ldr_exit], line 3506. *)
Definition _cyttsp4_ldr_exit : Drv Z :=
  c <- get_cd ;;
  if negb (Z.land (flags (cpdata c)) CY_CORE_FLAG_POWEROFF_ON_SLEEP =? 0)
     && bl_fast_exit c
  then cyttsp4_adap_write CY_REG_BASE ldr_fast_exit
  else cyttsp4_adap_write CY_REG_BASE ldr_exit.

(** [memcmp(a, b, n) == 0] on byte buffers. *)
Fixpoint bytes_eqb (a b : list Z) (n : nat) : bool :=
  match n with
  | O => true
  | S k =>
      match a, b with
      | x :: a', y :: b' => (u8 x =? u8 y) && bytes_eqb a' b' k
      | _, _ => false
      end
  end.

End Core.

Arguments Drv : clear implicits.

(** *** The startup protocol, line 3739

    The steps that follow the switch to SysInfo mode (reading the
    descriptor, the scan type, the configuration metadata, the refresh
    cycle, and going back to sleep) are code of the driver that is not
    modelled here; [cyttsp4_startup_] takes them as parameters, so that its
    statements hold whatever these steps do. *)

Section Startup.
Context {R : Regs} {D : Type} {H : Hardware D}.
Variable cyttsp4_get_sysinfo_regs : Drv D Z.
Variable cyttsp4_set_initial_scantype : Drv D Z.
Variable cyttsp4_set_proximity : bool -> Drv D Z.
Variable cyttsp4_get_ttconfig_info : Drv D Z.
Variable cyttsp4_get_active_refresh_cycle : Drv D Z.
Variable cyttsp4_core_sleep_ : Drv D Z.

(** The label a pass through the body of [cyttsp4_startup_] leaves by. *)
Inductive startup_exit : Set :=
| exit_wd        (* exit: the watchdog timer is started again *)
| exit_no_wd.    (* exit_no_wd *)

(** How one pass from the label [reset] ends: a failed step reaches
    [RETRY_OR_EXIT], anything else leaves the function. *)
Inductive startup_pass_result : Set :=
| RetryOrExit (rc : Z) (detected : bool)
| Leave (rc : Z) (l : startup_exit) (detected : bool).

Definition startup_pass (detected : bool) : Drv D startup_pass_result :=
  (* reset hardware and wait for heartbeat *)
  rc <- cyttsp4_reset_and_wait ;;
  if rc <? 0 then ret (RetryOrExit rc detected)
  else
  let detected := true in
  (* exit bl into sysinfo mode *)
  clear_int_status CY_INT_IGNORE ;;
  set_int_status CY_INT_MODE_CHANGE ;;
  rc <- _cyttsp4_ldr_exit ;;
  if rc <? 0 then ret (RetryOrExit rc detected)
  else
  rc <- cyttsp4_wait_sysinfo_mode ;;
  if rc <? 0 then
    (* Check for invalid/corrupted touch application *)
    '(rc1, buf) <- cyttsp4_adap_read CY_REG_BASE (Z.of_nat (length ldr_err_app)) ;;
    if negb (rc1 =? 0) then ret (RetryOrExit rc detected)
    else if bytes_eqb buf ldr_err_app (length ldr_err_app) then
      modify_cd (with_invalid_touch_app true) ;;
      ret (Leave rc exit_no_wd detected)
    else ret (RetryOrExit rc detected)
  else
  modify_cd (with_invalid_touch_app false) ;;
  (* read sysinfo data *)
  rc <- cyttsp4_get_sysinfo_regs ;;
  if rc <? 0 then ret (RetryOrExit rc detected)
  else
  rc <- set_mode CY_MODE_OPERATIONAL ;;
  if rc <? 0 then ret (RetryOrExit rc detected)
  else
  c <- get_cd ;;
  rc <- (if negb (Z.land (flags (cpdata c))
                    CY_CORE_FLAG_SCAN_MODE_USES_RAM_ID_SCAN_TYPE =? 0)
         then cyttsp4_set_initial_scantype
         else cyttsp4_set_proximity false) ;;
  if rc <? 0 then ret (RetryOrExit rc detected)
  else
  rc <- cyttsp4_get_ttconfig_info ;;
  if rc <? 0 then ret (RetryOrExit rc detected)
  else
  rc <- cyttsp4_get_active_refresh_cycle ;;
  (* attention startup *)
  call_atten_cb CY_ATTEN_STARTUP None ;;
  (* restore to sleep if was suspended *)
  modify_cd (with_bl_fast_exit true) ;;
  c <- get_cd ;;
  match sleep_state c with
  | SS_SLEEP_ON =>
      modify_cd (with_sleep_state SS_SLEEP_OFF) ;;
      _ <- cyttsp4_core_sleep_ ;;
      ret (Leave rc exit_no_wd detected)
  | _ => ret (Leave rc exit_wd detected)
  end.

(** The loop made of the label [reset] and of
    [RETRY_OR_EXIT(retry--, reset, exit)]. Modelled from the spec: the macro
    is not among the sources; the startup protocol is retried while the
    counter it is given is not zero and leaves by [exit] otherwise. *)
Fixpoint startup_loop (retry : nat) (detected : bool) : Drv D startup_pass_result :=
  r <- startup_pass detected ;;
  match r with
  | Leave rc l d => ret (Leave rc l d)
  | RetryOrExit rc d =>
      match retry with
      | S n => startup_loop n d
      | O => ret (Leave rc exit_wd d)
      end
  end.

(** The world in which the fault has been recorded. *)
Definition fault_recorded (w : world D) : world D :=
  {| cd := with_invalid_touch_app true (cd w); dev := dev w; log := log w;
     future := future w |}.

Definition cyttsp4_startup_ : Drv D Z :=
  cyttsp4_stop_wd_timer ;;
  r <- startup_loop CY_CORE_STARTUP_RETRY_COUNT false ;;
  match r with
  | Leave rc l detected =>
      (match l with
       | exit_wd => cyttsp4_start_wd_timer
       | exit_no_wd => ret tt
       end) ;;
      if negb detected then ret (- ENODEV) else ret rc
  | RetryOrExit rc _ => ret rc
  end.

End Startup.

(** ** Config block codec, lines 2217-2670

    [cyttsp4_write_config_common] and [cyttsp4_write_config] are built from
    the block-level commands of the driver. These commands form the
    interface [ConfigBlockOps]; the codec is written once over the interface
    and is run below on the commands as the driver issues them over the bus,
    and on an instrumented copy that records every command with its
    reply. *)

Class ConfigBlockOps (St : Type) : Type := {
  (* status and [*config_row_size] *)
  cyttsp4_get_config_row_size : M St (Z * Z);
  (* [ebid], [row], [length]: status and the bytes copied into [data] *)
  cyttsp4_read_config_block : Z -> Z -> Z -> M St (Z * list Z);
  (* [ebid], [row], the bytes at [data], [length]: status *)
  cyttsp4_write_config_block : Z -> Z -> list Z -> Z -> M St Z;
  (* [ebid]: status, [*calc_crc], [*stored_crc] *)
  cyttsp4_verify_config_block_crc : Z -> M St (Z * (Z * Z));
  (* [ebid]: status, [*length], [*max_length] *)
  cyttsp4_get_config_length : Z -> M St (Z * (Z * Z));
  (* [si->ready], read under the system lock *)
  sysinfo_ready : M St bool;
  (* [PUT_FIELD16(si, val, crc_data)]: the two bytes stored *)
  PUT_FIELD16 : Z -> M St (list Z)
}.

Section ConfigCodec.
Context {St : Type} {Ops : ConfigBlockOps St}.

(** The loop [while (cur_block < end_block)] of
    [cyttsp4_write_config_common], line 2569: status, [cur_block] and
    [data] when it is left. [cur_block] grows by one in every iteration, so
    [end_block - cur_block] iterations are enough. *)
Fixpoint write_whole_rows (n : nat) (ebid cur_block end_block config_row_size : Z)
  (data : list Z) : M St (Z * (Z * list Z)) :=
  match n with
  | O => ret (0, (cur_block, data))
  | S k =>
      if cur_block <? end_block then
        rc <- cyttsp4_write_config_block ebid cur_block data config_row_size ;;
        if negb (rc =? 0) then ret (rc, (cur_block, data))
        else
          write_whole_rows k ebid (u16 (cur_block + 1)) end_block config_row_size
            (skipn (Z.to_nat config_row_size) data)
      else ret (0, (cur_block, data))
  end.

(** From the label [no_offset] on, line 2568. *)
Definition write_from_no_offset (ebid cur_block end_block end_off config_row_size : Z)
  (data : list Z) : M St Z :=
  '(rc, (cur_block, data)) <-
     write_whole_rows (Z.to_nat (end_block - cur_block)) ebid cur_block end_block
       config_row_size data ;;
  if negb (rc =? 0) then ret rc
  else
    (* Last block *)
    if cur_block =? end_block then
      rc <- cyttsp4_write_config_block ebid end_block data end_off ;;
      ret rc
    else ret rc.

(** The body of [cyttsp4_write_config_common] once the row size is known,
    from line 2527 on. [data] holds the bytes at the caller's pointer;
    [row_data] is the row buffer the function allocates. *)
Definition write_rows (ebid offset : Z) (data : list Z) (length config_row_size : Z)
  : M St Z :=
  let cur_block := u16 (offset / config_row_size) in
  let cur_off := u16 (offset mod config_row_size) in
  let end_block := u16 ((offset + length) / config_row_size) in
  let end_off := u16 ((offset + length) mod config_row_size) in
  (* Check whether we need to fetch the whole block first *)
  if cur_off =? 0 then
    write_from_no_offset ebid cur_block end_block end_off config_row_size data
  else
    let row_data := repeat 0 (Z.to_nat config_row_size) in
    let copy_len :=
      if cur_block =? end_block then length else config_row_size - cur_off in
    (* Read up to current offset, append the new data and write it back *)
    '(rc, bytes) <- cyttsp4_read_config_block ebid cur_block cur_off ;;
    let row_data := store_at row_data 0 bytes in
    if negb (rc =? 0) then ret rc
    else
      let row_data :=
        store_at row_data (Z.to_nat cur_off) (firstn (Z.to_nat copy_len) data) in
      rc <- cyttsp4_write_config_block ebid cur_block row_data
              (u16 (cur_off + copy_len)) ;;
      if negb (rc =? 0) then ret rc
      else
        write_from_no_offset ebid (u16 (cur_block + 1)) end_block end_off
          config_row_size (skipn (Z.to_nat copy_len) data).

(** [cyttsp4_write_config_common], line 2511. *)
Definition cyttsp4_write_config_common (ebid offset : Z) (data : list Z) (length : Z)
  : M St Z :=
  '(rc, config_row_size) <- cyttsp4_get_config_row_size ;;
  if negb (rc =? 0) then ret rc
  else write_rows ebid offset data length config_row_size.

(** [cyttsp4_write_config], line 2599. *)
Definition cyttsp4_write_config (ebid offset : Z) (data : list Z) (length : Z)
  : M St Z :=
  rdy <- sysinfo_ready ;;
  if negb rdy then ret (- ENODEV)
  else
    (* CRC is stored at config max length offset *)
    '(rc, (conf_len, crc_offset)) <- cyttsp4_get_config_length ebid ;;
    if negb (rc =? 0) then ret rc
    else
      (* Allow CRC update also *)
      if crc_offset + 2 <? offset + length then ret (- EINVAL)
      else
        rc <- cyttsp4_write_config_common ebid offset data length ;;
        if negb (rc =? 0) then ret rc
        else
          (* Verify config block CRC *)
          '(rc, (crc_new, crc_old)) <- cyttsp4_verify_config_block_crc ebid ;;
          if negb (rc =? 0) then ret rc
          else if crc_new =? crc_old then ret rc
          else
            crc_data <- PUT_FIELD16 crc_new ;;
            rc <- cyttsp4_write_config_common ebid crc_offset crc_data 2 ;;
            ret rc.

End ConfigCodec.

(** *** Recording the block commands *)

(** A block command as issued, with its reply. *)
Inductive cfg_op : Type :=
| OpRowSize (rc config_row_size : Z)
| OpRead (ebid row length rc : Z) (bytes : list Z)
| OpWrite (ebid row : Z) (data : list Z) (length rc : Z)
| OpVerifyCrc (ebid rc calc_crc stored_crc : Z)
| OpConfigLength (ebid rc length max_length : Z).

(** A command run on the first component of the state and appended, with its
    reply, to the record kept in the second one. *)
Definition recorded {St A : Type} (f : M St A) (op : A -> cfg_op) : M (St * list cfg_op) A :=
  fun st =>
    let '(a, s') := f (fst st) in
    (a, (s', snd st ++ [op a])).

Definition unrecorded {St A : Type} (f : M St A) : M (St * list cfg_op) A :=
  fun st => let '(a, s') := f (fst st) in (a, (s', snd st)).

#[export] Instance recording_ops {St : Type} (Ops : ConfigBlockOps St)
  : ConfigBlockOps (St * list cfg_op) := {|
  cyttsp4_get_config_row_size :=
    recorded cyttsp4_get_config_row_size (fun r => OpRowSize (fst r) (snd r));
  cyttsp4_read_config_block := fun ebid row length =>
    recorded (cyttsp4_read_config_block ebid row length)
      (fun r => OpRead ebid row length (fst r) (snd r));
  cyttsp4_write_config_block := fun ebid row data length =>
    recorded (cyttsp4_write_config_block ebid row data length)
      (fun rc => OpWrite ebid row (firstn (Z.to_nat length) data) length rc);
  cyttsp4_verify_config_block_crc := fun ebid =>
    recorded (cyttsp4_verify_config_block_crc ebid)
      (fun r => OpVerifyCrc ebid (fst r) (fst (snd r)) (snd (snd r)));
  cyttsp4_get_config_length := fun ebid =>
    recorded (cyttsp4_get_config_length ebid)
      (fun r => OpConfigLength ebid (fst r) (fst (snd r)) (snd (snd r)));
  sysinfo_ready := unrecorded sysinfo_ready;
  PUT_FIELD16 := fun v => unrecorded (PUT_FIELD16 v)
|}.

(** The shape of a block command: what it is, on which row, and how many
    bytes it moves. *)
Inductive cfg_shape : Set :=
| ShRowSize
| ShRead (row length : Z)
| ShWrite (row length : Z)
| ShVerifyCrc
| ShConfigLength.

Definition shape_of (op : cfg_op) : cfg_shape :=
  match op with
  | OpRowSize _ _ => ShRowSize
  | OpRead _ row length _ _ => ShRead row length
  | OpWrite _ row _ length _ => ShWrite row length
  | OpVerifyCrc _ _ _ _ => ShVerifyCrc
  | OpConfigLength _ _ _ _ => ShConfigLength
  end.

(** The rows [first], [first + 1], ..., [first + n - 1]. *)
Fixpoint rows_from (first : Z) (n : nat) : list Z :=
  match n with
  | O => []
  | S k => first :: rows_from (first + 1) k
  end.

(** The block commands a successful [cyttsp4_write_config_common] issues
    after it has learnt the row size: a read and a write of the first row
    when the write starts inside it, a write of every whole row, and a write
    of the last row. *)
Definition expected_row_commands (offset length config_row_size : Z) : list cfg_shape :=
  let cur_block := offset / config_row_size in
  let cur_off := offset mod config_row_size in
  let end_block := (offset + length) / config_row_size in
  let end_off := (offset + length) mod config_row_size in
  let copy_len := if cur_block =? end_block then length else config_row_size - cur_off in
  let first_whole := if cur_off =? 0 then cur_block else cur_block + 1 in
  (if cur_off =? 0 then []
   else [ShRead cur_block cur_off; ShWrite cur_block (cur_off + copy_len)])
  ++ map (fun row => ShWrite row config_row_size)
       (rows_from first_whole (Z.to_nat (end_block - first_whole)))
  ++ (if first_whole <=? end_block then [ShWrite end_block end_off] else []).

(** *** The block commands on the bus, lines 2217-2509 *)

(** Command codes, buffer sizes and field macros of cyttsp4_regs.h that the
    block commands use; the header is not among the sources. *)
Class CatRegs : Type := {
  CY_CMD_CAT_GET_CFG_ROW_SZ : Z;
  CY_CMD_CAT_READ_CFG_BLK : Z;
  CY_CMD_CAT_WRITE_CFG_BLK : Z;
  CY_CMD_CAT_VERIFY_CFG_BLK_CRC : Z;
  CY_CMD_CAT_GET_CFG_ROW_SIZE_CMD_SZ : Z;
  CY_CMD_CAT_GET_CFG_ROW_SIZE_RET_SZ : Z;
  CY_CMD_CAT_READ_CFG_BLK_CMD_SZ : Z;
  CY_CMD_CAT_READ_CFG_BLK_RET_SZ : Z;
  CY_CMD_CAT_READ_CFG_BLK_RET_HDR_SZ : Z;
  CY_CMD_CAT_WRITE_CFG_BLK_CMD_SZ : Z;
  CY_CMD_CAT_WRITE_CFG_BLK_CMD_HDR_SZ : Z;
  CY_CMD_CAT_WRITE_CFG_BLK_RET_SZ : Z;
  CY_CMD_CAT_VERIFY_CFG_BLK_CRC_CMD_SZ : Z;
  CY_CMD_CAT_VERIFY_CFG_BLK_CRC_RET_SZ : Z;
  CY_CMD_STATUS_SUCCESS : Z;
  CY_CONFIG_LENGTH_INFO_OFFSET : Z;
  CY_CONFIG_LENGTH_INFO_SIZE : Z;
  CY_CONFIG_LENGTH_OFFSET : Z;
  CY_CONFIG_MAXLENGTH_OFFSET : Z;
  (* [GET_FIELD16(si, &buf[i])] *)
  GET_FIELD16 : cyttsp4_sysinfo -> list Z -> nat -> Z;
  (* [PUT_FIELD16(si, val, buf)]: the two bytes stored in [buf] *)
  PUT_FIELD16_bytes : cyttsp4_sysinfo -> Z -> list Z
}.

Section BusConfigOps.
Context {R : Regs} {C : CatRegs} {D : Type} {H : Hardware D}.

(** A local array or a fresh allocation of [size] bytes, with the bytes the
    code stores at its start. *)
Definition new_buf (size : Z) (init : list Z) : list Z :=
  store_at (repeat 0 (Z.to_nat size)) 0 init.


(** [cyttsp4_read_config_block], line 2217. *)
Definition bus_read_config_block (ebid row length : Z) : Drv D (Z * list Z) :=
  let ebid := u8 ebid in
  let row := u16 row in
  let length := u16 length in
  let return_buf_sz := CY_CMD_CAT_READ_CFG_BLK_RET_SZ + length in
  let command_buf :=
    new_buf CY_CMD_CAT_READ_CFG_BLK_CMD_SZ
      [u8 CY_CMD_CAT_READ_CFG_BLK; HI_BYTE row; LO_BYTE row;
       HI_BYTE length; LO_BYTE length; ebid] in
  '(rc, return_buf) <-
     cyttsp4_exec_cmd CY_MODE_CAT command_buf CY_CMD_CAT_READ_CFG_BLK_CMD_SZ
       true return_buf_sz CY_COMMAND_COMPLETE_TIMEOUT ;;
  if negb (rc =? 0) then ret (rc, [])
  else
    let hdr := Z.to_nat CY_CMD_CAT_READ_CFG_BLK_RET_HDR_SZ in
    let body := firstn (Z.to_nat length) (skipn hdr return_buf) in
    let crc := Crc.cyttsp4_calc_app_crc (skipn hdr return_buf) length in
    (* Validate response *)
    if negb (nth 0 return_buf 0 =? u8 CY_CMD_STATUS_SUCCESS)
       || negb (nth 1 return_buf 0 =? ebid)
       || negb (nth 2 return_buf 0 =? HI_BYTE length)
       || negb (nth 3 return_buf 0 =? LO_BYTE length)
       || negb (nth (hdr + Z.to_nat length) return_buf 0 =? HI_BYTE crc)
       || negb (nth (hdr + Z.to_nat length + 1) return_buf 0 =? LO_BYTE crc)
    then ret (- EINVAL, [])
    else ret (rc, body).

(** [cyttsp4_write_config_block], line 2283. *)
Definition bus_write_config_block (ebid row : Z) (data : list Z) (length : Z)
  : Drv D Z :=
  let ebid := u8 ebid in
  let row := u16 row in
  let length := u16 length in
  let key_sz := Z.of_nat (List.length security_key) in
  let hdr := CY_CMD_CAT_WRITE_CFG_BLK_CMD_HDR_SZ in
  let command_buf_sz := CY_CMD_CAT_WRITE_CFG_BLK_CMD_SZ + length + key_sz in
  let crc := Crc.cyttsp4_calc_app_crc data length in
  let command_buf :=
    new_buf command_buf_sz
      [u8 CY_CMD_CAT_WRITE_CFG_BLK; HI_BYTE row; LO_BYTE row;
       HI_BYTE length; LO_BYTE length; ebid] in
  let command_buf := store_at command_buf (Z.to_nat (hdr + length + key_sz)) [HI_BYTE crc] in
  let command_buf :=
    store_at command_buf (Z.to_nat (hdr + 1 + length + key_sz)) [LO_BYTE crc] in
  let command_buf :=
    store_at command_buf (Z.to_nat hdr) (firstn (Z.to_nat length) data) in
  let command_buf := store_at command_buf (Z.to_nat (hdr + length)) security_key in
  '(rc, return_buf) <-
     cyttsp4_exec_cmd CY_MODE_CAT command_buf command_buf_sz
       true CY_CMD_CAT_WRITE_CFG_BLK_RET_SZ CY_COMMAND_COMPLETE_TIMEOUT ;;
  if negb (rc =? 0) then ret rc
  else
    (* Validate response *)
    if negb (nth 0 return_buf 0 =? u8 CY_CMD_STATUS_SUCCESS)
       || negb (nth 1 return_buf 0 =? ebid)
       || negb (nth 2 return_buf 0 =? HI_BYTE length)
       || negb (nth 3 return_buf 0 =? LO_BYTE length)
    then ret (- EINVAL)
    else ret rc.




End BusConfigOps.

(** The writes of [n] whole rows from row [first] on, as recorded: each takes
    the next [config_row_size] bytes of the data and succeeds. *)
Fixpoint whole_row_writes (ebid first : Z) (n : nat) (config_row_size : Z)
  (data : list Z) : list cfg_op :=
  match n with
  | O => []
  | S k =>
      OpWrite ebid first (firstn (Z.to_nat config_row_size) data) config_row_size 0
      :: whole_row_writes ebid (first + 1) k config_row_size
           (skipn (Z.to_nat config_row_size) data)
  end.

(** The data pointer after [n] whole rows. *)
Fixpoint skip_rows (n : nat) (config_row_size : Z) (data : list Z) : list Z :=
  match n with
  | O => data
  | S k => skip_rows k config_row_size (skipn (Z.to_nat config_row_size) data)
  end.
(** ** Exclusive access arbiter, lines 1512-1577

    [request_exclusive] and [release_exclusive] run under [system_lock]
    except while a caller sleeps on the wait queue, so a run of several
    callers is an interleaving of the locked regions of the two functions and
    of timer ticks. The callers are threads of the kernel, told apart by a
    number. The [ownptr] a caller passes is an argument of its call: several
    callers may pass the same one, as the call sites of the driver do, which
    all pass the device pointer of the core. *)

Module Arbiter.

(** Where a caller stands. *)
Inductive pc : Set :=
| Outside
    (* not inside [request_exclusive] *)
| Waiting (ownptr : Z) (with_timeout : bool) (t : nat)
    (* asleep in [wait_event_timeout] (line 1528) or [wait_event] (line
       1538); [t] ticks of the timeout are left *)
| Woken (ownptr : Z) (with_timeout : bool) (t : nat)
    (* the wait has returned with the condition true; about to take the
       lock at line 1540 *)
| TimedOut.
    (* [wait_event_timeout] has returned 0; about to take the lock at line
       1532 *)

Record arbiter : Type := {
  exclusive_dev : Z;
  exclusive_waits : Z;
  at_pc : Z -> pc;
  (* what the last call of each caller returned *)
  returned : Z -> option Z;
  (* no field of the driver: the callers to which [request_exclusive] has
     returned 0 since [release_exclusive] last freed the token *)
  holds : Z -> bool
}.


(** What the scheduler can pick. *)
Inductive action : Set :=
| Request (caller ownptr timeout_ms : Z)
    (* a caller enters [request_exclusive] *)
| Run (caller : Z)
    (* a caller inside [request_exclusive] goes on *)
| Release (caller ownptr : Z)
    (* a caller calls [release_exclusive] *)
| Tick.
    (* a timer tick passes *)

Section Steps.
Context {R : Regs}.




(** A timer tick: every sleeper with a timeout has one tick less. *)
Definition tick (s : arbiter) : arbiter :=
  {| exclusive_dev := exclusive_dev s; exclusive_waits := exclusive_waits s;
     at_pc := fun c =>
       match at_pc s c with
       | Waiting o true (S t) => Waiting o true t
       | p => p
       end;
     returned := returned s; holds := holds s |}.



(** The state after [kzalloc]: token free, nobody waiting, every caller
    outside. *)
Definition init : arbiter :=
  {| exclusive_dev := 0; exclusive_waits := 0;
     at_pc := fun _ => Outside; returned := fun _ => None;
     holds := fun _ => false |}.


(** The ticks of a schedule. *)
Definition ticks (sched : list action) : nat :=
  length (filter (fun a => match a with Tick => true | _ => false end) sched).





End Steps.

End Arbiter.

(** ** A concrete header and a simulated device

    Used to run the model on concrete inputs (scenarios, witnesses and
    counterexamples). *)

(** Modelled from the spec: values for the constants of cyttsp4_regs.h. The
    base register holds the host-status byte with the device-mode bits, the
    mode-change marker, the sleep bit and the toggle bit; the command byte
    keeps its top bits for completion and toggle. *)
#[export] Instance tma4xx_regs : Regs := {|
  CY_REG_BASE := 0x00;
  CY_REG_CAT_CMD := 2;
  CY_HST_TOGGLE := 0x80;
  CY_HST_MODE_CHANGE := 0x08;
  CY_HST_DEVICE_MODE := 0x70;
  CY_HST_OPERATE := 0x00;
  CY_HST_SYSINFO := 0x10;
  CY_HST_CAT := 0x20;
  CY_HST_SLEEP := 0x02;
  CY_HST_RESET := 0x01;
  CY_CMD_COMPLETE := 0x40;
  CY_CMD_COMPLETE_MASK := 0x40;
  CY_CMD_MASK := 0x3F;
  CY_CMD_OP_WAIT_FOR_EVENT := 6;
  CY_INT_IGNORE := 1;
  CY_INT_MODE_CHANGE := 2;
  CY_INT_EXEC_CMD := 4;
  CY_INT_AWAKE := 8;
  IS_BOOTLOADER := fun hst_mode reset_detect =>
    negb (Z.land hst_mode 0x01 =? 0) || negb (reset_detect =? 0);
  IS_BOOTLOADER_IDLE := fun hst_mode reset_detect =>
    negb (Z.land hst_mode 0x01 =? 0) && negb (Z.land reset_detect 0x01 =? 0);
  IS_DEEP_SLEEP_CONFIGURED := fun x => (x =? 0) || (x =? 0xFF);
  GET_TOGGLE := fun reg => Z.shiftr (Z.land reg 0x80) 7;
  GET_NUM_TOUCH_RECORDS := fun x => Z.land x 0x1F;
  CY_CORE_RESET_AND_WAIT_TIMEOUT := 5;
  CY_CORE_WAIT_SYSINFO_MODE_TIMEOUT := 4;
  CY_CORE_MODE_CHANGE_TIMEOUT := 3;
  CY_COMMAND_COMPLETE_TIMEOUT := 3;
  CY_WATCHDOG_TIMEOUT := 1;
  msecs_to_jiffies := Z.to_nat
|}.

(** A simulated device: it answers the reads, in order, with the scripted
    statuses and bytes (and with an I/O error once the script is used up),
    and accepts every write. *)
Record sim_device : Set := { answers : list (Z * list Z) }.

#[export] Instance sim_hardware : Hardware sim_device := {|
  bus_read := fun d _ _ =>
    match answers d with
    | [] => ((- EIO, []), d)
    | a :: rest => (a, {| answers := rest |})
    end;
  bus_write := fun d _ _ => (0, d);
  plat_power := fun d _ => (0, d);
  plat_xres := fun d => d
|}.

Definition sim_si_ofs : cyttsp4_sysinfo_ofs :=
  {| cmd_ofs := 2; rep_ofs := 3; tt_stat_ofs := 5; rep_hdr_size := 3;
     tch_rec_size := 10; max_tchs := 10; mode_size := 6 |}.

(** The driver state a simulation starts from. *)
Definition sim_cd (m : cyttsp4_mode) : cyttsp4_core_data :=
  {| mode := m; int_status := 0; heartbeat_count := 0;
     startup_state := STARTUP_NONE; sleep_state := SS_SLEEP_OFF;
     cmd_toggle := 0; invalid_touch_app := false; bl_fast_exit := false;
     wake_initiated_by_device := 0; easy_wakeup_gesture := 0;
     sysinfo := {| ready := true; si_ofs := sim_si_ofs; xy_mode := None |};
     cpdata := {| flags := 0; xres := true; power := false; level_irq_udelay := 0 |} |}.

Definition sim_world (m : cyttsp4_mode) (script : list (Z * list Z)) (ticks : list tick)
  : world sim_device :=
  {| cd := sim_cd m; dev := {| answers := script |}; log := []; future := ticks |}.

(** The command executor scenario: the status byte is first read with its
    completion bit clear; an interrupt whose command byte has the
    completion bit set arrives during each of the two waits; the response
    is the two bytes AA BB. *)
Definition sim_busy_world : world sim_device :=
  sim_world CY_MODE_OPERATIONAL
    [(0, [0x00]); (0, [0x00; 0x00; 0x40]); (0, [0x40]);
     (0, [0x00; 0x00; 0x42]); (0, [0xAA; 0xBB])]
    [TickIrq; TickIrq].

(** The startup scenario with a corrupted application image: the device
    answers the reset with a bootloader heartbeat, never reaches SysInfo
    mode, and shows the error signature at the base register. *)
Definition sim_corrupted_world : world sim_device :=
  sim_world CY_MODE_UNKNOWN
    [(0, [0x01; 0x00; 0x00]); (0, [0x01; 0x02; 0x00; 0x00; 0x55; 0xDD; 0x17])]
    [TickIrq].

(** Stand-ins for the later steps of the startup protocol in simulations:
    each of them succeeds without touching anything. *)
Definition sim_step : Drv sim_device Z := ret 0.

(** A simulated config block device: every block command succeeds; the row
    size, the two CRCs of the verify command and the offset of the stored
    CRC are fixed; a read returns bytes EE. *)
Record sim_cfg : Set := {
  sim_row_size : Z;
  sim_calc_crc : Z;
  sim_stored_crc : Z;
  sim_crc_offset : Z
}.

#[export] Instance sim_cfg_ops : ConfigBlockOps sim_cfg := {|
  cyttsp4_get_config_row_size := fun s => ((0, sim_row_size s), s);
  cyttsp4_read_config_block := fun _ _ length s =>
    ((0, repeat 0xEE (Z.to_nat length)), s);
  cyttsp4_write_config_block := fun _ _ _ _ s => (0, s);
  cyttsp4_verify_config_block_crc := fun _ s =>
    ((0, (sim_calc_crc s, sim_stored_crc s)), s);
  cyttsp4_get_config_length := fun _ s => ((0, (200, sim_crc_offset s)), s);
  sysinfo_ready := fun s => (true, s);
  PUT_FIELD16 := fun v s => ([HI_BYTE v; LO_BYTE v], s)
|}.

(** Sixty bytes of new configuration data: 1, 2, ..., 60. *)
Definition sim_cfg_data : list Z := map Z.of_nat (seq 1 60).

Definition sim_cfg_equal_crc : sim_cfg :=
  {| sim_row_size := 128; sim_calc_crc := 0x1234; sim_stored_crc := 0x1234;
     sim_crc_offset := 254 |}.

Definition sim_cfg_stale_crc : sim_cfg :=
  {| sim_row_size := 128; sim_calc_crc := 0x1234; sim_stored_crc := 0x4321;
     sim_crc_offset := 254 |}.

(** [cyttsp4_write_config] run on the simulated device with every block
    command recorded. *)
Definition sim_write_config (s : sim_cfg) (offset : Z) (data : list Z) (length : Z)
  : Z * (sim_cfg * list cfg_op) :=
  @cyttsp4_write_config _ (recording_ops sim_cfg_ops) 0 offset data length (s, []).

(** The three waits elapse on a simulated device that stays silent while
    both pending flags are set. *)
Definition sim_pending_world : world sim_device :=
  {| cd := with_int_status 6 (sim_cd CY_MODE_BOOTLOADER);
     dev := {| answers := [] |}; log := []; future := [TickIdle; TickIdle] |}.




(** *** Interrupts of a device that sits in its bootloader

    What the interrupt handler finds when it reads the three bytes at the
    base register (line 1188): a bootloader header in the idle sub-state, a
    bootloader header that is not idle, or a failed read. *)

Inductive bootloader_irq : Set :=
| BlIdle
| BlBusy
| BlReadError.

Section BootloaderInterrupts.
Context {R : Regs} {D : Type} {H : Hardware D}.

Definition answers_as (k : bootloader_irq) (rc : Z) (hdr : list Z) : Prop :=
  match k with
  | BlIdle =>
      rc = 0 /\ IS_BOOTLOADER (nth 0 hdr 0) (nth 1 hdr 0) = true /\
      IS_BOOTLOADER_IDLE (nth 0 hdr 0) (nth 1 hdr 0) = true
  | BlBusy =>
      rc = 0 /\ IS_BOOTLOADER (nth 0 hdr 0) (nth 1 hdr 0) = true /\
      IS_BOOTLOADER_IDLE (nth 0 hdr 0) (nth 1 hdr 0) = false
  | BlReadError => rc <> 0
  end.

(** The device answers the next reads of the header, one per interrupt, as
    the list says. *)
Fixpoint bootloader_answers (ks : list bootloader_irq) (d : D) : Prop :=
  match ks with
  | [] => True
  | k :: rest =>
      let '((rc, hdr), d') := bus_read d (u16 CY_REG_BASE) 3 in
      answers_as k rc hdr /\ bootloader_answers rest d'
  end.

(** How many of the interrupts show the idle sub-state. *)
Definition idle_count (ks : list bootloader_irq) : nat :=
  length (filter (fun k => match k with BlIdle => true | _ => false end) ks).


(** A piece of driver code that leaves a field of the driver state as it
    is. *)
Definition keeps {A X : Type} (field : cyttsp4_core_data -> X) (m : Drv D A) : Prop :=
  forall w, field (cd (snd (m w))) = field (cd w).


End BootloaderInterrupts.

(** A simulated device in its bootloader that is idle, idle, busy, idle,
    idle, busy and idle on seven interrupts: never more than two idle
    headers in a row. *)
Definition sim_interleaved_world : world sim_device :=
  sim_world CY_MODE_BOOTLOADER
    [(0, [1; 1; 0]); (0, [1; 1; 0]); (0, [1; 0; 0]); (0, [1; 1; 0]);
     (0, [1; 1; 0]); (0, [1; 0; 0]); (0, [1; 1; 0])]
    [].

(** ** Further parts of the driver *)

(** *** The restart budget

    [schedule_work(&cd->startup_work)] is reached only through
    [cyttsp4_queue_startup], which is a no-op unless [startup_state] is
    [STARTUP_NONE]: a driver state has a budget of one restart while no
    startup is queued or running, and of none otherwise. *)

Definition startup_budget (c : cyttsp4_core_data) : nat :=
  match startup_state c with STARTUP_NONE => 1 | _ => 0 end.

(** A piece of driver code that stays within the budget: it only appends to
    the log, and the restarts it schedules are paid from the budget, which
    it never raises. *)
Definition within_budget {D A : Type} (m : Drv D A) : Prop :=
  forall w, exists l,
    log (snd (m w)) = log w ++ l /\
    (restarts l + startup_budget (cd (snd (m w))) <= startup_budget (cd w))%nat.

(** *** Who writes [startup_state]

    [cd->startup_state] is written at three places of the driver: by
    [cyttsp4_queue_startup] (line 1072), and by [cyttsp4_startup], the body
    of the startup work, in its first locked region (line 3876) and in its
    last one (line 3897). The interrupt handler, the two regions and the
    calls of [cyttsp4_queue_startup] on the way to sleep and on waking up
    all run with [system_lock] held, so they follow one another; as far as
    this field and [schedule_work] are concerned, a run of the driver is an
    interleaving of the activities below. The call of
    [cyttsp4_queue_startup] by the watchdog work (line 3226) is made without
    the lock and is not among them. *)

Section StartupActivities.
Context {R : Regs} {D : Type} {H : Hardware D}.

(** The first locked region of [cyttsp4_startup], lines 3875-3877. *)
Definition startup_entry_region : Drv D unit :=
  modify_cd (with_startup_state STARTUP_RUNNING).

(** The last locked region of [cyttsp4_startup] and the wake-up that
    follows it, lines 3896-3901. *)
Definition startup_exit_region : Drv D unit :=
  modify_cd (with_startup_state STARTUP_NONE) ;;
  wake_up.

Inductive activity : Type :=
| ActIrq
    (* the interrupt handler runs *)
| ActQueueStartup
    (* other code calls [cyttsp4_queue_startup] with the lock held: going
       to sleep (line 3349), waking up (lines 3480 and 3596) *)
| ActStartupEnter
    (* [cyttsp4_startup] passes its first locked region *)
| ActStartupExit
    (* [cyttsp4_startup] passes its last locked region *)
| ActOther (f : cyttsp4_core_data -> cyttsp4_core_data) (g : D -> D).
    (* any other code: it changes the other fields of the driver state and
       the device in any way, and leaves [startup_state] alone *)

Definition run_activity (a : activity) : Drv D unit :=
  match a with
  | ActIrq => cyttsp4_irq
  | ActQueueStartup => cyttsp4_queue_startup
  | ActStartupEnter => startup_entry_region
  | ActStartupExit => startup_exit_region
  | ActOther f g =>
      fun w =>
        (tt, {| cd := with_startup_state (startup_state (cd w)) (f (cd w));
                dev := g (dev w); log := log w; future := future w |})
  end.

Fixpoint run_activities (acts : list activity) : Drv D unit :=
  match acts with
  | [] => ret tt
  | a :: rest => run_activity a ;; run_activities rest
  end.

(** How often [cyttsp4_startup] has passed its last locked region. *)
Definition startup_exits (acts : list activity) : nat :=
  length (filter (fun a => match a with ActStartupExit => true | _ => false end) acts).

End StartupActivities.

(** *** The CRC register shift, backwards

    One iteration of the inner loop of [cyttsp4_calc_partial_app_crc] moves
    bit 15 of the register out and, when it was set, folds the polynomial
    0x1021 in; as the polynomial is odd, bit 0 of the result tells which of
    the two happened, and the step can be undone. *)

Definition crc_unshift1 (crc : Z) : Z :=
  if Z.odd crc then Z.shiftr (Z.lxor crc 0x1021) 1 + 0x8000
  else Z.shiftr crc 1.

Fixpoint crc_unshift (j : nat) (crc : Z) : Z :=
  match j with
  | O => crc
  | S j' => crc_unshift1 (crc_unshift j' crc)
  end.

(** All numbers of [bits] bits. *)
Fixpoint all_words (bits : nat) : list Z :=
  match bits with
  | O => [0]
  | S k => flat_map (fun z => [2 * z; 2 * z + 1]) (all_words k)
  end.

(** *** Touch records, lines 237-255 *)

Module TouchRecord.

(** The fields of [struct cyttsp4_tch_abs_params] the decoder reads: byte
    offset of the field in a touch record, byte count, [1 << bits], and bit
    offset. *)
Record cyttsp4_tch_abs_params : Set := {
  ofs : Z;
  size : Z;
  max : Z;
  bofs : Z
}.

(** [cyttsp4_get_touch_record_]: [tch_abs] is the array
    [si->si_ofs.tch_abs], one entry per touch field, and the result is the
    array [rec_abs] with one value per field. The record starts
    [rec_no * tch_rec_size] bytes into [si->xy_data]; offsets are not
    negative. *)
Definition cyttsp4_get_touch_record_ (tch_abs : list cyttsp4_tch_abs_params)
  (tch_rec_size : Z) (xy_data : list Z) (rec_no : Z) : list Z :=
  let rec_data := skipn (Z.to_nat (rec_no * tch_rec_size)) xy_data in
  map (fun p =>
         Touch.cyttsp4_get_touch_axis (int32 (size p)) (int32 (max p))
           (skipn (Z.to_nat (ofs p)) rec_data) (int32 (bofs p)))
      tch_abs.

End TouchRecord.

(** *** Attention subscribers, lines 53-61, 1083-1102 and 1447-1510 *)

Module Atten.

(** [struct atten_node] without its list linkage: [id] is a [char], [func]
    and [dev] are pointers, [mode] is an [int]. *)
Record atten_node : Set := {
  id : Z;
  func : Z;
  dev : Z;
  mode : Z
}.

(** [cd->atten_list]: one list per attention type, the node added last
    first ([list_add] inserts at the head). *)
Definition atten_lists : Set := cyttsp4_atten_type -> list atten_node.

Definition atten_type_eqb (a b : cyttsp4_atten_type) : bool :=
  match a, b with
  | CY_ATTEN_IRQ, CY_ATTEN_IRQ
  | CY_ATTEN_STARTUP, CY_ATTEN_STARTUP
  | CY_ATTEN_WAKE, CY_ATTEN_WAKE => true
  | _, _ => false
  end.

(** [cd->atten_list[type] = l]. *)
Definition set_list (al : atten_lists) (type : cyttsp4_atten_type) (l : list atten_node)
  : atten_lists :=
  fun t => if atten_type_eqb t type then l else al t.

(** [atten->id == id && atten->mode == mode]. *)
Definition subscribed (id mode : Z) (atten : atten_node) : bool :=
  (Atten.id atten =? id) && (Atten.mode atten =? mode).

(** The (id, mode) pairs of a list. *)
Definition keys (l : list atten_node) : list (Z * Z) :=
  map (fun atten => (Atten.id atten, Atten.mode atten)) l.

(** [_cyttsp4_subscribe_attention], line 1447. [alloc] tells whether
    [kzalloc] returned a node. *)
Definition _cyttsp4_subscribe_attention (alloc : bool) (al : atten_lists)
  (dev : Z) (type : cyttsp4_atten_type) (id func mode : Z) : Z * atten_lists :=
  if negb alloc then (- ENOMEM, al)
  else if existsb (subscribed id mode) (al type) then (0, al)
  else
    (0, set_list al type
          ({| id := id; func := func; dev := dev; mode := mode |} :: al type)).

(** The loop of [_cyttsp4_unsubscribe_attention]: the list without the
    first node of the given id and mode, if there is one. *)
Fixpoint list_del_first (id mode : Z) (l : list atten_node) : option (list atten_node) :=
  match l with
  | [] => None
  | atten :: rest =>
      if subscribed id mode atten then Some rest
      else
        match list_del_first id mode rest with
        | Some rest' => Some (atten :: rest')
        | None => None
        end
  end.

(** [_cyttsp4_unsubscribe_attention], line 1487; [func] is not looked at. *)
Definition _cyttsp4_unsubscribe_attention (al : atten_lists)
  (type : cyttsp4_atten_type) (id func mode : Z) : Z * atten_lists :=
  match list_del_first id mode (al type) with
  | Some l => (0, set_list al type l)
  | None => (- ENODEV, al)
  end.

(** [call_atten_cb], line 1083: the callbacks called, each with its device,
    in the order of the calls. A callback is taken not to change the list
    it is called from. *)
Definition call_atten_cb (al : atten_lists) (type : cyttsp4_atten_type) (mode : Z)
  : list (Z * Z) :=
  map (fun atten => (func atten, dev atten))
    (filter (fun atten => (mode =? 0) || negb (Z.land (Atten.mode atten) mode =? 0))
       (al type)).

(** A call of one of the two functions by a module. *)
Inductive atten_call : Set :=
| Subscribe (alloc : bool) (dev : Z) (type : cyttsp4_atten_type) (id func mode : Z)
| Unsubscribe (type : cyttsp4_atten_type) (id func mode : Z).

Definition atten_step (al : atten_lists) (c : atten_call) : atten_lists :=
  match c with
  | Subscribe alloc dev type id func mode =>
      snd (_cyttsp4_subscribe_attention alloc al dev type id func mode)
  | Unsubscribe type id func mode =>
      snd (_cyttsp4_unsubscribe_attention al type id func mode)
  end.

(** The lists after a sequence of calls, from the empty lists of
    [cyttsp4_probe] ([INIT_LIST_HEAD], line 4468) on. *)
Definition atten_run (calls : list atten_call) : atten_lists :=
  fold_left atten_step calls (fun _ => []).

End Atten.

(** *** Bus access for the other modules, lines 1408-1445 *)

Section BusAccess.
Context {R : Regs} {D : Type} {H : Hardware D}.

(** [cyttsp4_write_], line 1408: [m] is the mode the caller believes the
    device to be in. *)
Definition cyttsp4_write_ (m : cyttsp4_mode) (addr : Z) (buf : list Z) : Drv D Z :=
  c <- get_cd ;;
  if negb (mode_eqb m (mode c)) then ret (- EACCES)
  else cyttsp4_adap_write addr buf.

(** [cyttsp4_read_], line 1428: the status and the bytes put into [buf]. *)
Definition cyttsp4_read_ (m : cyttsp4_mode) (addr size : Z) : Drv D (Z * list Z) :=
  c <- get_cd ;;
  if negb (mode_eqb m (mode c)) then ret (- EACCES, [])
  else cyttsp4_adap_read addr size.

End BusAccess.

(** *** What a recorded run wrote *)

(** The bytes of all block writes of a record, in the order written. *)
Definition written_bytes (ops : list cfg_op) : list Z :=
  flat_map (fun op => match op with OpWrite _ _ data _ _ => data | _ => [] end) ops.

(** *** Parameters, scan types, sleep and wake-up

    Further constants and macros of cyttsp4_regs.h, used by the functions
    below; as before they are fields of a class. *)

Class OpRegs : Type := {
  CY_CMD_OP_GET_PARAM : Z;
  CY_CMD_OP_SET_PARAM : Z;
  CY_CMD_OP_GET_PARAM_CMD_SZ : Z;
  CY_CMD_OP_GET_PARAM_RET_SZ : Z;
  CY_CMD_OP_SET_PARAM_CMD_SZ : Z;
  CY_CMD_OP_SET_PARAM_RET_SZ : Z;
  CY_CMD_OP_WAIT_FOR_EVENT_CMD_SZ : Z;
  CY_RAM_ID_SCAN_TYPE : Z;
  CY_RAM_ID_TOUCHMODE_ENABLED : Z;
  CY_ST_GLOVE : Z;
  CY_ST_STYLUS : Z;
  CY_ST_PROXIMITY : Z;
  CY_ST_APA_MC : Z;
  CY_SCAN_TYPE_GLOVE : Z;
  CY_SCAN_TYPE_STYLUS : Z;
  CY_SCAN_TYPE_PROXIMITY : Z;
  CY_SCAN_TYPE_APA_MC : Z;
  CY_CORE_WAKEUP_TIMEOUT : Z;
  (* [GET_HSTMODE(reg)] *)
  GET_HSTMODE : Z -> Z;
  (* [IS_TTSP_VER_GE(si, major, minor)] *)
  IS_TTSP_VER_GE : cyttsp4_sysinfo -> Z -> Z -> bool
}.

Section Parameters.
Context {R : Regs} {OR : OpRegs} {D : Type} {H : Hardware D}.

(** The loop [while (param_size--) *param_value += *(value_buf++) << (8 *
    param_size)] of [cyttsp4_get_parameter], line 2043: the byte is shifted
    as an [int] and added to the [u32]. For a [param_size] above 4 the shift
    count reaches 32, which C leaves undefined; the model then shifts in
    [Z]. *)
Fixpoint param_value_loop (param_size : nat) (value_buf : list Z) (param_value : Z) : Z :=
  match param_size with
  | O => param_value
  | S k =>
      param_value_loop k (skipn 1 value_buf)
        (u32 (param_value + int32 (Z.shiftl (nth 0 value_buf 0) (8 * Z.of_nat k))))
  end.

(** [cyttsp4_get_parameter], line 2012: the status and [*param_value], which
    is written on success only ([None] otherwise). Array bytes the code does
    not set are 0 here. *)
Definition cyttsp4_get_parameter (param_id : Z) : Drv D (Z * option Z) :=
  let param_id := u8 param_id in
  let command_buf :=
    new_buf CY_CMD_OP_GET_PARAM_CMD_SZ [u8 CY_CMD_OP_GET_PARAM; param_id] in
  '(rc, return_buf) <-
     cyttsp4_exec_cmd CY_MODE_OPERATIONAL command_buf CY_CMD_OP_GET_PARAM_CMD_SZ
       true CY_CMD_OP_GET_PARAM_RET_SZ CY_COMMAND_COMPLETE_TIMEOUT ;;
  if rc <? 0 then ret (rc, None)
  else if negb (nth 0 return_buf 0 =? param_id) then ret (- EIO, None)
  else
    let param_size := u8 (nth 1 return_buf 0) in
    let value_buf := skipn 2 return_buf in
    ret (0, Some (param_value_loop (Z.to_nat param_size) value_buf 0)).

(** The bytes [command_buf[3 ..]] that [cyttsp4_set_parameter] fills for a
    parameter size, lines 2059-2073; [None] for a size it rejects. *)
Definition param_value_bytes (param_size param_value : Z) : option (list Z) :=
  if param_size =? 1 then Some [u8 param_value]
  else if param_size =? 2 then
    Some [u8 (Z.shiftr param_value 8); u8 param_value]
  else if param_size =? 4 then
    Some [u8 (Z.shiftr param_value 24); u8 (Z.shiftr param_value 16);
          u8 (Z.shiftr param_value 8); u8 param_value]
  else None.

(** [cyttsp4_set_parameter], line 2049. *)
Definition cyttsp4_set_parameter (param_id param_size param_value : Z) : Drv D Z :=
  let param_id := u8 param_id in
  let param_size := u8 param_size in
  let param_value := u32 param_value in
  match param_value_bytes param_size param_value with
  | None => ret (- EINVAL)
  | Some bytes =>
      let command_buf :=
        new_buf CY_CMD_OP_SET_PARAM_CMD_SZ
          ([u8 CY_CMD_OP_SET_PARAM; param_id; param_size] ++ bytes) in
      '(rc, return_buf) <-
         cyttsp4_exec_cmd CY_MODE_OPERATIONAL command_buf (3 + param_size)
           true CY_CMD_OP_SET_PARAM_RET_SZ CY_COMMAND_COMPLETE_TIMEOUT ;;
      if rc <? 0 then ret rc
      else if negb (nth 0 return_buf 0 =? param_id)
              || negb (nth 1 return_buf 0 =? param_size)
      then ret (- EIO)
      else ret 0
  end.

(** [cyttsp4_set_scantype], line 2107. *)
Definition cyttsp4_set_scantype (scantype : Z) : Drv D Z :=
  cyttsp4_set_parameter CY_RAM_ID_SCAN_TYPE 1 (u8 scantype).

(** The scan type fields of [struct cyttsp4_core_data]: the default scan
    type byte and the four enable counters, which are [int]s. *)
Record scan_state : Set := {
  default_scantype : Z;
  apa_mc_en : Z;
  glove_en : Z;
  stylus_en : Z;
  proximity_en : Z
}.

(** [_cyttsp4_generate_new_scantype], line 2116. *)
Definition _cyttsp4_generate_new_scantype (ss : scan_state) : Z :=
  let new_scantype := u8 (default_scantype ss) in
  let new_scantype :=
    if negb (apa_mc_en ss =? 0) then u8 (Z.lor new_scantype CY_SCAN_TYPE_APA_MC)
    else new_scantype in
  let new_scantype :=
    if negb (glove_en ss =? 0) then u8 (Z.lor new_scantype CY_SCAN_TYPE_GLOVE)
    else new_scantype in
  let new_scantype :=
    if negb (stylus_en ss =? 0) then u8 (Z.lor new_scantype CY_SCAN_TYPE_STYLUS)
    else new_scantype in
  let new_scantype :=
    if negb (proximity_en ss =? 0) then u8 (Z.lor new_scantype CY_SCAN_TYPE_PROXIMITY)
    else new_scantype in
  new_scantype.

(** The counters [cyttsp4_set_new_scan_type] can select. *)
Inductive scan_counter : Set := GloveEn | StylusEn | ProximityEn | ApaMcEn.

(** The [switch (scan_type)] of [cyttsp4_set_new_scan_type]. *)
Definition select_counter (scan_type : Z) : option scan_counter :=
  let scan_type := u8 scan_type in
  if scan_type =? CY_ST_GLOVE then Some GloveEn
  else if scan_type =? CY_ST_STYLUS then Some StylusEn
  else if scan_type =? CY_ST_PROXIMITY then Some ProximityEn
  else if scan_type =? CY_ST_APA_MC then Some ApaMcEn
  else None.

Definition get_counter (en : scan_counter) (ss : scan_state) : Z :=
  match en with
  | GloveEn => glove_en ss
  | StylusEn => stylus_en ss
  | ProximityEn => proximity_en ss
  | ApaMcEn => apa_mc_en ss
  end.

Definition set_counter (en : scan_counter) (v : Z) (ss : scan_state) : scan_state :=
  match en with
  | GloveEn =>
      {| default_scantype := default_scantype ss; apa_mc_en := apa_mc_en ss;
         glove_en := v; stylus_en := stylus_en ss; proximity_en := proximity_en ss |}
  | StylusEn =>
      {| default_scantype := default_scantype ss; apa_mc_en := apa_mc_en ss;
         glove_en := glove_en ss; stylus_en := v; proximity_en := proximity_en ss |}
  | ProximityEn =>
      {| default_scantype := default_scantype ss; apa_mc_en := apa_mc_en ss;
         glove_en := glove_en ss; stylus_en := stylus_en ss; proximity_en := v |}
  | ApaMcEn =>
      {| default_scantype := default_scantype ss; apa_mc_en := v;
         glove_en := glove_en ss; stylus_en := stylus_en ss;
         proximity_en := proximity_en ss |}
  end.

(** [cyttsp4_set_new_scan_type], line 2132: the status and the scan type
    fields it leaves. *)
Definition cyttsp4_set_new_scan_type (scan_type : Z) (enable : bool) (ss : scan_state)
  : Drv D (Z * scan_state) :=
  let inc := if enable then 1 else -1 in
  match select_counter scan_type with
  | None => ret (- EINVAL, ss)
  | Some en =>
      let ss1 := set_counter en (int32 (get_counter en ss + inc)) ss in
      let new_scantype := _cyttsp4_generate_new_scantype ss1 in
      rc <- cyttsp4_set_scantype new_scantype ;;
      if negb (rc =? 0)
      then ret (rc, set_counter en (int32 (get_counter en ss1 - inc)) ss1)
      else ret (rc, ss1)
  end.

(** [cyttsp4_set_proximity], line 2168. [touchmode] is an [int] that
    [cyttsp4_get_parameter] fills through a [u32] pointer. *)
Definition cyttsp4_set_proximity (enable : bool) : Drv D Z :=
  '(rc, value) <- cyttsp4_get_parameter CY_RAM_ID_TOUCHMODE_ENABLED ;;
  if negb (rc =? 0) then ret rc
  else
    let touchmode_orig := int32 (match value with Some v => v | None => 0 end) in
    let touchmode :=
      if enable then int32 (Z.lor touchmode_orig 0x80)
      else int32 (Z.land touchmode_orig 0x7F) in
    if touchmode_orig =? touchmode then ret rc
    else cyttsp4_set_parameter CY_RAM_ID_TOUCHMODE_ENABLED 1 touchmode.

(** [cyttsp4_request_enable_scan_type_] and
    [cyttsp4_request_disable_scan_type_], lines 2191-2215. *)
Definition request_scan_type (enable : bool) (scan_type : Z) (ss : scan_state)
  : Drv D (Z * scan_state) :=
  c <- get_cd ;;
  if negb (Z.land (flags (cpdata c)) CY_CORE_FLAG_SCAN_MODE_USES_RAM_ID_SCAN_TYPE =? 0)
  then cyttsp4_set_new_scan_type scan_type enable ss
  else if u8 scan_type =? CY_ST_PROXIMITY then
    rc <- cyttsp4_set_proximity enable ;; ret (rc, ss)
  else ret (- EINVAL, ss).

Definition cyttsp4_request_enable_scan_type_ := request_scan_type true.
Definition cyttsp4_request_disable_scan_type_ := request_scan_type false.

End Parameters.

(** *** Sleep and wake-up, lines 3238-3604

    The functions of the wake-up path run with [cd->system_lock] held
    except around their waits, and take and release it in pairs;
    [enable_irq], [disable_irq] and [msleep] change nothing the model keeps
    and are left out. On the way to sleep the lock is not taken and released
    in pairs, so there it is part of the model. *)

(** **** [system_lock] as the calling thread sees it

    The state of the thread is the world together with whether
    [system_lock] is held. [mutex_lock] on the held lock never returns
    ([None]): the thread that holds it is the caller itself. [mutex_unlock]
    leaves the lock free, also when it was not held (the kernel checks that
    only when mutex debugging is configured). *)

Definition Locking (D A : Type) : Type :=
  world D * bool -> option A * (world D * bool).

Definition lret {D A : Type} (a : A) : Locking D A := fun s => (Some a, s).

Definition lbind {D A B : Type} (m : Locking D A) (f : A -> Locking D B)
  : Locking D B :=
  fun s =>
    match m s with
    | (Some a, s') => f a s'
    | (None, s') => (None, s')
    end.

(** Driver code that does not touch the lock, or takes and releases it in
    pairs and is entered with the lock free. *)
Definition lift {D A : Type} (m : Drv D A) : Locking D A :=
  fun s => let (a, w') := m (fst s) in (Some a, (w', snd s)).

Definition mutex_lock {D : Type} : Locking D unit :=
  fun s => if snd s then (None, s) else (Some tt, (fst s, true)).

Definition mutex_unlock {D : Type} : Locking D unit :=
  fun s => (Some tt, (fst s, false)).

Declare Scope lock_scope.
Delimit Scope lock_scope with lock.
Notation "x <- m ;; k" := (lbind m (fun x => k))
  (at level 61, m at next level, right associativity) : lock_scope.
Notation "' pat <- m ;; k" := (lbind m (fun x => match x with pat => k end))
  (at level 61, pat pattern, m at next level, right associativity) : lock_scope.
Notation "m ;; k" := (lbind m (fun _ => k))
  (at level 61, right associativity) : lock_scope.

Section SleepWake.
Context {R : Regs} {OR : OpRegs} {D : Type} {H : Hardware D}.

(** [_cyttsp4_put_device_into_easy_wakeup], line 3270. *)
Definition _cyttsp4_put_device_into_easy_wakeup : Drv D Z :=
  c <- get_cd ;;
  if negb (IS_TTSP_VER_GE (sysinfo c) 2 5) then ret (- EINVAL)
  else
    let command_buf :=
      new_buf CY_CMD_OP_WAIT_FOR_EVENT_CMD_SZ
        [u8 CY_CMD_OP_WAIT_FOR_EVENT; u8 (easy_wakeup_gesture c)] in
    '(rc, _) <- _cyttsp4_exec_cmd CY_MODE_OPERATIONAL command_buf
                  CY_CMD_OP_WAIT_FOR_EVENT_CMD_SZ ;;
    clear_int_status CY_INT_EXEC_CMD ;;
    ret rc.

(** [_cyttsp4_put_device_into_sleep], line 3306. *)
Definition _cyttsp4_put_device_into_sleep (hst_mode_reg : Z) : Drv D Z :=
  c <- get_cd ;;
  if IS_DEEP_SLEEP_CONFIGURED (easy_wakeup_gesture c)
  then _cyttsp4_put_device_into_deep_sleep hst_mode_reg
  else _cyttsp4_put_device_into_easy_wakeup.

(** [_cyttsp4_core_sleep_device], line 3319. Its only caller,
    [cyttsp4_core_sleep_], enters it without the lock. When the device is
    not in operating mode the function unlocks (line 3340, the lock being
    free already), calls [set_mode], which takes and releases the lock
    itself, and locks (line 3345): it leaves this branch with the lock
    held. *)
Definition _cyttsp4_core_sleep_device : Locking D Z :=
  ('(rc, mode2) <- lift (cyttsp4_adap_read CY_REG_BASE 2) ;;
   if negb (rc =? 0) then lret rc
   else if IS_BOOTLOADER (nth 0 mode2 0) (nth 1 mode2 0) then lret (- EINVAL)
   else
     (* Deep sleep is only allowed in Operating mode *)
     if negb (GET_HSTMODE (nth 0 mode2 0) =? CY_HST_OPERATE) then
       mutex_unlock ;;
       (* Try switching to Operating mode *)
       rc <- lift (set_mode CY_MODE_OPERATIONAL) ;;
       mutex_lock ;;
       if rc <? 0 then
         lift cyttsp4_queue_startup ;;
         lret 0
       else
         (* Get the new host mode register value *)
         '(rc, mode2) <- lift (cyttsp4_adap_read CY_REG_BASE 2) ;;
         if negb (rc =? 0) then lret rc
         else lift (_cyttsp4_put_device_into_sleep (nth 0 mode2 0))
     else lift (_cyttsp4_put_device_into_sleep (nth 0 mode2 0)))%lock.

(** [_cyttsp4_core_poweroff_device], line 3369. *)
Definition _cyttsp4_core_poweroff_device : Drv D Z := cpdata_power 0.

(** [cyttsp4_core_sleep_], line 3381. *)
Definition cyttsp4_core_sleep_ : Locking D Z :=
  (mutex_lock ;;
   c <- lift get_cd ;;
   match sleep_state c with
   | SS_SLEEP_OFF =>
       lift (modify_cd (with_sleep_state SS_SLEEPING)) ;;
       mutex_unlock ;;
       lift cyttsp4_stop_wd_timer ;;
       rc <- (if negb (Z.land (flags (cpdata c)) CY_CORE_FLAG_POWEROFF_ON_SLEEP =? 0)
              then lift _cyttsp4_core_poweroff_device
              else _cyttsp4_core_sleep_device) ;;
       mutex_lock ;;
       lift (modify_cd (with_sleep_state SS_SLEEP_ON)) ;;
       mutex_unlock ;;
       lret rc
   | _ =>
       mutex_unlock ;;
       lret 1
   end)%lock.

(** [_cyttsp4_awake_device_from_deep_sleep], line 3442. *)
Definition _cyttsp4_awake_device_from_deep_sleep (timeout_ms : Z) : Drv D Z :=
  set_int_status CY_INT_AWAKE ;;
  c <- get_cd ;;
  rc <- (if power (cpdata c)
         then
           (* Wake up using platform power function *)
           cpdata_power 1
         else
           (* Initiate a read transaction to wake up *)
           '(rc, _) <- cyttsp4_adap_read CY_REG_BASE 1 ;; ret rc) ;;
  rc <- (if rc <? 0
         then
           (* Initiate another read transaction to wake up *)
           '(rc, _) <- cyttsp4_adap_read CY_REG_BASE 1 ;; ret rc
         else ret rc) ;;
  t <- wait_event_timeout (fun c => Z.land (int_status c) CY_INT_AWAKE =? 0)
         (msecs_to_jiffies timeout_ms) ;;
  if IS_TMO t then
    clear_int_status CY_INT_AWAKE ;;
    (* Perform a read transaction to check if device is awake *)
    '(rc, mode1) <- cyttsp4_adap_read CY_REG_BASE 1 ;;
    (if (rc <? 0) || negb (GET_HSTMODE (nth 0 mode1 0) =? CY_HST_OPERATE)
     then
       (* Try starting up *)
       cyttsp4_queue_startup
     else ret tt) ;;
    ret rc
  else ret rc.

(** [_cyttsp4_awake_device], line 3487. *)
Definition _cyttsp4_awake_device : Drv D Z :=
  c <- get_cd ;;
  if negb (wake_initiated_by_device c =? 0) then
    modify_cd (with_wake_initiated_by_device 0) ;;
    ret 0
  else
    let timeout_ms :=
      if IS_DEEP_SLEEP_CONFIGURED (easy_wakeup_gesture c)
      then CY_CORE_WAKEUP_TIMEOUT
      else int32 (CY_CORE_WAKEUP_TIMEOUT * 4) in
    _cyttsp4_awake_device_from_deep_sleep timeout_ms.

(** [_cyttsp4_core_poweron_device], line 3519. *)
Definition _cyttsp4_core_poweron_device : Drv D Z :=
  modify_cd (with_mode CY_MODE_UNKNOWN) ;;
  rc <- cpdata_power 1 ;;
  if rc <? 0 then ret rc
  else
    rc <- cyttsp4_wait_bl_heartbeat ;;
    if negb (rc =? 0) then ret rc
    else
      (* exit bl into sysinfo mode *)
      clear_int_status CY_INT_IGNORE ;;
      set_int_status CY_INT_MODE_CHANGE ;;
      rc <- _cyttsp4_ldr_exit ;;
      if rc <? 0 then ret rc
      else
        rc <- cyttsp4_wait_sysinfo_mode ;;
        if negb (rc =? 0) then ret rc
        else set_mode CY_MODE_OPERATIONAL.

(** The device is woken up: the branch of [cyttsp4_core_wake_] at line
    3590. *)
Definition wake_device : Drv D Z :=
  c <- get_cd ;;
  if negb (Z.land (flags (cpdata c)) CY_CORE_FLAG_POWEROFF_ON_SLEEP =? 0)
  then _cyttsp4_core_poweron_device
  else _cyttsp4_awake_device.

(** [cyttsp4_core_wake_], line 3574. *)
Definition cyttsp4_core_wake_ : Drv D Z :=
  c <- get_cd ;;
  match sleep_state c with
  | SS_SLEEP_ON =>
      modify_cd (with_sleep_state SS_WAKING) ;;
      clear_int_status CY_INT_IGNORE ;;
      modify_cd (with_sleep_state SS_WAKING) ;;
      rc <- wake_device ;;
      (if negb (rc =? 0) then cyttsp4_queue_startup else ret tt) ;;
      modify_cd (with_sleep_state SS_SLEEP_OFF) ;;
      cyttsp4_start_wd_timer ;;
      ret 0
  | _ => ret 1
  end.

End SleepWake.

(** *** A sample header for the further constants

    Values for the constants of [OpRegs], used to run the model on concrete
    inputs; every statement below is proved for all values. *)
#[export] Instance sim_op_regs : OpRegs := {|
  CY_CMD_OP_GET_PARAM := 2;
  CY_CMD_OP_SET_PARAM := 3;
  CY_CMD_OP_GET_PARAM_CMD_SZ := 2;
  CY_CMD_OP_GET_PARAM_RET_SZ := 6;
  CY_CMD_OP_SET_PARAM_CMD_SZ := 7;
  CY_CMD_OP_SET_PARAM_RET_SZ := 2;
  CY_CMD_OP_WAIT_FOR_EVENT_CMD_SZ := 2;
  CY_RAM_ID_SCAN_TYPE := 0x4B;
  CY_RAM_ID_TOUCHMODE_ENABLED := 0x02;
  CY_ST_GLOVE := 0;
  CY_ST_STYLUS := 1;
  CY_ST_PROXIMITY := 2;
  CY_ST_APA_MC := 3;
  CY_SCAN_TYPE_GLOVE := 0x04;
  CY_SCAN_TYPE_STYLUS := 0x08;
  CY_SCAN_TYPE_PROXIMITY := 0x40;
  CY_SCAN_TYPE_APA_MC := 0x80;
  CY_CORE_WAKEUP_TIMEOUT := 2;
  GET_HSTMODE := fun reg => Z.land reg 0x70;
  IS_TTSP_VER_GE := fun _ _ _ => true
|}.

(** Scan type fields with every counter at 0. *)
Definition sim_scan_state : scan_state :=
  {| default_scantype := 0; apa_mc_en := 0; glove_en := 0; stylus_en := 0;
     proximity_en := 0 |}.

(** The driver asleep on the simulated device. *)
Definition sim_asleep_world (script : list (Z * list Z)) (ticks : list tick)
  : world sim_device :=
  {| cd := with_sleep_state SS_SLEEP_ON (sim_cd CY_MODE_OPERATIONAL);
     dev := {| answers := script |}; log := []; future := ticks |}.

(** *** The read block command and the check of its response *)

Section ReadBlockCheck.
Context {C : CatRegs}.

(** The command [cyttsp4_read_config_block] sends, lines 2236-2241. *)
Definition read_config_block_command (ebid row length : Z) : list Z :=
  new_buf CY_CMD_CAT_READ_CFG_BLK_CMD_SZ
    [u8 CY_CMD_CAT_READ_CFG_BLK; HI_BYTE (u16 row); LO_BYTE (u16 row);
     HI_BYTE (u16 length); LO_BYTE (u16 length); u8 ebid].

(** The validation of the response, lines 2252-2275: status, block id and
    length are echoed, and the two bytes behind the data are the CRC of the
    data. *)
Definition read_config_block_response_ok (ebid length : Z) (return_buf : list Z) : bool :=
  let hdr := Z.to_nat CY_CMD_CAT_READ_CFG_BLK_RET_HDR_SZ in
  let crc := Crc.cyttsp4_calc_app_crc (skipn hdr return_buf) (u16 length) in
  (nth 0 return_buf 0 =? u8 CY_CMD_STATUS_SUCCESS)
  && (nth 1 return_buf 0 =? u8 ebid)
  && (nth 2 return_buf 0 =? HI_BYTE (u16 length))
  && (nth 3 return_buf 0 =? LO_BYTE (u16 length))
  && (nth (hdr + Z.to_nat (u16 length)) return_buf 0 =? HI_BYTE crc)
  && (nth (hdr + Z.to_nat (u16 length) + 1) return_buf 0 =? LO_BYTE crc).

(** The command [cyttsp4_write_config_block] sends, lines 2296-2325: the
    header, the data, the security key and the CRC of the data. *)
Definition write_config_block_command (ebid row : Z) (data : list Z) (length : Z)
  : list Z :=
  let ebid := u8 ebid in
  let row := u16 row in
  let length := u16 length in
  let key_sz := Z.of_nat (List.length security_key) in
  let hdr := CY_CMD_CAT_WRITE_CFG_BLK_CMD_HDR_SZ in
  let command_buf_sz := CY_CMD_CAT_WRITE_CFG_BLK_CMD_SZ + length + key_sz in
  let crc := Crc.cyttsp4_calc_app_crc data length in
  let command_buf :=
    new_buf command_buf_sz
      [u8 CY_CMD_CAT_WRITE_CFG_BLK; HI_BYTE row; LO_BYTE row;
       HI_BYTE length; LO_BYTE length; ebid] in
  let command_buf := store_at command_buf (Z.to_nat (hdr + length + key_sz)) [HI_BYTE crc] in
  let command_buf :=
    store_at command_buf (Z.to_nat (hdr + 1 + length + key_sz)) [LO_BYTE crc] in
  let command_buf :=
    store_at command_buf (Z.to_nat hdr) (firstn (Z.to_nat length) data) in
  store_at command_buf (Z.to_nat (hdr + length)) security_key.

End ReadBlockCheck.

(** A sample header for the block commands, and a simulated device in CAT
    mode that completes a command on the first interrupt and answers a read
    of three bytes of block 0 with the given response. *)
#[export] Instance sim_cat_regs : CatRegs := {|
  CY_CMD_CAT_GET_CFG_ROW_SZ := 2;
  CY_CMD_CAT_READ_CFG_BLK := 3;
  CY_CMD_CAT_WRITE_CFG_BLK := 4;
  CY_CMD_CAT_VERIFY_CFG_BLK_CRC := 0x11;
  CY_CMD_CAT_GET_CFG_ROW_SIZE_CMD_SZ := 1;
  CY_CMD_CAT_GET_CFG_ROW_SIZE_RET_SZ := 2;
  CY_CMD_CAT_READ_CFG_BLK_CMD_SZ := 6;
  CY_CMD_CAT_READ_CFG_BLK_RET_SZ := 6;
  CY_CMD_CAT_READ_CFG_BLK_RET_HDR_SZ := 4;
  CY_CMD_CAT_WRITE_CFG_BLK_CMD_SZ := 8;
  CY_CMD_CAT_WRITE_CFG_BLK_CMD_HDR_SZ := 6;
  CY_CMD_CAT_WRITE_CFG_BLK_RET_SZ := 5;
  CY_CMD_CAT_VERIFY_CFG_BLK_CRC_CMD_SZ := 2;
  CY_CMD_CAT_VERIFY_CFG_BLK_CRC_RET_SZ := 5;
  CY_CMD_STATUS_SUCCESS := 0;
  CY_CONFIG_LENGTH_INFO_OFFSET := 0;
  CY_CONFIG_LENGTH_INFO_SIZE := 4;
  CY_CONFIG_LENGTH_OFFSET := 0;
  CY_CONFIG_MAXLENGTH_OFFSET := 2;
  GET_FIELD16 := fun _ buf i => get_unaligned_be16 buf i;
  PUT_FIELD16_bytes := fun _ v => [HI_BYTE v; LO_BYTE v]
|}.

Definition sim_cat_world (response : list Z) : world sim_device :=
  sim_world CY_MODE_CAT
    [(0, [0x40]); (0, [0x20; 0x00; 0x40]); (0, response)]
    [TickIrq].

(** The driver in operational mode with a report buffer of 120 bytes, on a
    device whose report announces 31 touches. *)
Definition sim_report_world : world sim_device :=
  {| cd := with_xy_mode (Some (repeat 0 120)) (sim_cd CY_MODE_OPERATIONAL);
     dev := {| answers := [(0, [0x5A; 0x00; 0x1F]); (0, repeat 0x11 100)] |};
     log := []; future := [] |}.


(** * Properties *)

(** ** The CRC composes over concatenation *)

Section CrcFacts.
Import Crc.

Lemma u16_idem (z : Z) : u16 (u16 z) = u16 z.
Proof. unfold u16. apply Z.mod_mod. lia. Qed.

Lemma crc_shift_u16 (j : nat) : forall crc, u16 (crc_shift (S j) crc) = crc_shift (S j) crc.
Proof.
  induction j as [|j IH]; intro crc.
  - cbn [crc_shift]. destruct (Z.land crc 32768 =? 0); apply u16_idem.
  - change (crc_shift (S (S j)) crc) with
      (crc_shift (S j)
         (if Z.land crc 0x8000 =? 0
          then u16 (Z.shiftl crc 1)
          else u16 (Z.lxor (Z.shiftl crc 1) 0x1021))).
    apply IH.
Qed.

Lemma crc_update_u16 (crc b : Z) : u16 (crc_update crc b) = crc_update crc b.
Proof. unfold crc_update. apply crc_shift_u16. Qed.

Lemma crc_loop_u16 (data : list Z) :
  forall size crc, u16 crc = crc -> u16 (crc_loop data size crc) = crc_loop data size crc.
Proof.
  induction data as [|b rest IH]; intros [|n] crc Hc; cbn [crc_loop]; trivial.
  apply IH, crc_update_u16.
Qed.

Lemma crc_loop_app (A : list Z) :
  forall B n crc,
    crc_loop (A ++ B) (length A + n) crc = crc_loop B n (crc_loop A (length A) crc).
Proof.
  induction A as [|a A IH]; intros B n crc.
  - cbn. destruct n, B; reflexivity.
  - cbn [length app Nat.add crc_loop]. apply IH.
Qed.

Lemma partial_crc_app (A B : list Z) (crc : Z) :
  cyttsp4_calc_partial_app_crc (A ++ B) (Z.of_nat (length (A ++ B))) crc =
  cyttsp4_calc_partial_app_crc B (Z.of_nat (length B))
    (cyttsp4_calc_partial_app_crc A (Z.of_nat (length A)) crc).
Proof.
  unfold cyttsp4_calc_partial_app_crc.
  rewrite !Nat2Z.id, length_app, crc_loop_app.
  rewrite (crc_loop_u16 A (length A) (u16 crc)) by apply u16_idem.
  reflexivity.
Qed.

End CrcFacts.

(** C7: the config-block CRC is a function of its input with the
    parameters of CRC-16/CCITT-FALSE (it maps the ASCII digits 1 to 9 to the
    check value 0x29B1 of that CRC, and the empty input to the initial value
    0xFFFF), and it composes over concatenation: the CRC of A followed by B
    is the partial CRC of B seeded with the partial CRC of A seeded with
    0xFFFF. *)
Theorem crc_concat_compose :
  (forall A B : list Z,
     Crc.cyttsp4_calc_app_crc (A ++ B) (Z.of_nat (length (A ++ B))) =
     Crc.cyttsp4_calc_partial_app_crc B (Z.of_nat (length B))
       (Crc.cyttsp4_calc_partial_app_crc A (Z.of_nat (length A)) 0xFFFF)) /\
  Crc.cyttsp4_calc_app_crc [] 0 = 0xFFFF /\
  Crc.cyttsp4_calc_app_crc [0x31; 0x32; 0x33; 0x34; 0x35; 0x36; 0x37; 0x38; 0x39] 9 = 0x29B1 /\
  Crc.crc_update 0 1 = 0x1021.
Proof.
  split; [|repeat split; vm_compute; reflexivity].
  intros A B. unfold Crc.cyttsp4_calc_app_crc. apply partial_crc_app.
Qed.

(** ** Touch field decoding *)

Section TouchFacts.
Import Touch.

Lemma int32_mod (z : Z) : int32 z mod 4294967296 = z mod 4294967296.
Proof.
  unfold int32.
  rewrite Zminus_mod, Zmod_mod, <- Zminus_mod.
  f_equal. lia.
Qed.

Lemma int32_small (z : Z) : -2147483648 <= z < 2147483648 -> int32 z = z.
Proof. intro H. unfold int32. rewrite Z.mod_small; lia. Qed.

(** The loop without the wrap-around of [int]. *)
Definition axis_exact (idx : list nat) (xy_data : list Z) (bofs : Z) (a : Z) : Z :=
  fold_left (fun axis next => axis * 256 + Z.shiftr (u8 (nth next xy_data 0)) bofs) idx a.

Lemma axis_loop_mod (xy_data : list Z) (bofs : Z) (idx : list nat) :
  forall a a',
    a mod 4294967296 = a' mod 4294967296 ->
    fold_left
      (fun axis next => int32 (axis * 256 + Z.shiftr (u8 (nth next xy_data 0)) bofs))
      idx a mod 4294967296
    = axis_exact idx xy_data bofs a' mod 4294967296.
Proof.
  induction idx as [|i idx IH]; intros a a' E; cbn [fold_left axis_exact]; trivial.
  apply IH. rewrite int32_mod.
  rewrite (Z.add_mod (a * 256)), (Z.add_mod (a' * 256)) by lia.
  rewrite (Z.mul_mod a), (Z.mul_mod a'), E by lia. reflexivity.
Qed.

Lemma axis_exact_seq (l : list Z) (bofs : Z) :
  forall pre a,
    axis_exact (seq (length pre) (length l)) (pre ++ l) bofs a =
    fold_left (fun axis b => axis * 256 + Z.shiftr (u8 b) bofs) l a.
Proof.
  induction l as [|b l IH]; intros pre a; cbn [length seq axis_exact fold_left]; trivial.
  rewrite app_nth2, Nat.sub_diag by lia. cbn [nth].
  specialize (IH (pre ++ [b]) (a * 256 + Z.shiftr (u8 b) bofs)).
  rewrite length_app, <- app_assoc in IH. cbn [length app] in IH.
  rewrite Nat.add_1_r in IH. exact IH.
Qed.

Lemma be_bytes_length (n : nat) (x : Z) : length (be_bytes n x) = n.
Proof. induction n; cbn [be_bytes length]; congruence. Qed.

Lemma be_bytes_horner (n : nat) (x : Z) :
  forall a,
    fold_left (fun axis b => axis * 256 + Z.shiftr (u8 b) 0) (be_bytes n x) a =
    a * 256 ^ Z.of_nat n + x mod 256 ^ Z.of_nat n.
Proof.
  induction n as [|k IH]; intro a.
  - cbn [be_bytes fold_left]. change (256 ^ Z.of_nat 0) with 1.
    rewrite Z.mod_1_r. lia.
  - cbn [be_bytes fold_left]. rewrite IH.
    rewrite Z.shiftr_0_r. unfold u8. rewrite Z.mod_mod by lia.
    rewrite Nat2Z.inj_succ, Z.pow_succ_r by lia.
    assert (Hp : 0 < 256 ^ Z.of_nat k) by (apply Z.pow_pos_nonneg; lia).
    rewrite (Z.mul_comm 256 (256 ^ Z.of_nat k)).
    rewrite (Z.rem_mul_r x (256 ^ Z.of_nat k) 256) by lia.
    ring.
Qed.

Lemma mask_of_bits (bits : Z) :
  0 <= bits <= 31 -> int32 (int32 (u64 (Z.shiftl 1 bits)) - 1) = Z.ones bits.
Proof.
  intro H.
  assert (E : bits = 31 \/ bits <= 30) by lia.
  destruct E as [-> | Hle]; [reflexivity|].
  rewrite Z.shiftl_1_l, Z.ones_equiv.
  assert (0 < 2 ^ bits <= 2 ^ 30).
  { split; [apply Z.pow_pos_nonneg; lia | apply Z.pow_le_mono_r; lia]. }
  change (2 ^ 30) with 1073741824 in *.
  unfold u64. rewrite Z.mod_small by lia.
  rewrite (int32_small (2 ^ bits)) by lia.
  rewrite int32_small by lia. lia.
Qed.

Lemma size_of_bits (bits : Z) :
  0 <= bits <= 31 -> fst (cyttsp4_bits_2_bytes bits) = (bits + 7) / 8.
Proof.
  intro H. unfold cyttsp4_bits_2_bytes, u32. cbn [fst].
  rewrite (Z.mod_small bits), (Z.mod_small (bits + 7)) by lia. reflexivity.
Qed.

Lemma decode_field_eq (bits bofs : Z) (xy_data : list Z) :
  0 <= bits <= 31 ->
  decode_field bits bofs xy_data =
  axis_exact (seq 0 (Z.to_nat ((bits + 7) / 8))) xy_data bofs 0 mod 2 ^ bits.
Proof.
  intro H. unfold decode_field.
  pose proof (size_of_bits bits H) as Hs.
  unfold cyttsp4_bits_2_bytes in *. cbn [fst] in Hs.
  unfold cyttsp4_get_touch_axis. rewrite Hs, mask_of_bits, Z.land_ones by lia.
  unfold touch_axis_loop.
  assert (Hd : (2 ^ bits | 4294967296)).
  { exists (2 ^ (32 - bits)). rewrite <- Z.pow_add_r by lia.
    replace (32 - bits + bits) with 32 by lia. reflexivity. }
  assert (0 < 2 ^ bits) by (apply Z.pow_pos_nonneg; lia).
  rewrite <- (Z.mod_mod_divide _ 4294967296 (2 ^ bits)) by trivial.
  rewrite (axis_loop_mod xy_data bofs _ 0 0 eq_refl).
  rewrite Z.mod_mod_divide by trivial. reflexivity.
Qed.

Lemma roundtrip_aligned (bits v : Z) :
  0 <= bits <= 31 -> 0 <= v < 2 ^ bits ->
  decode_field bits 0 (encode_field bits 0 v) = v.
Proof.
  intros Hb Hv. rewrite decode_field_eq by trivial.
  unfold encode_field. rewrite size_of_bits, Z.shiftl_0_r by trivial.
  set (n := Z.to_nat ((bits + 7) / 8)).
  pose proof (axis_exact_seq (be_bytes n v) 0 [] 0) as E.
  rewrite be_bytes_length in E. cbn [length app] in E. rewrite E, be_bytes_horner.
  assert (Hn : bits <= 8 * Z.of_nat n).
  { unfold n. rewrite Z2Nat.id by (apply Z.div_pos; lia).
    pose proof (Z.mul_div_le (bits + 7) 8 ltac:(lia)).
    pose proof (Z.mod_pos_bound (bits + 7) 8 ltac:(lia)).
    pose proof (Z.div_mod (bits + 7) 8 ltac:(lia)). lia. }
  assert (Hp : 2 ^ bits <= 256 ^ Z.of_nat n).
  { change 256 with (2 ^ 8). rewrite <- Z.pow_mul_r by lia.
    apply Z.pow_le_mono_r; lia. }
  rewrite (Z.mod_small v (256 ^ Z.of_nat n)) by lia.
  rewrite Z.mul_0_l, Z.add_0_l. apply Z.mod_small. lia.
Qed.

Lemma roundtrip_one_byte (bits bofs v : Z) :
  0 <= bits -> 0 <= bofs -> bits + bofs <= 8 -> 0 <= v < 2 ^ bits ->
  decode_field bits bofs (encode_field bits bofs v) = v.
Proof.
  intros Hb Ho Hs Hv. rewrite decode_field_eq by lia.
  unfold encode_field. rewrite size_of_bits by lia.
  assert (E : bits = 0 \/ 1 <= bits) by lia.
  destruct E as [-> | Hpos].
  - cbn. change (2 ^ 0) with 1 in Hv. lia.
  - assert (Hq : (bits + 7) / 8 = 1).
    { symmetry. apply (Z.div_unique (bits + 7) 8 1 (bits - 1)); lia. }
    rewrite Hq. change (Z.to_nat 1) with 1%nat.
    unfold axis_exact. cbn [seq be_bytes fold_left nth].
    change (256 ^ Z.of_nat 0) with 1. rewrite Z.div_1_r.
    rewrite Z.shiftl_mul_pow2 by lia.
    assert (0 < 2 ^ bofs) by (apply Z.pow_pos_nonneg; lia).
    assert (Hlt : v * 2 ^ bofs < 256).
    { apply Z.lt_le_trans with (2 ^ bits * 2 ^ bofs); [nia|].
      rewrite <- Z.pow_add_r by lia. change 256 with (2 ^ 8).
      apply Z.pow_le_mono_r; lia. }
    unfold u8. rewrite !(Z.mod_small (v * 2 ^ bofs)) by nia.
    rewrite Z.shiftr_div_pow2, Z.div_mul by lia.
    rewrite Z.mul_0_l, Z.add_0_l. apply Z.mod_small. lia.
Qed.

(** Under the layout of a 12-bit field at bit offset 4 no pair of bytes
    decodes to 255: the low byte of the result is a byte shifted right by 4.
    No encoding at all can make the decoder return every value below 2^12. *)
Lemma decode_12_4_never_255 (b0 b1 : Z) :
  decode_field 12 4 [b0; b1] = 255 -> False.
Proof.
  rewrite decode_field_eq by lia.
  change (Z.to_nat ((12 + 7) / 8)) with 2%nat.
  cbn [seq axis_exact fold_left nth]. rewrite !Z.shiftr_div_pow2 by lia.
  change (2 ^ 4) with 16. change (2 ^ 12) with 4096. unfold u8.
  pose proof (Z.mod_pos_bound b0 256 ltac:(lia)).
  pose proof (Z.mod_pos_bound b1 256 ltac:(lia)).
  pose proof (Z.div_lt_upper_bound (b0 mod 256) 16 16 ltac:(lia) ltac:(lia)).
  pose proof (Z.div_lt_upper_bound (b1 mod 256) 16 16 ltac:(lia) ltac:(lia)).
  pose proof (Z.div_pos (b0 mod 256) 16 ltac:(lia) ltac:(lia)).
  pose proof (Z.div_pos (b1 mod 256) 16 ltac:(lia) ltac:(lia)).
  rewrite Z.mod_small by lia. lia.
Qed.

End TouchFacts.

(** C6, as stated, fails on a 12-bit field at bit offset 4 stored in two
    bytes: the value 0xABC is encoded as the bytes AB C0, which the spec's
    decoding (the two bytes as one number, shifted and masked) maps back to
    0xABC, while the driver shifts every byte on its own and returns
    0xA0C. *)
Lemma touch_field_roundtrip_fails :
  Touch.encode_field 12 4 0xABC = [0xAB; 0xC0] /\
  Touch.spec_decode_field 12 4 (Touch.encode_field 12 4 0xABC) = 0xABC /\
  Touch.decode_field 12 4 (Touch.encode_field 12 4 0xABC) = 0xA0C /\
  Touch.decode_field 12 4 (Touch.encode_field 12 4 0xABC) <> 0xABC.
Proof. repeat split; vm_compute; congruence. Qed.

(** C6, amended: for a field of [bits] bits (at most 31) that is byte
    aligned (bit offset 0), or that lies within one byte (bits + bit offset
    at most 8), decoding the reference encoding of any value v in
    [0, 2^bits) returns v; the decoder reads ceil(bits/8) bytes, shifts each
    of them right by the bit offset and masks the sum to 2^bits - 1. *)
Theorem touch_field_roundtrip (bits bofs v : Z) :
  0 <= bits <= 31 -> 0 <= bofs ->
  bofs = 0 \/ bits + bofs <= 8 ->
  0 <= v < 2 ^ bits ->
  Touch.decode_field bits bofs (Touch.encode_field bits bofs v) = v /\
  fst (Touch.cyttsp4_bits_2_bytes bits) = (bits + 7) / 8 /\
  length (Touch.encode_field bits bofs v) = Z.to_nat ((bits + 7) / 8).
Proof.
  intros Hb Ho Hl Hv. split; [|split].
  - destruct Hl as [-> | Hl].
    + apply roundtrip_aligned; trivial.
    + apply roundtrip_one_byte; lia.
  - apply size_of_bits; trivial.
  - unfold Touch.encode_field. rewrite be_bytes_length, size_of_bits; trivial.
Qed.

Lemma touch_field_roundtrip_witness :
  Touch.decode_field 10 0 (Touch.encode_field 10 0 777) = 777 /\
  Touch.decode_field 2 5 (Touch.encode_field 2 5 3) = 3.
Proof.
  split.
  - apply (touch_field_roundtrip 10 0 777); [lia | lia | left; reflexivity | split; [lia | reflexivity]].
  - apply (touch_field_roundtrip 2 5 3); [lia | lia | right; lia | split; [lia | reflexivity]].
Defined.

(** ** The handshake *)

Section CoreFacts.
Context {R : Regs} {D : Type} {H : Hardware D}.

Lemma land_lnot_clear (x flag : Z) : Z.land (Z.land x (Z.lnot flag)) flag = 0.
Proof.
  rewrite <- Z.land_assoc, (Z.land_comm (Z.lnot flag)), Z.land_lnot_diag.
  apply Z.land_0_r.
Qed.

Lemma world_eta (w : world D) :
  {| cd := cd w; dev := dev w; log := log w; future := future w |} = w.
Proof. destruct w; reflexivity. Qed.

End CoreFacts.

(** C10: when the mode-change marker of the header byte is set, the
    handshake returns 0 and leaves the world as it was (no bus write, no
    entry in the log); when the marker is clear it issues exactly one write
    to the base register, of the header byte with the toggle bit flipped,
    and returns the status of that write. *)
Theorem handshake_skipped_on_mode_change
  {R : Regs} {D : Type} {H : Hardware D} (hst_mode : Z) (w : world D) :
  (Z.land hst_mode CY_HST_MODE_CHANGE <> 0 ->
   cyttsp4_handshake hst_mode w = (0, w)) /\
  (Z.land hst_mode CY_HST_MODE_CHANGE = 0 ->
   let ack := [u8 (Z.lxor hst_mode CY_HST_TOGGLE)] in
   let '(rc, d) := bus_write (dev w) (u16 CY_REG_BASE) ack in
   cyttsp4_handshake hst_mode w =
   (rc, {| cd := cd w; dev := d;
           log := log w ++ [EvWrite (u16 CY_REG_BASE) ack rc];
           future := future w |})).
Proof.
  unfold cyttsp4_handshake. split; intro Hbit.
  - apply Z.eqb_neq in Hbit. rewrite Hbit. reflexivity.
  - apply Z.eqb_eq in Hbit. rewrite Hbit. cbn [negb].
    unfold bind, ret, cyttsp4_adap_write. cbv zeta.
    destruct (bus_write (dev w) (u16 CY_REG_BASE) _) as [rc d]. reflexivity.
Qed.

(** ** The command executor *)

Section ExecFacts.
Context {R : Regs} {D : Type} {H : Hardware D}.

Lemma mode_eqb_eq (a b : cyttsp4_mode) : mode_eqb a b = true <-> a = b.
Proof. destruct a, b; cbn; split; congruence. Qed.

Lemma mode_eqb_refl (a : cyttsp4_mode) : mode_eqb a a = true.
Proof. destruct a; reflexivity. Qed.

Lemma mode_eqb_neq (a b : cyttsp4_mode) : mode_eqb a b = false <-> a <> b.
Proof. destruct a, b; cbn; split; congruence. Qed.

(** The inner executor refuses a wrong mode before it touches anything. *)
Lemma _exec_cmd_wrong_mode (m : cyttsp4_mode) (cmd_buf : list Z) (cmd_size : Z)
  (w : world D) :
  m <> mode (cd w) ->
  _cyttsp4_exec_cmd m cmd_buf cmd_size w = ((- EACCES, cmd_buf), w).
Proof.
  intro Hm. apply mode_eqb_neq in Hm.
  unfold _cyttsp4_exec_cmd, bind, get_cd, ret. rewrite Hm. reflexivity.
Qed.

End ExecFacts.

(** C3: a command issued with an expected mode that differs from the current
    mode fails with -EACCES, from the inner executor and from
    [cyttsp4_exec_cmd] alike, and the world is returned as it was: the
    device has seen no read or write and the log has no new entry. *)
Theorem exec_cmd_wrong_mode_access_denied
  {R : Regs} {D : Type} {H : Hardware D}
  (m : cyttsp4_mode) (cmd_buf : list Z) (cmd_size : Z)
  (return_buf : bool) (return_buf_size timeout_ms : Z) (w : world D) :
  m <> mode (cd w) ->
  _cyttsp4_exec_cmd m cmd_buf cmd_size w = ((- EACCES, cmd_buf), w) /\
  cyttsp4_exec_cmd m cmd_buf cmd_size return_buf return_buf_size timeout_ms w
  = ((- EACCES, []), w).
Proof.
  intro Hm. split; [apply _exec_cmd_wrong_mode; trivial|].
  unfold cyttsp4_exec_cmd, bind.
  rewrite (_exec_cmd_wrong_mode m cmd_buf cmd_size w Hm).
  reflexivity.
Qed.

Lemma exec_cmd_wrong_mode_access_denied_witness :
  cyttsp4_exec_cmd CY_MODE_CAT [0x02] 1 true 2 500
    (sim_world CY_MODE_OPERATIONAL [(0, [0x40])] [])
  = ((- EACCES, []), sim_world CY_MODE_OPERATIONAL [(0, [0x40])] []).
Proof.
  apply (exec_cmd_wrong_mode_access_denied CY_MODE_CAT [0x02] 1 true 2 500
           (sim_world CY_MODE_OPERATIONAL [(0, [0x40])] [])).
  discriminate.
Defined.

(** ** Bounded waits *)

Section WaitFacts.
Context {R : Regs} {D : Type} {H : Hardware D}.

Lemma wait_cmd_exec_timeout (timeout_ms : Z) (w : world D) :
  fst (wait_event_timeout (fun c => Z.land (int_status c) CY_INT_EXEC_CMD =? 0)
         (msecs_to_jiffies timeout_ms) w) = 0 ->
  fst (_cyttsp4_wait_cmd_exec timeout_ms w) = - ETIME /\
  Z.land (int_status (cd (snd (_cyttsp4_wait_cmd_exec timeout_ms w)))) CY_INT_EXEC_CMD = 0.
Proof.
  unfold _cyttsp4_wait_cmd_exec, bind.
  destruct (wait_event_timeout _ _ w) as [t w1]. cbn [fst]. intros ->.
  cbn. split; [reflexivity | apply land_lnot_clear].
Qed.

Lemma wait_sysinfo_mode_timeout (w : world D) :
  fst (wait_event_timeout (fun c => mode_eqb (mode c) CY_MODE_SYSINFO)
         (msecs_to_jiffies CY_CORE_WAIT_SYSINFO_MODE_TIMEOUT) w) = 0 ->
  fst (cyttsp4_wait_sysinfo_mode w) = - ETIME /\
  Z.land (int_status (cd (snd (cyttsp4_wait_sysinfo_mode w)))) CY_INT_MODE_CHANGE = 0.
Proof.
  unfold cyttsp4_wait_sysinfo_mode, bind.
  destruct (wait_event_timeout _ _ w) as [t w1]. cbn [fst]. intros ->.
  cbn. split; [reflexivity | apply land_lnot_clear].
Qed.

Lemma set_mode_wait_timeout (rc : Z) (w : world D) :
  fst (wait_event_timeout (fun c => Z.land (int_status c) CY_INT_MODE_CHANGE =? 0)
         (msecs_to_jiffies CY_CORE_MODE_CHANGE_TIMEOUT) w) = 0 ->
  fst (set_mode_wait rc w) = - EINVAL /\
  Z.land (int_status (cd (snd (set_mode_wait rc w)))) CY_INT_MODE_CHANGE = 0.
Proof.
  unfold set_mode_wait, bind.
  destruct (wait_event_timeout _ _ w) as [t w1]. cbn [fst]. intros ->.
  cbn. split; [reflexivity | apply land_lnot_clear].
Qed.

(** A wait that does not elapse returns a positive number of ticks. *)
Lemma wait_event_timeout_result (condition : cyttsp4_core_data -> bool) (n : nat) :
  forall w : world D,
    fst (wait_event_timeout condition n w) = 0 \/
    0 < fst (wait_event_timeout condition n w) /\
    condition (cd (snd (wait_event_timeout condition n w))) = true.
Proof.
  induction n as [|n IH]; intro w; cbn [wait_event_timeout].
  - destruct (condition (cd w)) eqn:E; cbn [fst snd]; [right; split; [lia | trivial] | left; reflexivity].
  - destruct (condition (cd w)) eqn:E; cbn [fst snd]; [right; split; [lia | trivial] | apply IH].
Qed.



End WaitFacts.

(** C8, as stated, fails for the mode-change wait: on the simulated device
    that never raises an interrupt, [set_mode] writes the request, its wait
    elapses, the pending flag is cleared, but the status returned is
    -EINVAL, which is also what an unknown target mode yields, and not the
    timeout error -ETIME. *)
Lemma set_mode_timeout_returns_einval :
  fst (wait_event_timeout (fun c => Z.land (int_status c) CY_INT_MODE_CHANGE =? 0)
         (msecs_to_jiffies CY_CORE_MODE_CHANGE_TIMEOUT)
         (snd (cyttsp4_adap_write CY_REG_BASE [0x28]
            (snd (set_int_status CY_INT_MODE_CHANGE
               (snd (cyttsp4_adap_read CY_REG_BASE 1
                  (sim_world CY_MODE_OPERATIONAL [(0, [0x00])] [])))))))) = 0 /\
  fst (set_mode CY_MODE_CAT (sim_world CY_MODE_OPERATIONAL [(0, [0x00])] [])) = - EINVAL /\
  fst (set_mode CY_MODE_STARTUP (sim_world CY_MODE_OPERATIONAL [(0, [0x00])] [])) = - EINVAL /\
  - EINVAL <> - ETIME /\
  log (snd (set_mode CY_MODE_CAT (sim_world CY_MODE_OPERATIONAL [(0, [0x00])] [])))
  = [EvRead 0 1 0 [0x00]; EvWrite 0 [0x28] 0] /\
  int_status (cd (snd (set_mode CY_MODE_CAT
                         (sim_world CY_MODE_OPERATIONAL [(0, [0x00])] [])))) = 0.
Proof. repeat split; vm_compute; congruence. Qed.

(** C8, amended: each of the three bounded waits, when it elapses, clears
    its pending flag before it returns an error: the command-complete wait
    clears CY_INT_EXEC_CMD and returns -ETIME, the SysInfo-mode wait clears
    CY_INT_MODE_CHANGE and returns -ETIME, and the mode-change wait of
    [set_mode] clears CY_INT_MODE_CHANGE and returns -EINVAL. *)
Theorem timed_out_wait_clears_pending_flag
  {R : Regs} {D : Type} {H : Hardware D} (timeout_ms rc : Z) (w : world D) :
  (fst (wait_event_timeout (fun c => Z.land (int_status c) CY_INT_EXEC_CMD =? 0)
          (msecs_to_jiffies timeout_ms) w) = 0 ->
   fst (_cyttsp4_wait_cmd_exec timeout_ms w) = - ETIME /\
   Z.land (int_status (cd (snd (_cyttsp4_wait_cmd_exec timeout_ms w))))
     CY_INT_EXEC_CMD = 0) /\
  (fst (wait_event_timeout (fun c => mode_eqb (mode c) CY_MODE_SYSINFO)
          (msecs_to_jiffies CY_CORE_WAIT_SYSINFO_MODE_TIMEOUT) w) = 0 ->
   fst (cyttsp4_wait_sysinfo_mode w) = - ETIME /\
   Z.land (int_status (cd (snd (cyttsp4_wait_sysinfo_mode w))))
     CY_INT_MODE_CHANGE = 0) /\
  (fst (wait_event_timeout (fun c => Z.land (int_status c) CY_INT_MODE_CHANGE =? 0)
          (msecs_to_jiffies CY_CORE_MODE_CHANGE_TIMEOUT) w) = 0 ->
   fst (set_mode_wait rc w) = - EINVAL /\
   Z.land (int_status (cd (snd (set_mode_wait rc w)))) CY_INT_MODE_CHANGE = 0).
Proof.
  split; [|split].
  - apply wait_cmd_exec_timeout.
  - apply wait_sysinfo_mode_timeout.
  - apply set_mode_wait_timeout.
Qed.

Lemma timed_out_wait_clears_pending_flag_witness :
  (fst (_cyttsp4_wait_cmd_exec 2 sim_pending_world) = - ETIME /\
   Z.land (int_status (cd (snd (_cyttsp4_wait_cmd_exec 2 sim_pending_world))))
     CY_INT_EXEC_CMD = 0) /\
  (fst (cyttsp4_wait_sysinfo_mode sim_pending_world) = - ETIME /\
   Z.land (int_status (cd (snd (cyttsp4_wait_sysinfo_mode sim_pending_world))))
     CY_INT_MODE_CHANGE = 0) /\
  (fst (set_mode_wait 0 sim_pending_world) = - EINVAL /\
   Z.land (int_status (cd (snd (set_mode_wait 0 sim_pending_world))))
     CY_INT_MODE_CHANGE = 0).
Proof.
  pose proof (timed_out_wait_clears_pending_flag 2 0 sim_pending_world) as [A [B C]].
  split; [apply A; reflexivity | split; [apply B; reflexivity | apply C; reflexivity]].
Defined.

(** ** Busy, retry and response of the command executor *)

Section ExecRetryFacts.
Context {R : Regs} {D : Type} {H : Hardware D}.


Lemma _get_cmd_offs_pure (m : cyttsp4_mode) (w : world D) :
  _get_cmd_offs m w = (fst (_get_cmd_offs m w), w).
Proof. unfold _get_cmd_offs, bind, get_cd. destruct m; reflexivity. Qed.






Section Keeps.
Context {X : Type} (field : cyttsp4_core_data -> X).

Lemma keeps_ret {A : Type} (a : A) : keeps (D := D) field (ret a).
Proof. intro w. reflexivity. Qed.

Lemma keeps_bind {A B : Type} (m : Drv D A) (f : A -> Drv D B) :
  keeps field m -> (forall a, keeps field (f a)) -> keeps field (bind m f).
Proof.
  intros Hm Hf w. unfold bind. specialize (Hm w).
  destruct (m w) as [a w1]. cbn [snd] in Hm. rewrite Hf. exact Hm.
Qed.

Lemma keeps_get_cd : keeps (D := D) field get_cd.
Proof. intro w. reflexivity. Qed.

Lemma keeps_modify (f : cyttsp4_core_data -> cyttsp4_core_data) :
  (forall c, field (f c) = field c) -> keeps (D := D) field (modify_cd f).
Proof. intros Hf w. unfold modify_cd. cbn [snd cd]. apply Hf. Qed.

Lemma keeps_emit (e : event) : keeps (D := D) field (emit e).
Proof. intro w. reflexivity. Qed.

Lemma keeps_adap_read (addr size : Z) :
  keeps (D := D) field (cyttsp4_adap_read addr size).
Proof.
  intro w. unfold cyttsp4_adap_read.
  destruct (bus_read (dev w) (u16 addr) size) as [[rc data] d]. reflexivity.
Qed.

Lemma keeps_adap_write (addr : Z) (buf : list Z) :
  keeps (D := D) field (cyttsp4_adap_write addr buf).
Proof.
  intro w. unfold cyttsp4_adap_write.
  destruct (bus_write (dev w) (u16 addr) buf) as [rc d]. reflexivity.
Qed.

Lemma keeps_power (on : Z) : keeps (D := D) field (cpdata_power on).
Proof.
  intro w. unfold cpdata_power.
  destruct (plat_power (dev w) on) as [rc d]. reflexivity.
Qed.

Lemma keeps_xres : keeps (D := D) field cpdata_xres.
Proof. intro w. reflexivity. Qed.

End Keeps.












End ExecRetryFacts.


(** The scenario on the simulated device: busy, one completion interrupt,
    one retry that is accepted, one more completion interrupt, and the
    response read at offset 3 = command offset 2 + 1. *)
Lemma exec_cmd_busy_scenario :
  _cyttsp4_exec_cmd CY_MODE_OPERATIONAL [0xC2; 0x55] 2 sim_busy_world
  = ((- EBUSY, [0xC2; 0x55]),
     busy_world sim_busy_world 2 0 [0x00]
       {| answers := [(0, [0x00; 0x00; 0x40]); (0, [0x40]);
                      (0, [0x00; 0x00; 0x42]); (0, [0xAA; 0xBB])] |}) /\
  fst (cyttsp4_exec_cmd CY_MODE_OPERATIONAL [0xC2; 0x55] 2 true 2 3 sim_busy_world)
  = (0, [0xAA; 0xBB]) /\
  log (snd (cyttsp4_exec_cmd CY_MODE_OPERATIONAL [0xC2; 0x55] 2 true 2 3 sim_busy_world))
  = [EvRead 2 1 0 [0x00];
     EvRead 0 3 0 [0x00; 0x00; 0x40]; EvWakeUp;
     EvAtten CY_ATTEN_IRQ (Some CY_MODE_OPERATIONAL); EvWrite 0 [0x80] 0; EvUdelay 0;
     EvRead 2 1 0 [0x40]; EvWrite 3 [0x55] 0; EvWrite 2 [0x02] 0;
     EvRead 0 3 0 [0x00; 0x00; 0x42]; EvWakeUp;
     EvAtten CY_ATTEN_IRQ (Some CY_MODE_OPERATIONAL); EvWrite 0 [0x80] 0; EvUdelay 0;
     EvRead 3 2 0 [0xAA; 0xBB]].
Proof. repeat split; vm_compute; reflexivity. Qed.


(** ** The interrupt handler on a device stuck in bootloader idle *)

Section IrqFacts.
Context {R : Regs} {D : Type} {H : Hardware D}.

Lemma restarts_app (l1 l2 : list event) : restarts (l1 ++ l2) = (restarts l1 + restarts l2)%nat.
Proof. unfold restarts. rewrite filter_app, length_app. reflexivity. Qed.

(** One interrupt in bootloader mode with a bootloader-idle header: the
    world it leaves. *)
Lemma irq_bootloader_idle_eq (w : world D) (hdr : list Z) (d' : D) :
  sleep_state (cd w) <> SS_SLEEP_ON ->
  mode (cd w) = CY_MODE_BOOTLOADER ->
  bus_read (dev w) (u16 CY_REG_BASE) 3 = ((0, hdr), d') ->
  IS_BOOTLOADER (nth 0 hdr 0) (nth 1 hdr 0) = true ->
  IS_BOOTLOADER_IDLE (nth 0 hdr 0) (nth 1 hdr 0) = true ->
  let seen := log w ++ [EvRead (u16 CY_REG_BASE) 3 0 hdr;
                        EvAtten CY_ATTEN_IRQ (Some CY_MODE_BOOTLOADER)] in
  snd (cyttsp4_irq w) =
  if 3 <? heartbeat_count (cd w) then
    match startup_state (cd w) with
    | STARTUP_NONE =>
        {| cd := with_startup_state STARTUP_QUEUED (with_heartbeat_count 0 (cd w));
           dev := d'; log := seen ++ [EvScheduleStartup]; future := future w |}
    | _ =>
        {| cd := with_heartbeat_count 0 (cd w);
           dev := d'; log := seen; future := future w |}
    end
  else
    {| cd := with_mode CY_MODE_BOOTLOADER
               (with_heartbeat_count (int32 (heartbeat_count (cd w) + 1)) (cd w));
       dev := d'; log := seen ++ [EvWakeUp]; future := future w |}.
Proof.
  intros Hs Hm Hrd Hbl Hidle seen. subst seen.
  destruct w as [c d l f].
  destruct c as [md ist hb sst slp tog inv ble wake gest si cp].
  cbn [cd dev log future mode sleep_state heartbeat_count startup_state] in *.
  subst md.
  unfold cyttsp4_irq, cyttsp4_adap_read.
  assert (Hslp : forall (A : Type) (x y : A),
             match slp with SS_SLEEP_ON => x | _ => y end = y)
    by (intros; destruct slp; congruence).
  cbv beta iota zeta delta
    [bind ret get_cd cd dev log future mode sleep_state heartbeat_count
     startup_state].
  rewrite Hslp, Hrd.
  cbv beta iota zeta delta
    [bind ret get_cd modify_cd emit call_atten_cb wake_up cyttsp4_queue_startup
     cd dev log future mode sleep_state heartbeat_count startup_state
     with_heartbeat_count with_mode with_startup_state mode_eqb negb andb fst snd].
  change (0 =? 0) with true. cbv iota.
  rewrite Hbl, Hidle. cbv iota.
  rewrite <- !app_assoc. cbn [app].
  destruct (3 <? hb); [destruct sst|];
    cbn [mode int_status heartbeat_count startup_state sleep_state cmd_toggle
         invalid_touch_app bl_fast_exit wake_initiated_by_device
         easy_wakeup_gesture sysinfo cpdata];
    rewrite <- ?app_assoc; cbn [app]; reflexivity.
Qed.

(** What one such interrupt does to the counter, the startup state and the
    number of restarts. *)
Lemma irq_bootloader_idle (w : world D) (hdr : list Z) (d' : D) :
  sleep_state (cd w) <> SS_SLEEP_ON ->
  mode (cd w) = CY_MODE_BOOTLOADER ->
  bus_read (dev w) (u16 CY_REG_BASE) 3 = ((0, hdr), d') ->
  IS_BOOTLOADER (nth 0 hdr 0) (nth 1 hdr 0) = true ->
  IS_BOOTLOADER_IDLE (nth 0 hdr 0) (nth 1 hdr 0) = true ->
  let w' := snd (cyttsp4_irq w) in
  dev w' = d' /\
  sleep_state (cd w') = sleep_state (cd w) /\
  mode (cd w') = CY_MODE_BOOTLOADER /\
  (heartbeat_count (cd w) <= 3 ->
   heartbeat_count (cd w') = int32 (heartbeat_count (cd w) + 1) /\
   startup_state (cd w') = startup_state (cd w) /\
   restarts (log w') = restarts (log w)) /\
  (3 < heartbeat_count (cd w) ->
   heartbeat_count (cd w') = 0 /\
   (startup_state (cd w) = STARTUP_NONE ->
    startup_state (cd w') = STARTUP_QUEUED /\
    restarts (log w') = S (restarts (log w))) /\
   (startup_state (cd w) <> STARTUP_NONE ->
    startup_state (cd w') = startup_state (cd w) /\
    restarts (log w') = restarts (log w))).
Proof.
  intros Hs Hm Hrd Hbl Hidle w'. subst w'.
  rewrite (irq_bootloader_idle_eq w hdr d' Hs Hm Hrd Hbl Hidle).
  destruct (3 <? heartbeat_count (cd w)) eqn:Ehb;
    [apply Z.ltb_lt in Ehb | apply Z.ltb_ge in Ehb].
  - destruct (startup_state (cd w)) eqn:Est;
      cbn [cd dev log future mode sleep_state heartbeat_count startup_state
           with_heartbeat_count with_mode with_startup_state];
      rewrite ?restarts_app; cbn [restarts filter length];
      repeat split; trivial; intros; try lia; try congruence;
      repeat split; trivial; try lia; try congruence.
  - cbn [cd dev log future mode sleep_state heartbeat_count startup_state
         with_heartbeat_count with_mode with_startup_state].
    rewrite ?restarts_app; cbn [restarts filter length].
    repeat split; trivial; intros; try lia.
Qed.

Lemma irq_times_S (n : nat) (w : world D) :
  snd (irq_times (S n) w) = snd (irq_times n (snd (cyttsp4_irq w))).
Proof.
  cbn [irq_times]. unfold bind. destruct (cyttsp4_irq w) as [u w1]. reflexivity.
Qed.

Lemma irq_times_add (n k : nat) :
  forall w : world D,
    snd (irq_times (n + k) w) = snd (irq_times k (snd (irq_times n w))).
Proof.
  induction n as [|n IH]; intro w.
  - reflexivity.
  - cbn [Nat.add]. rewrite !irq_times_S. apply IH.
Qed.

(** One interrupt in bootloader mode with a bootloader header that is not
    idle: the counter is left alone. *)
Lemma irq_bootloader_busy_eq (w : world D) (hdr : list Z) (d' : D) :
  sleep_state (cd w) <> SS_SLEEP_ON ->
  mode (cd w) = CY_MODE_BOOTLOADER ->
  bus_read (dev w) (u16 CY_REG_BASE) 3 = ((0, hdr), d') ->
  IS_BOOTLOADER (nth 0 hdr 0) (nth 1 hdr 0) = true ->
  IS_BOOTLOADER_IDLE (nth 0 hdr 0) (nth 1 hdr 0) = false ->
  snd (cyttsp4_irq w) =
  {| cd := with_mode CY_MODE_BOOTLOADER (cd w); dev := d';
     log := log w ++ [EvRead (u16 CY_REG_BASE) 3 0 hdr;
                      EvAtten CY_ATTEN_IRQ (Some CY_MODE_BOOTLOADER); EvWakeUp];
     future := future w |}.
Proof.
  intros Hs Hm Hrd Hbl Hidle.
  destruct w as [c d l f].
  destruct c as [md ist hb sst slp tog inv ble wake gest si cp].
  cbn [cd dev log future mode sleep_state heartbeat_count startup_state] in *.
  subst md.
  unfold cyttsp4_irq, cyttsp4_adap_read.
  assert (Hslp : forall (A : Type) (x y : A),
             match slp with SS_SLEEP_ON => x | _ => y end = y)
    by (intros; destruct slp; congruence).
  cbv beta iota zeta delta
    [bind ret get_cd cd dev log future mode sleep_state heartbeat_count
     startup_state].
  rewrite Hslp, Hrd.
  cbv beta iota zeta delta
    [bind ret get_cd modify_cd emit call_atten_cb wake_up cyttsp4_queue_startup
     cd dev log future mode sleep_state heartbeat_count startup_state
     with_heartbeat_count with_mode with_startup_state mode_eqb negb andb fst snd].
  change (0 =? 0) with true. cbv iota.
  rewrite Hbl, Hidle. cbv iota.
  rewrite <- !app_assoc. cbn [app]. reflexivity.
Qed.

(** One interrupt whose read of the header fails: the handler gives up. *)
Lemma irq_read_error_eq (w : world D) (rc : Z) (hdr : list Z) (d' : D) :
  sleep_state (cd w) <> SS_SLEEP_ON ->
  bus_read (dev w) (u16 CY_REG_BASE) 3 = ((rc, hdr), d') ->
  rc <> 0 ->
  snd (cyttsp4_irq w) =
  {| cd := cd w; dev := d';
     log := log w ++ [EvRead (u16 CY_REG_BASE) 3 rc hdr]; future := future w |}.
Proof.
  intros Hs Hrd Hrc.
  destruct w as [c d l f].
  cbn [cd dev log future] in *.
  unfold cyttsp4_irq, cyttsp4_adap_read.
  assert (Hslp : forall (A : Type) (x y : A),
             match sleep_state c with SS_SLEEP_ON => x | _ => y end = y)
    by (intros; destruct (sleep_state c); congruence).
  cbv beta iota zeta delta [bind ret get_cd cd dev log future].
  rewrite Hslp, Hrd.
  apply Z.eqb_neq in Hrc. rewrite Hrc. reflexivity.
Qed.

Lemma idle_count_cons (k : bootloader_irq) (ks : list bootloader_irq) :
  idle_count (k :: ks)
  = ((match k with BlIdle => 1 | _ => 0 end) + idle_count ks)%nat.
Proof. unfold idle_count. destruct k; reflexivity. Qed.

Lemma idle_count_app (ks1 ks2 : list bootloader_irq) :
  idle_count (ks1 ++ ks2) = (idle_count ks1 + idle_count ks2)%nat.
Proof. unfold idle_count. rewrite filter_app, length_app. reflexivity. Qed.

(** While the counter stays at most 4, the interrupts of a device in its
    bootloader only count the idle headers: headers that are not idle and
    failed reads leave the counter where it is. *)
Lemma bootloader_irqs_count (ks rest : list bootloader_irq) :
  forall w : world D,
    bootloader_answers (ks ++ rest) (dev w) ->
    sleep_state (cd w) <> SS_SLEEP_ON ->
    mode (cd w) = CY_MODE_BOOTLOADER ->
    0 <= heartbeat_count (cd w) ->
    heartbeat_count (cd w) + Z.of_nat (idle_count ks) <= 4 ->
    let w' := snd (irq_times (length ks) w) in
    bootloader_answers rest (dev w') /\
    sleep_state (cd w') = sleep_state (cd w) /\
    mode (cd w') = CY_MODE_BOOTLOADER /\
    heartbeat_count (cd w') = heartbeat_count (cd w) + Z.of_nat (idle_count ks) /\
    startup_state (cd w') = startup_state (cd w) /\
    restarts (log w') = restarts (log w).
Proof.
  induction ks as [|k ks IH]; intros w Hans Hs Hm Hlo Hhi.
  - cbn. repeat split; trivial. unfold idle_count. cbn. lia.
  - cbv zeta. cbn [length]. rewrite irq_times_S.
    cbn [app bootloader_answers] in Hans.
    destruct (bus_read (dev w) (u16 CY_REG_BASE) 3) as [[rc hdr] d'] eqn:Hrd.
    destruct Hans as [Hk Hans].
    rewrite idle_count_cons in Hhi |- *.
    assert (Hstep :
      let w1 := snd (cyttsp4_irq w) in
      dev w1 = d' /\ sleep_state (cd w1) = sleep_state (cd w) /\
      mode (cd w1) = CY_MODE_BOOTLOADER /\
      heartbeat_count (cd w1)
      = heartbeat_count (cd w) + Z.of_nat (match k with BlIdle => 1 | _ => 0 end) /\
      startup_state (cd w1) = startup_state (cd w) /\
      restarts (log w1) = restarts (log w)).
    { destruct k; cbn [answers_as] in Hk.
      - destruct Hk as (-> & Hbl & Hidle).
        destruct (irq_bootloader_idle w hdr d' Hs Hm Hrd Hbl Hidle)
          as (Ed & Es & Em & Hcount & _).
        destruct (Hcount ltac:(lia)) as (Eh & Est & Er).
        rewrite int32_small in Eh by lia.
        cbv zeta. repeat split; trivial.
      - destruct Hk as (-> & Hbl & Hidle). cbv zeta.
        rewrite (irq_bootloader_busy_eq w hdr d' Hs Hm Hrd Hbl Hidle).
        cbn [cd dev log with_mode sleep_state mode heartbeat_count startup_state].
        rewrite restarts_app. cbn [restarts filter length].
        repeat split; trivial; lia.
      - cbv zeta. rewrite (irq_read_error_eq w rc hdr d' Hs Hrd Hk).
        cbn [cd dev log]. rewrite restarts_app. cbn [restarts filter length].
        repeat split; trivial; lia. }
    cbv zeta in Hstep. destruct Hstep as (Ed & Es & Em & Eh & Est & Er).
    destruct (IH (snd (cyttsp4_irq w))) as (A & B & C & E & F & G).
    + rewrite Ed. exact Hans.
    + rewrite Es. exact Hs.
    + exact Em.
    + lia.
    + lia.
    + repeat split; trivial; try congruence. lia.
Qed.

End IrqFacts.

(** C1, as stated, fails: from bootloader mode with the idle counter at 0,
    four consecutive bootloader-idle interrupts queue no restart; they
    leave the counter at 4 and the startup state at none. The fifth one
    queues the restart. *)
Lemma four_idle_interrupts_no_restart :
  restarts (log (snd (irq_times 4
     (sim_world CY_MODE_BOOTLOADER
        [(0, [1; 1; 0]); (0, [1; 1; 0]); (0, [1; 1; 0]); (0, [1; 1; 0]); (0, [1; 1; 0])]
        [])))) = 0%nat /\
  heartbeat_count (cd (snd (irq_times 4
     (sim_world CY_MODE_BOOTLOADER
        [(0, [1; 1; 0]); (0, [1; 1; 0]); (0, [1; 1; 0]); (0, [1; 1; 0]); (0, [1; 1; 0])]
        [])))) = 4 /\
  startup_state (cd (snd (irq_times 4
     (sim_world CY_MODE_BOOTLOADER
        [(0, [1; 1; 0]); (0, [1; 1; 0]); (0, [1; 1; 0]); (0, [1; 1; 0]); (0, [1; 1; 0])]
        [])))) = STARTUP_NONE /\
  restarts (log (snd (irq_times 5
     (sim_world CY_MODE_BOOTLOADER
        [(0, [1; 1; 0]); (0, [1; 1; 0]); (0, [1; 1; 0]); (0, [1; 1; 0]); (0, [1; 1; 0])]
        [])))) = 1%nat.
Proof. repeat split; vm_compute; reflexivity. Qed.

(** C1, amended: the handler counts the idle headers, not the headers in a
    row. In bootloader mode with the idle counter at 0 and no startup
    queued, on a device that answers the interrupts with bootloader headers,
    idle or not, or with failed reads: as long as at most four of the
    interrupts have shown the idle sub-state, no restart is triggered, the
    counter is the number of idle headers seen (headers that are not idle
    and failed reads leave it alone) and the mode stays Bootloader; the
    interrupt that shows the idle sub-state for the fifth time triggers the
    deferred restart, exactly once over all these interrupts, marks the
    startup as queued and resets the counter to 0. *)
Theorem bootloader_idle_restart_on_fifth_interrupt
  {R : Regs} {D : Type} {H : Hardware D} (ks : list bootloader_irq) (w : world D) :
  bootloader_answers ks (dev w) ->
  sleep_state (cd w) <> SS_SLEEP_ON ->
  mode (cd w) = CY_MODE_BOOTLOADER ->
  heartbeat_count (cd w) = 0 ->
  startup_state (cd w) = STARTUP_NONE ->
  let w' := snd (irq_times (length ks) w) in
  ((idle_count ks <= 4)%nat ->
   restarts (log w') = restarts (log w) /\
   heartbeat_count (cd w') = Z.of_nat (idle_count ks) /\
   startup_state (cd w') = STARTUP_NONE /\
   mode (cd w') = CY_MODE_BOOTLOADER) /\
  (forall pre, ks = pre ++ [BlIdle] -> idle_count pre = 4%nat ->
   restarts (log w') = S (restarts (log w)) /\
   heartbeat_count (cd w') = 0 /\
   startup_state (cd w') = STARTUP_QUEUED).
Proof.
  intros Hans Hs Hm Hh Hst w'. split.
  - intro Hle.
    destruct (bootloader_irqs_count ks [] w) as (_ & _ & Em & Eh & Est & Er);
      trivial; try lia.
    + rewrite app_nil_r. exact Hans.
    + fold w' in Em, Eh, Est, Er. repeat split; trivial; try congruence. lia.
  - intros pre -> Hpre. subst w'.
    destruct (bootloader_irqs_count pre [BlIdle] w)
      as (Hans4 & Es4 & Em4 & Eh4 & Est4 & Er4); trivial; try lia.
    rewrite length_app. cbn [length]. rewrite (irq_times_add (length pre) 1 w).
    set (w4 := snd (irq_times (length pre) w)) in *.
    rewrite (irq_times_S 0 w4). cbn [irq_times ret snd].
    cbn [bootloader_answers] in Hans4.
    destruct (bus_read (dev w4) (u16 CY_REG_BASE) 3) as [[rc hdr] d'] eqn:Hrd.
    destruct Hans4 as [(-> & Hbl & Hidle) _].
    assert (Hs4 : sleep_state (cd w4) <> SS_SLEEP_ON) by (rewrite Es4; exact Hs).
    destruct (irq_bootloader_idle w4 hdr d' Hs4 Em4 Hrd Hbl Hidle)
      as (_ & _ & _ & _ & Hfire).
    destruct (Hfire ltac:(lia)) as (Eh & Hq & _).
    destruct (Hq ltac:(congruence)) as (Est & Er).
    repeat split; trivial. congruence.
Qed.

Lemma bootloader_idle_restart_on_fifth_interrupt_witness :
  restarts (log (snd (irq_times 6 sim_interleaved_world))) = 0%nat /\
  heartbeat_count (cd (snd (irq_times 6 sim_interleaved_world))) = 4 /\
  restarts (log (snd (irq_times 7 sim_interleaved_world))) = 1%nat /\
  heartbeat_count (cd (snd (irq_times 7 sim_interleaved_world))) = 0 /\
  startup_state (cd (snd (irq_times 7 sim_interleaved_world))) = STARTUP_QUEUED.
Proof.
  destruct (bootloader_idle_restart_on_fifth_interrupt
              [BlIdle; BlIdle; BlBusy; BlIdle; BlIdle; BlBusy]
              sim_interleaved_world)
    as [Hcount _];
    [cbn; repeat split; discriminate | discriminate | reflexivity | reflexivity
     | reflexivity |].
  destruct (bootloader_idle_restart_on_fifth_interrupt
              [BlIdle; BlIdle; BlBusy; BlIdle; BlIdle; BlBusy; BlIdle]
              sim_interleaved_world)
    as [_ Hfire];
    [cbn; repeat split; discriminate | discriminate | reflexivity | reflexivity
     | reflexivity |].
  destruct (Hcount ltac:(vm_compute; lia)) as (A & B & _).
  destruct (Hfire [BlIdle; BlIdle; BlBusy; BlIdle; BlIdle; BlBusy] eq_refl eq_refl)
    as (C & E & F).
  repeat split; assumption.
Defined.

(** ** The startup protocol on a corrupted application image *)

Section StartupFacts.
Context {R : Regs} {D : Type} {H : Hardware D}.
Variable cyttsp4_get_sysinfo_regs : Drv D Z.
Variable cyttsp4_set_initial_scantype : Drv D Z.
Variable cyttsp4_set_proximity : bool -> Drv D Z.
Variable cyttsp4_get_ttconfig_info : Drv D Z.
Variable cyttsp4_get_active_refresh_cycle : Drv D Z.
Variable cyttsp4_core_sleep_ : Drv D Z.

Local Abbreviation pass :=
  (startup_pass cyttsp4_get_sysinfo_regs cyttsp4_set_initial_scantype
     cyttsp4_set_proximity cyttsp4_get_ttconfig_info
     cyttsp4_get_active_refresh_cycle cyttsp4_core_sleep_).
Local Abbreviation loop :=
  (startup_loop cyttsp4_get_sysinfo_regs cyttsp4_set_initial_scantype
     cyttsp4_set_proximity cyttsp4_get_ttconfig_info
     cyttsp4_get_active_refresh_cycle cyttsp4_core_sleep_).

Lemma wait_sysinfo_mode_status (w : world D) :
  fst (cyttsp4_wait_sysinfo_mode w) = 0 \/ fst (cyttsp4_wait_sysinfo_mode w) = - ETIME.
Proof.
  unfold cyttsp4_wait_sysinfo_mode, bind.
  destruct (wait_event_timeout _ _ w) as [t w1].
  destruct (IS_TMO t); cbn; auto.
Qed.

Lemma startup_pass_corrupted_app (detected : bool) (w w1 w2 w3 w4 : world D)
  (rc1 rc2 rc3 : Z) (buf : list Z) :
  cyttsp4_reset_and_wait w = (rc1, w1) -> 0 <= rc1 ->
  _cyttsp4_ldr_exit
    (snd (set_int_status CY_INT_MODE_CHANGE (snd (clear_int_status CY_INT_IGNORE w1))))
  = (rc2, w2) -> 0 <= rc2 ->
  cyttsp4_wait_sysinfo_mode w2 = (rc3, w3) -> rc3 < 0 ->
  cyttsp4_adap_read CY_REG_BASE (Z.of_nat (length ldr_err_app)) w3 = ((0, buf), w4) ->
  bytes_eqb buf ldr_err_app (length ldr_err_app) = true ->
  pass detected w = (Leave rc3 exit_no_wd true, fault_recorded w4).
Proof.
  intros E1 H1 E2 H2 E3 H3 E4 Hsig.
  unfold startup_pass.
  unfold bind at 1. rewrite E1. apply Z.ltb_ge in H1. rewrite H1.
  unfold clear_int_status, set_int_status, modify_cd in E2 |- *.
  cbn [snd] in E2.
  unfold bind at 1. cbv beta iota. unfold bind at 1. cbv beta iota.
  unfold bind at 1. rewrite E2.
  apply Z.ltb_ge in H2. rewrite H2.
  unfold bind at 1. rewrite E3. apply Z.ltb_lt in H3. rewrite H3.
  unfold bind at 1. rewrite E4. cbn [Z.eqb negb]. rewrite Hsig.
  reflexivity.
Qed.

Lemma startup_loop_corrupted_app (retry : nat) (detected : bool)
  (w w1 w2 w3 w4 : world D) (rc1 rc2 rc3 : Z) (buf : list Z) :
  cyttsp4_reset_and_wait w = (rc1, w1) -> 0 <= rc1 ->
  _cyttsp4_ldr_exit
    (snd (set_int_status CY_INT_MODE_CHANGE (snd (clear_int_status CY_INT_IGNORE w1))))
  = (rc2, w2) -> 0 <= rc2 ->
  cyttsp4_wait_sysinfo_mode w2 = (rc3, w3) -> rc3 < 0 ->
  cyttsp4_adap_read CY_REG_BASE (Z.of_nat (length ldr_err_app)) w3 = ((0, buf), w4) ->
  bytes_eqb buf ldr_err_app (length ldr_err_app) = true ->
  loop retry detected w = (Leave rc3 exit_no_wd true, fault_recorded w4).
Proof.
  intros E1 H1 E2 H2 E3 H3 E4 Hsig.
  pose proof (startup_pass_corrupted_app detected w w1 w2 w3 w4 rc1 rc2 rc3 buf
                E1 H1 E2 H2 E3 H3 E4 Hsig) as Ep.
  destruct retry; cbn [startup_loop];
    unfold bind at 1; rewrite Ep; reflexivity.
Qed.

(** C9: when, in a pass of the startup protocol, the reset and the
    loader-exit write succeed, the wait for SysInfo mode fails and the seven
    bytes read from the base register (read with status 0) equal the error
    signature [ldr_err_app], the retry loop ends at once whatever the number
    of retries left: the invalid-touch-application flag is set, the
    signature read is the last entry of the log (no further reset, no
    restart of the watchdog timer), the device counts as detected, and
    [cyttsp4_startup_] returns the timeout error of the wait, -ETIME, and
    not -ENODEV. *)
Theorem startup_corrupted_app_short_circuits
  (w w1 w2 w3 w4 : world D) (rc1 rc2 rc3 : Z) (buf : list Z) :
  cyttsp4_reset_and_wait w = (rc1, w1) -> 0 <= rc1 ->
  _cyttsp4_ldr_exit
    (snd (set_int_status CY_INT_MODE_CHANGE (snd (clear_int_status CY_INT_IGNORE w1))))
  = (rc2, w2) -> 0 <= rc2 ->
  cyttsp4_wait_sysinfo_mode w2 = (rc3, w3) -> rc3 < 0 ->
  cyttsp4_adap_read CY_REG_BASE (Z.of_nat (length ldr_err_app)) w3 = ((0, buf), w4) ->
  bytes_eqb buf ldr_err_app (length ldr_err_app) = true ->
  rc3 = - ETIME /\
  (forall (retry : nat) (detected : bool),
     loop retry detected w = (Leave rc3 exit_no_wd true, fault_recorded w4)) /\
  invalid_touch_app (cd (fault_recorded w4)) = true /\
  log (fault_recorded w4) = log w3 ++ [EvRead (u16 CY_REG_BASE) 7 0 buf] /\
  (forall w0 : world D,
     snd (cyttsp4_stop_wd_timer w0) = w ->
     cyttsp4_startup_ cyttsp4_get_sysinfo_regs cyttsp4_set_initial_scantype
       cyttsp4_set_proximity cyttsp4_get_ttconfig_info
       cyttsp4_get_active_refresh_cycle cyttsp4_core_sleep_ w0
     = (- ETIME, fault_recorded w4)) /\
  - ETIME <> - ENODEV.
Proof.
  intros E1 H1 E2 H2 E3 H3 E4 Hsig.
  assert (Hrc : rc3 = - ETIME).
  { destruct (wait_sysinfo_mode_status w2) as [E | E]; rewrite E3 in E; cbn [fst] in E;
      [lia | exact E]. }
  assert (Hloop : forall (retry : nat) (detected : bool),
     loop retry detected w = (Leave rc3 exit_no_wd true, fault_recorded w4)).
  { intros. eapply startup_loop_corrupted_app; eauto. }
  split; [exact Hrc|]. split; [exact Hloop|]. split; [reflexivity|]. split.
  - unfold cyttsp4_adap_read in E4.
    destruct (bus_read (dev w3) (u16 CY_REG_BASE) _) as [[rc' data] d].
    inversion E4; subst. reflexivity.
  - split; [|discriminate].
    intros w0 E0. unfold cyttsp4_startup_. unfold bind at 1.
    destruct (cyttsp4_stop_wd_timer w0) as [u w']. cbn [snd] in E0. subst w'.
    unfold bind at 1. rewrite Hloop. unfold bind, ret. cbn [negb]. rewrite Hrc.
    reflexivity.
Qed.

End StartupFacts.

Lemma startup_corrupted_app_short_circuits_witness :
  cyttsp4_startup_ sim_step sim_step (fun _ => sim_step) sim_step sim_step sim_step
    sim_corrupted_world
  = (- ETIME,
     {| cd := with_invalid_touch_app true
                (with_mode CY_MODE_BOOTLOADER (sim_cd CY_MODE_UNKNOWN));
        dev := {| answers := [] |};
        log := [EvStopWd; EvXres; EvRead 0 3 0 [0x01; 0x00; 0x00];
                EvAtten CY_ATTEN_IRQ (Some CY_MODE_BOOTLOADER); EvWakeUp;
                EvWrite 0 ldr_exit 0;
                EvRead 0 7 0 [0x01; 0x02; 0x00; 0x00; 0x55; 0xDD; 0x17]];
        future := [] |}).
Proof.
  pose (w := snd (cyttsp4_stop_wd_timer sim_corrupted_world)).
  pose (r1 := cyttsp4_reset_and_wait w).
  pose (r2 := _cyttsp4_ldr_exit
                (snd (set_int_status CY_INT_MODE_CHANGE
                        (snd (clear_int_status CY_INT_IGNORE (snd r1)))))).
  pose (r3 := cyttsp4_wait_sysinfo_mode (snd r2)).
  pose (r4 := cyttsp4_adap_read CY_REG_BASE (Z.of_nat (length ldr_err_app)) (snd r3)).
  refine (proj1 (proj2 (proj2 (proj2 (proj2
    (startup_corrupted_app_short_circuits
       sim_step sim_step (fun _ => sim_step) sim_step sim_step sim_step
       w (snd r1) (snd r2) (snd r3) (snd r4) (fst r1) (fst r2) (fst r3) (snd (fst r4))
       _ _ _ _ _ _ _ _))))) sim_corrupted_world eq_refl);
    vm_compute; solve [reflexivity | discriminate].
Defined.

(** ** Row-aligned config writes *)

Section CodecFacts.
Context {St : Type} {Ops : ConfigBlockOps St}.

Lemma recorded_run {A : Type} (f : M St A) (op : A -> cfg_op)
  (s : St) (tr : list cfg_op) :
  recorded f op (s, tr) = (fst (f s), (snd (f s), tr ++ [op (fst (f s))])).
Proof. unfold recorded. cbn [fst snd]. destruct (f s); reflexivity. Qed.

Lemma unrecorded_run {A : Type} (f : M St A) (s : St) (tr : list cfg_op) :
  unrecorded f (s, tr) = (fst (f s), (snd (f s), tr)).
Proof. unfold unrecorded. cbn [fst snd]. destruct (f s); reflexivity. Qed.

Lemma u16_small (z : Z) : 0 <= z < 65536 -> u16 z = z.
Proof. intro Hz. unfold u16. apply Z.mod_small. exact Hz. Qed.

(** The loop over whole rows, when every write succeeds. *)
Lemma write_whole_rows_trace (ebid end_block rsz : Z) (n : nat) :
  forall (cur : Z) (data : list Z) (s : St) (tr : list cfg_op)
         (rc cur' : Z) (data' : list Z) (s' : St) (tr' : list cfg_op),
    0 <= cur -> cur + Z.of_nat n = end_block -> end_block < 65536 ->
    write_whole_rows n ebid cur end_block rsz data (s, tr)
    = ((rc, (cur', data')), (s', tr')) ->
    rc = 0 ->
    cur' = end_block /\ data' = skip_rows n rsz data /\
    tr' = tr ++ whole_row_writes ebid cur n rsz data.
Proof.
  induction n as [|n IH]; intros cur data s tr rc cur' data' s' tr' Hc He Hb E Hrc.
  - cbn in E. inversion E; subst. cbn. rewrite app_nil_r. repeat split; lia.
  - cbn [write_whole_rows] in E.
    assert (Hlt : (cur <? end_block) = true) by (apply Z.ltb_lt; lia).
    rewrite Hlt in E. unfold bind at 1 in E.
    cbn [cyttsp4_write_config_block recording_ops] in E.
    rewrite recorded_run in E.
    set (r := cyttsp4_write_config_block ebid cur data rsz s) in *.
    destruct (fst r =? 0) eqn:Er; cbn [negb] in E.
    + apply Z.eqb_eq in Er. rewrite (u16_small (cur + 1)) in E by lia.
      destruct (IH (cur + 1) _ _ _ _ _ _ _ _ ltac:(lia) ltac:(lia) Hb E Hrc)
        as (A & B & C).
      cbn [skip_rows whole_row_writes]. rewrite Er in C.
      rewrite <- app_assoc in C. repeat split; trivial.
    + apply Z.eqb_neq in Er. inversion E; subst. contradiction.
Qed.

Lemma write_from_no_offset_trace (ebid cur end_block end_off rsz : Z)
  (data : list Z) (s s' : St) (tr tr' : list cfg_op) :
  0 <= cur -> 0 <= end_block < 65536 ->
  write_from_no_offset ebid cur end_block end_off rsz data (s, tr) = (0, (s', tr')) ->
  (cur <= end_block ->
   tr' = tr ++ whole_row_writes ebid cur (Z.to_nat (end_block - cur)) rsz data
            ++ [OpWrite ebid end_block
                  (firstn (Z.to_nat end_off)
                     (skip_rows (Z.to_nat (end_block - cur)) rsz data))
                  end_off 0]) /\
  (end_block < cur -> tr' = tr).
Proof.
  intros Hc He E. unfold write_from_no_offset in E. unfold bind at 1 in E.
  destruct (write_whole_rows _ ebid cur end_block rsz data (s, tr))
    as [[rc [cur' data']] [s1 tr1]] eqn:Ew.
  destruct (rc =? 0) eqn:Er; cbn [negb] in E.
  2:{ apply Z.eqb_neq in Er. inversion E; subst. contradiction. }
  apply Z.eqb_eq in Er. split; intro Hle.
  - destruct (write_whole_rows_trace ebid end_block rsz (Z.to_nat (end_block - cur))
                cur data s tr rc cur' data'
                s1 tr1 Hc ltac:(rewrite Z2Nat.id; lia) ltac:(lia) Ew Er)
      as (A & B & C).
    subst cur'. rewrite Z.eqb_refl in E. unfold bind in E.
    cbn [cyttsp4_write_config_block recording_ops] in E.
    rewrite recorded_run in E. unfold ret in E. inversion E; subst.
    rewrite <- app_assoc.
    match goal with Hz : fst ?x = 0 |- _ => rewrite Hz end.
    reflexivity.
  - assert (Hn : Z.to_nat (end_block - cur) = 0%nat) by lia.
    rewrite Hn in Ew. cbn in Ew. inversion Ew; subst.
    assert (Hne : (cur' =? end_block) = false) by (apply Z.eqb_neq; lia).
    rewrite Hne in E. inversion E; subst. reflexivity.
Qed.

(** The record only grows. *)
Lemma write_whole_rows_extends (ebid end_block rsz : Z) (n : nat) :
  forall (cur : Z) (data : list Z) (s : St) (tr : list cfg_op)
         (r : Z * (Z * list Z)) (s' : St) (tr' : list cfg_op),
    write_whole_rows n ebid cur end_block rsz data (s, tr) = (r, (s', tr')) ->
    exists delta, tr' = tr ++ delta.
Proof.
  induction n as [|n IH]; intros cur data s tr r s' tr' E.
  - cbn in E. inversion E; subst. exists []. symmetry. apply app_nil_r.
  - cbn [write_whole_rows] in E. destruct (cur <? end_block).
    + unfold bind at 1 in E. cbn [cyttsp4_write_config_block recording_ops] in E.
      rewrite recorded_run in E.
      destruct (negb (fst (cyttsp4_write_config_block ebid cur data rsz s) =? 0)).
      * inversion E; subst. eexists. reflexivity.
      * destruct (IH _ _ _ _ _ _ _ E) as [delta Hd].
        eexists. rewrite Hd, <- app_assoc. reflexivity.
    + inversion E; subst. exists []. symmetry. apply app_nil_r.
Qed.

Lemma write_from_no_offset_extends (ebid cur end_block end_off rsz : Z)
  (data : list Z) (s s' : St) (tr tr' : list cfg_op) (rc : Z) :
  write_from_no_offset ebid cur end_block end_off rsz data (s, tr) = (rc, (s', tr')) ->
  exists delta, tr' = tr ++ delta.
Proof.
  intro E. unfold write_from_no_offset in E. unfold bind at 1 in E.
  destruct (write_whole_rows _ ebid cur end_block rsz data (s, tr))
    as [[rc1 [cur' data']] [s1 tr1]] eqn:Ew.
  destruct (write_whole_rows_extends _ _ _ _ _ _ _ _ _ _ _ Ew) as [d1 Hd1].
  destruct (negb (rc1 =? 0)).
  - inversion E; subst. eexists; reflexivity.
  - destruct (cur' =? end_block).
    + unfold bind in E. cbn [cyttsp4_write_config_block recording_ops] in E.
      rewrite recorded_run in E. inversion E; subst.
      eexists. rewrite <- app_assoc. reflexivity.
    + inversion E; subst. eexists; reflexivity.
Qed.

Lemma write_rows_extends (ebid offset length rsz : Z) (data : list Z)
  (s s' : St) (tr tr' : list cfg_op) (rc : Z) :
  write_rows ebid offset data length rsz (s, tr) = (rc, (s', tr')) ->
  exists delta, tr' = tr ++ delta.
Proof.
  intro E. unfold write_rows in E.
  destruct (u16 (offset mod rsz) =? 0).
  - eapply write_from_no_offset_extends; eauto.
  - unfold bind at 1 in E. cbn [cyttsp4_read_config_block recording_ops] in E.
    rewrite recorded_run in E.
    destruct (fst (cyttsp4_read_config_block ebid _ _ s)) as [rc1 bytes].
    cbn [fst snd] in E.
    destruct (negb (rc1 =? 0)).
    + inversion E; subst. eexists; reflexivity.
    + unfold bind at 1 in E. cbn [cyttsp4_write_config_block recording_ops] in E.
      rewrite recorded_run in E.
      match type of E with context [negb ?c] => destruct (negb c) end.
      * inversion E; subst. eexists. rewrite <- app_assoc. reflexivity.
      * destruct (write_from_no_offset_extends _ _ _ _ _ _ _ _ _ _ _ E) as [d Hd].
        eexists. rewrite Hd, <- !app_assoc. reflexivity.
Qed.

Lemma write_config_common_extends (ebid offset length : Z) (data : list Z)
  (s s' : St) (tr tr' : list cfg_op) (rc : Z) :
  cyttsp4_write_config_common ebid offset data length (s, tr) = (rc, (s', tr')) ->
  exists delta, tr' = tr ++ delta.
Proof.
  intro E. unfold cyttsp4_write_config_common in E. unfold bind at 1 in E.
  cbn [cyttsp4_get_config_row_size recording_ops] in E. rewrite recorded_run in E.
  destruct (fst (cyttsp4_get_config_row_size s)) as [rc0 rsz].
  destruct (negb (rc0 =? 0)).
  - inversion E; subst. eexists; reflexivity.
  - destruct (write_rows_extends _ _ _ _ _ _ _ _ _ _ E) as [d Hd].
    eexists. rewrite Hd, <- app_assoc. reflexivity.
Qed.

(** What a successful run records once the row size is known. *)
Lemma write_rows_trace (ebid offset length rsz : Z) (data : list Z)
  (s s' : St) (tr tr' : list cfg_op) :
  0 <= offset -> 0 <= length -> offset + length < 65536 -> 0 < rsz < 65536 ->
  write_rows ebid offset data length rsz (s, tr) = (0, (s', tr')) ->
  let cur_block := offset / rsz in
  let cur_off := offset mod rsz in
  let end_block := (offset + length) / rsz in
  let end_off := (offset + length) mod rsz in
  let copy_len := if cur_block =? end_block then length else rsz - cur_off in
  (cur_off = 0 ->
   tr' = tr ++ whole_row_writes ebid cur_block (Z.to_nat (end_block - cur_block)) rsz data
            ++ [OpWrite ebid end_block
                  (firstn (Z.to_nat end_off)
                     (skip_rows (Z.to_nat (end_block - cur_block)) rsz data))
                  end_off 0]) /\
  (cur_off <> 0 ->
   exists prefix,
     let row_data :=
       store_at (store_at (repeat 0 (Z.to_nat rsz)) 0 prefix) (Z.to_nat cur_off)
         (firstn (Z.to_nat copy_len) data) in
     tr' = tr ++ OpRead ebid cur_block cur_off 0 prefix
              :: OpWrite ebid cur_block
                   (firstn (Z.to_nat (cur_off + copy_len)) row_data)
                   (cur_off + copy_len) 0
              :: (if cur_block + 1 <=? end_block then
                    whole_row_writes ebid (cur_block + 1)
                      (Z.to_nat (end_block - (cur_block + 1))) rsz
                      (skipn (Z.to_nat copy_len) data)
                    ++ [OpWrite ebid end_block
                          (firstn (Z.to_nat end_off)
                             (skip_rows (Z.to_nat (end_block - (cur_block + 1))) rsz
                                (skipn (Z.to_nat copy_len) data)))
                          end_off 0]
                  else [])).
Proof.
  intros Ho Hl Hsum Hr E cur_block cur_off end_block end_off copy_len.
  assert (Hcb : 0 <= cur_block <= offset).
  { split; [apply Z.div_pos; lia | apply Z.div_le_upper_bound; nia]. }
  assert (Heb : 0 <= end_block <= offset + length).
  { split; [apply Z.div_pos; lia | apply Z.div_le_upper_bound; nia]. }
  assert (Hco : 0 <= cur_off < rsz) by (apply Z.mod_pos_bound; lia).
  assert (Heo : 0 <= end_off < rsz) by (apply Z.mod_pos_bound; lia).
  assert (Hle : cur_block <= end_block) by (apply Z.div_le_mono; lia).
  assert (Hd1 : offset = rsz * cur_block + cur_off) by (apply Z.div_mod; lia).
  assert (Hd2 : offset + length = rsz * end_block + end_off) by (apply Z.div_mod; lia).
  unfold write_rows in E.
  fold cur_block cur_off end_block end_off in E.
  rewrite (u16_small cur_block), (u16_small cur_off), (u16_small end_block),
    (u16_small end_off) in E by lia.
  fold copy_len in E.
  split; intro Hoff.
  - rewrite Hoff in E. cbn [Z.eqb] in E.
    destruct (write_from_no_offset_trace ebid cur_block end_block end_off rsz data
                s s' tr tr' ltac:(lia) ltac:(lia) E) as [A _].
    apply A. exact Hle.
  - apply Z.eqb_neq in Hoff. rewrite Hoff in E. apply Z.eqb_neq in Hoff.
    unfold bind at 1 in E. cbn [cyttsp4_read_config_block recording_ops] in E.
    rewrite recorded_run in E.
    destruct (cyttsp4_read_config_block ebid cur_block cur_off s)
      as [[rc1 prefix] s1] eqn:Erd.
    cbn [fst snd] in E.
    destruct (rc1 =? 0) eqn:Erc1; cbn [negb] in E.
    2:{ apply Z.eqb_neq in Erc1. unfold ret in E. congruence. }
    apply Z.eqb_eq in Erc1. subst rc1.
    assert (Hcl : 0 <= cur_off + copy_len <= rsz /\ 0 <= copy_len).
    { unfold copy_len. destruct (cur_block =? end_block) eqn:Ecb.
      - apply Z.eqb_eq in Ecb. nia.
      - lia. }
    assert (Hrs : 2 <= rsz) by lia.
    assert (Hcb2 : cur_block + 1 < 65536) by nia.
    rewrite (u16_small (cur_off + copy_len)), (u16_small (cur_block + 1)) in E by lia.
    unfold bind at 1 in E. cbn [cyttsp4_write_config_block recording_ops] in E.
    rewrite recorded_run in E.
    match type of E with context [negb (fst ?x =? 0)] =>
      destruct (fst x =? 0) eqn:Erc2; cbn [negb] in E
    end.
    2:{ apply Z.eqb_neq in Erc2. unfold ret in E. congruence. }
    apply Z.eqb_eq in Erc2. rewrite Erc2 in E.
    exists prefix. cbv zeta.
    destruct (write_from_no_offset_trace ebid (cur_block + 1) end_block end_off rsz
                _ _ s' _ tr' ltac:(lia) ltac:(lia) E) as [A B].
    destruct (cur_block + 1 <=? end_block) eqn:Enx.
    + apply Z.leb_le in Enx. rewrite (A Enx), <- !app_assoc. reflexivity.
    + apply Z.leb_gt in Enx. rewrite (B Enx), <- !app_assoc. reflexivity.
Qed.

Lemma whole_row_writes_shape (ebid rsz : Z) (n : nat) :
  forall (first : Z) (data : list Z),
    map shape_of (whole_row_writes ebid first n rsz data)
    = map (fun row => ShWrite row rsz) (rows_from first n).
Proof.
  induction n as [|n IH]; intros first data; cbn [whole_row_writes rows_from map shape_of].
  - reflexivity.
  - rewrite IH. reflexivity.
Qed.

Lemma write_rows_shape (ebid offset length rsz : Z) (data : list Z)
  (s s' : St) (tr delta : list cfg_op) :
  0 <= offset -> 0 <= length -> offset + length < 65536 -> 0 < rsz < 65536 ->
  write_rows ebid offset data length rsz (s, tr) = (0, (s', tr ++ delta)) ->
  map shape_of delta = expected_row_commands offset length rsz.
Proof.
  intros Ho Hl Hsum Hr E.
  destruct (write_rows_trace ebid offset length rsz data s s' tr (tr ++ delta)
              Ho Hl Hsum Hr E) as [A B].
  unfold expected_row_commands.
  destruct (offset mod rsz =? 0) eqn:Eoff.
  - apply Z.eqb_eq in Eoff. specialize (A Eoff). apply app_inv_head in A. rewrite A.
    assert (Hle : offset / rsz <= (offset + length) / rsz) by (apply Z.div_le_mono; lia).
    apply Z.leb_le in Hle. rewrite Hle.
    rewrite map_app, whole_row_writes_shape. reflexivity.
  - apply Z.eqb_neq in Eoff. destruct (B Eoff) as [prefix Hp]. cbv zeta in Hp.
    apply app_inv_head in Hp. rewrite Hp. cbn [map shape_of app].
    destruct (offset / rsz + 1 <=? (offset + length) / rsz) eqn:Enx.
    + rewrite map_app, whole_row_writes_shape. reflexivity.
    + apply Z.leb_gt in Enx.
      replace (Z.to_nat ((offset + length) / rsz - (offset / rsz + 1))) with 0%nat by lia.
      reflexivity.
Qed.

Lemma write_config_common_shape (ebid offset length : Z) (data : list Z)
  (s s' : St) (tr tr' : list cfg_op) :
  0 <= offset -> 0 <= length -> offset + length < 65536 ->
  cyttsp4_write_config_common ebid offset data length (s, tr) = (0, (s', tr')) ->
  exists rsz ops,
    tr' = tr ++ OpRowSize 0 rsz :: ops /\
    (0 < rsz < 65536 -> map shape_of ops = expected_row_commands offset length rsz).
Proof.
  intros Ho Hl Hsum E. unfold cyttsp4_write_config_common in E.
  unfold bind at 1 in E. cbn [cyttsp4_get_config_row_size recording_ops] in E.
  rewrite recorded_run in E.
  destruct (cyttsp4_get_config_row_size s) as [[rc0 rsz] s0].
  cbn [fst snd] in E.
  destruct (rc0 =? 0) eqn:Erc0; cbn [negb] in E.
  2:{ apply Z.eqb_neq in Erc0. unfold ret in E. congruence. }
  apply Z.eqb_eq in Erc0. subst rc0.
  destruct (write_rows_extends _ _ _ _ _ _ _ _ _ _ E) as [delta Hd].
  exists rsz, delta. split.
  - rewrite Hd, <- app_assoc. reflexivity.
  - intro Hr. subst tr'. eapply write_rows_shape; eauto.
Qed.

(** The scenario: row size 128, offset 100, length 60. *)
Lemma write_config_common_scenario (ebid : Z) (data : list Z)
  (s s' : St) (tr ops : list cfg_op) :
  cyttsp4_write_config_common ebid 100 data 60 (s, tr)
  = (0, (s', tr ++ OpRowSize 0 128 :: ops)) ->
  exists prefix,
    ops = [OpRead ebid 0 100 0 prefix;
           OpWrite ebid 0
             (firstn 128
                (store_at (store_at (repeat 0 128) 0 prefix) 100 (firstn 28 data)))
             128 0;
           OpWrite ebid 1 (firstn 32 (skipn 28 data)) 32 0].
Proof.
  intro E. unfold cyttsp4_write_config_common in E.
  unfold bind at 1 in E. cbn [cyttsp4_get_config_row_size recording_ops] in E.
  rewrite recorded_run in E.
  destruct (cyttsp4_get_config_row_size s) as [[rc0 rsz] s0].
  cbn [fst snd] in E.
  destruct (rc0 =? 0) eqn:Erc0; cbn [negb] in E.
  2:{ apply Z.eqb_neq in Erc0. unfold ret in E. congruence. }
  apply Z.eqb_eq in Erc0. subst rc0.
  destruct (write_rows_extends _ _ _ _ _ _ _ _ _ _ E) as [delta Hd].
  assert (Hrsz : rsz = 128 /\ delta = ops).
  { rewrite <- app_assoc in Hd. apply app_inv_head in Hd. cbn [app] in Hd.
    inversion Hd; subst. auto. }
  destruct Hrsz as [-> ->].
  replace (tr ++ OpRowSize 0 128 :: ops) with ((tr ++ [OpRowSize 0 128]) ++ ops) in E
    by (rewrite <- app_assoc; reflexivity).
  destruct (write_rows_trace ebid 100 60 128 data s0 s' _ _
              ltac:(lia) ltac:(lia) ltac:(lia) ltac:(lia) E) as [_ B].
  destruct (B ltac:(discriminate)) as [prefix Hp].
  exists prefix. cbv zeta in Hp. apply app_inv_head in Hp. exact Hp.
Qed.

(** After the rows: the CRC of the block is verified and the stored CRC is
    written again only when the two differ. *)
Lemma write_config_trace (ebid offset length : Z) (data : list Z)
  (s s' : St) (tr' : list cfg_op) :
  cyttsp4_write_config ebid offset data length (s, []) = (0, (s', tr')) ->
  exists conf_len crc_offset mid crc_new crc_old rest s1 s2 s3,
    tr' = OpConfigLength ebid 0 conf_len crc_offset :: mid
          ++ OpVerifyCrc ebid 0 crc_new crc_old :: rest /\
    offset + length <= crc_offset + 2 /\
    cyttsp4_write_config_common ebid offset data length
      (s1, [OpConfigLength ebid 0 conf_len crc_offset])
    = (0, (s2, OpConfigLength ebid 0 conf_len crc_offset :: mid)) /\
    (crc_new = crc_old -> rest = []) /\
    (crc_new <> crc_old ->
     cyttsp4_write_config_common ebid crc_offset (fst (PUT_FIELD16 crc_new s3)) 2
       (snd (PUT_FIELD16 crc_new s3),
        OpConfigLength ebid 0 conf_len crc_offset :: mid
        ++ [OpVerifyCrc ebid 0 crc_new crc_old])
     = (0, (s', tr'))).
Proof.
  intro E. unfold cyttsp4_write_config in E. unfold bind at 1 in E.
  cbn [sysinfo_ready recording_ops] in E. rewrite unrecorded_run in E.
  destruct (fst (sysinfo_ready s)); cbn [negb] in E;
    [|unfold ret in E; inversion E].
  unfold bind at 1 in E. cbn [cyttsp4_get_config_length recording_ops] in E.
  rewrite recorded_run in E.
  destruct (cyttsp4_get_config_length ebid (snd (sysinfo_ready s)))
    as [[rc0 [conf_len crc_offset]] s1] eqn:Ecl.
  cbn [fst snd app] in E.
  destruct (rc0 =? 0) eqn:Erc0; cbn [negb] in E.
  2:{ apply Z.eqb_neq in Erc0. unfold ret in E. congruence. }
  apply Z.eqb_eq in Erc0. subst rc0.
  destruct (crc_offset + 2 <? offset + length) eqn:Elen;
    [unfold ret in E; inversion E|].
  apply Z.ltb_ge in Elen.
  unfold bind at 1 in E.
  destruct (cyttsp4_write_config_common ebid offset data length
              (s1, [OpConfigLength ebid 0 conf_len crc_offset]))
    as [rc1 [s2 tr2]] eqn:Ecommon.
  destruct (rc1 =? 0) eqn:Erc1; cbn [negb] in E.
  2:{ apply Z.eqb_neq in Erc1. unfold ret in E. congruence. }
  apply Z.eqb_eq in Erc1. subst rc1.
  destruct (write_config_common_extends _ _ _ _ _ _ _ _ _ Ecommon) as [mid Hmid].
  cbn [app] in Hmid. subst tr2.
  unfold bind at 1 in E. cbn [cyttsp4_verify_config_block_crc recording_ops] in E.
  rewrite recorded_run in E.
  destruct (cyttsp4_verify_config_block_crc ebid s2)
    as [[rc2 [crc_new crc_old]] s3] eqn:Ev.
  cbn [fst snd] in E.
  destruct (rc2 =? 0) eqn:Erc2; cbn [negb] in E.
  2:{ apply Z.eqb_neq in Erc2. unfold ret in E. congruence. }
  apply Z.eqb_eq in Erc2. subst rc2.
  destruct (crc_new =? crc_old) eqn:Ecrc.
  - apply Z.eqb_eq in Ecrc. unfold ret in E. inversion E; subst.
    exists conf_len, crc_offset, mid, crc_old, crc_old, [], s1, s2, s'.
    repeat split; trivial. intro Hne. contradiction.
  - apply Z.eqb_neq in Ecrc.
    unfold bind at 1 in E. cbn [PUT_FIELD16 recording_ops] in E.
    rewrite unrecorded_run in E. unfold bind at 1 in E.
    destruct (cyttsp4_write_config_common ebid crc_offset _ 2 _)
      as [rc3 [s4 tr4]] eqn:Ecrcw.
    unfold ret in E. inversion E; subst.
    destruct (write_config_common_extends _ _ _ _ _ _ _ _ _ Ecrcw) as [rest Hrest].
    exists conf_len, crc_offset, mid, crc_new, crc_old, rest, s1, s2, s3.
    cbn [app] in Hrest. rewrite <- app_assoc in Hrest. cbn [app] in Hrest.
    repeat split; trivial; try (intro; contradiction).
Qed.

End CodecFacts.

(** C5, as stated, fails in its general part: in the very scenario of the
    claim (row size 128, offset 100, length 60) the last row, row 1, is
    written in part (32 of its 128 bytes) by a plain write that no read of
    row 1 precedes, and the one read of the run fetches the 100 bytes of
    row 0 in front of the offset, not the full row. *)
Lemma config_write_last_row_not_read :
  fst (sim_write_config sim_cfg_equal_crc 100 sim_cfg_data 60) = 0 /\
  map shape_of (snd (snd (sim_write_config sim_cfg_equal_crc 100 sim_cfg_data 60)))
  = [ShConfigLength; ShRowSize; ShRead 0 100; ShWrite 0 128; ShWrite 1 32; ShVerifyCrc] /\
  existsb (fun sh => match sh with ShRead 1 _ => true | _ => false end)
    (map shape_of (snd (snd (sim_write_config sim_cfg_equal_crc 100 sim_cfg_data 60))))
  = false.
Proof. repeat split; vm_compute; reflexivity. Qed.

(** C5, amended: for a config write with row size 128 starting at offset
    100 with length 60 that succeeds, the codec issues exactly one read of
    row 0, of the 100 bytes in front of the offset, one write of row 0 (these
    100 bytes followed by the 28 new bytes for offsets 100-127) and one write
    of row 1 with the remaining 32 bytes (offsets 128-159), and no read of
    row 1. In general a successful write reads and rewrites the first row
    when it starts inside it (the read covers the bytes in front of the
    offset), writes every whole row in between with the full row size, and
    writes the last row with the remaining bytes without reading it. After
    the rows [cyttsp4_write_config] has the block CRC verified and writes the
    stored CRC field again (two bytes at its offset, by the same row
    procedure) only if the calculated CRC differs from the stored one. *)
Theorem config_write_row_commands
  {St : Type} {Ops : ConfigBlockOps St} (ebid : Z) (data : list Z) :
  (forall (s s' : St) (tr ops : list cfg_op),
     cyttsp4_write_config_common ebid 100 data 60 (s, tr)
     = (0, (s', tr ++ OpRowSize 0 128 :: ops)) ->
     exists prefix,
       ops = [OpRead ebid 0 100 0 prefix;
              OpWrite ebid 0
                (firstn 128
                   (store_at (store_at (repeat 0 128) 0 prefix) 100 (firstn 28 data)))
                128 0;
              OpWrite ebid 1 (firstn 32 (skipn 28 data)) 32 0]) /\
  (forall (offset length : Z) (s s' : St) (tr tr' : list cfg_op),
     0 <= offset -> 0 <= length -> offset + length < 65536 ->
     cyttsp4_write_config_common ebid offset data length (s, tr) = (0, (s', tr')) ->
     exists rsz ops,
       tr' = tr ++ OpRowSize 0 rsz :: ops /\
       (0 < rsz < 65536 ->
        map shape_of ops = expected_row_commands offset length rsz)) /\
  (forall (offset length : Z) (s s' : St) (tr' : list cfg_op),
     cyttsp4_write_config ebid offset data length (s, []) = (0, (s', tr')) ->
     exists conf_len crc_offset mid crc_new crc_old rest s1 s2 s3,
       tr' = OpConfigLength ebid 0 conf_len crc_offset :: mid
             ++ OpVerifyCrc ebid 0 crc_new crc_old :: rest /\
       offset + length <= crc_offset + 2 /\
       cyttsp4_write_config_common ebid offset data length
         (s1, [OpConfigLength ebid 0 conf_len crc_offset])
       = (0, (s2, OpConfigLength ebid 0 conf_len crc_offset :: mid)) /\
       (crc_new = crc_old -> rest = []) /\
       (crc_new <> crc_old ->
        cyttsp4_write_config_common ebid crc_offset (fst (PUT_FIELD16 crc_new s3)) 2
          (snd (PUT_FIELD16 crc_new s3),
           OpConfigLength ebid 0 conf_len crc_offset :: mid
           ++ [OpVerifyCrc ebid 0 crc_new crc_old])
        = (0, (s', tr')))).
Proof.
  split; [|split].
  - intros s s' tr ops. apply write_config_common_scenario.
  - intros offset length s s' tr tr'. apply write_config_common_shape.
  - intros offset length s s' tr'. apply write_config_trace.
Qed.

(** The scenario on the simulated device whose stored CRC is stale: the rows
    of the claim, the verification, and the rewrite of the two CRC bytes at
    offset 254 (a read and a write of row 1, and an empty write of row 2). *)
Lemma config_write_stale_crc_scenario :
  fst (sim_write_config sim_cfg_stale_crc 100 sim_cfg_data 60) = 0 /\
  map shape_of (snd (snd (sim_write_config sim_cfg_stale_crc 100 sim_cfg_data 60)))
  = [ShConfigLength; ShRowSize; ShRead 0 100; ShWrite 0 128; ShWrite 1 32; ShVerifyCrc;
     ShRowSize; ShRead 1 126; ShWrite 1 128; ShWrite 2 0].
Proof. split; vm_compute; reflexivity. Qed.

Lemma config_write_row_commands_witness :
  exists prefix,
    [OpRead 7 0 100 0 (repeat 0xEE 100);
     OpWrite 7 0 (repeat 0xEE 100 ++ firstn 28 sim_cfg_data) 128 0;
     OpWrite 7 1 (skipn 28 sim_cfg_data) 32 0]
    = [OpRead 7 0 100 0 prefix;
       OpWrite 7 0
         (firstn 128
            (store_at (store_at (repeat 0 128) 0 prefix) 100 (firstn 28 sim_cfg_data)))
         128 0;
       OpWrite 7 1 (firstn 32 (skipn 28 sim_cfg_data)) 32 0].
Proof.
  refine (proj1 (@config_write_row_commands _ sim_cfg_ops 7 sim_cfg_data)
            sim_cfg_equal_crc sim_cfg_equal_crc [] _ _).
  vm_compute. reflexivity.
Defined.

(** ** The exclusive access arbiter *)

Section ArbiterFacts.
Import Arbiter.
Context {R : Regs}.






















End ArbiterFacts.


(** * Further properties of the driver *)

(** ** Restarts queued by the interrupt handler *)

Section RestartFacts.
Context {R : Regs} {D : Type} {H : Hardware D}.

Lemma within_budget_ret {A : Type} (a : A) : within_budget (D := D) (ret a).
Proof. intro w. exists []. cbn [snd ret]. rewrite app_nil_r. split; [reflexivity|]. apply Nat.le_refl. Qed.

Lemma within_budget_bind {A B : Type} (m : Drv D A) (f : A -> Drv D B) :
  within_budget m -> (forall a, within_budget (f a)) -> within_budget (bind m f).
Proof.
  intros Hm Hf w. unfold bind. destruct (Hm w) as (l1 & Hl1 & Hb1).
  destruct (m w) as [a w1]. cbn [snd] in Hl1, Hb1.
  destruct (Hf a w1) as (l2 & Hl2 & Hb2).
  exists (l1 ++ l2). rewrite Hl2, Hl1, app_assoc. split; [reflexivity|].
  rewrite restarts_app. lia.
Qed.

Lemma within_budget_get_cd : within_budget (D := D) get_cd.
Proof. intro w. exists []. cbn [snd get_cd]. rewrite app_nil_r. split; [reflexivity|]. apply Nat.le_refl. Qed.

Lemma within_budget_modify (f : cyttsp4_core_data -> cyttsp4_core_data) :
  (forall c, startup_state (f c) = startup_state c) ->
  within_budget (D := D) (modify_cd f).
Proof.
  intros Hf w. exists []. unfold startup_budget, modify_cd. cbn [snd cd log].
  rewrite Hf, app_nil_r. split; [reflexivity|]. apply Nat.le_refl.
Qed.

Lemma within_budget_emit (e : event) :
  e <> EvScheduleStartup -> within_budget (D := D) (emit e).
Proof.
  intros He w. exists [e]. unfold emit. cbn [snd cd log]. split; [reflexivity|].
  replace (restarts [e]) with 0%nat by (destruct e; try reflexivity; congruence).
  apply Nat.le_refl.
Qed.

Lemma within_budget_adap_read (addr size : Z) :
  within_budget (D := D) (cyttsp4_adap_read addr size).
Proof.
  intro w. unfold cyttsp4_adap_read.
  destruct (bus_read (dev w) (u16 addr) size) as [[rc data] d].
  eexists. cbn [snd cd log]. split; [reflexivity|]. apply Nat.le_refl.
Qed.

Lemma within_budget_adap_write (addr : Z) (buf : list Z) :
  within_budget (D := D) (cyttsp4_adap_write addr buf).
Proof.
  intro w. unfold cyttsp4_adap_write.
  destruct (bus_write (dev w) (u16 addr) buf) as [rc d].
  eexists. cbn [snd cd log]. split; [reflexivity|]. apply Nat.le_refl.
Qed.

Lemma within_budget_power (on : Z) : within_budget (D := D) (cpdata_power on).
Proof.
  intro w. unfold cpdata_power.
  destruct (plat_power (dev w) on) as [rc d].
  eexists. cbn [snd cd log]. split; [reflexivity|]. apply Nat.le_refl.
Qed.

Lemma within_budget_xres : within_budget (D := D) cpdata_xres.
Proof.
  intro w. unfold cpdata_xres.
  eexists. cbn [snd cd log]. split; [reflexivity|]. apply Nat.le_refl.
Qed.

(** [cyttsp4_queue_startup] spends the budget: it schedules the work only
    when no startup is queued or running, and then marks it queued. *)
Lemma within_budget_queue_startup : within_budget (D := D) cyttsp4_queue_startup.
Proof.
  intro w. unfold startup_budget, cyttsp4_queue_startup, bind, get_cd.
  destruct (startup_state (cd w)) eqn:E.
  - exists [EvScheduleStartup]. unfold modify_cd, emit.
    cbn [snd cd log startup_state with_startup_state]. split; [reflexivity|].
    cbn. lia.
  - exists []. unfold ret. cbn [snd]. rewrite E, app_nil_r. split; [reflexivity|].
    apply Nat.le_refl.
  - exists []. unfold ret. cbn [snd]. rewrite E, app_nil_r. split; [reflexivity|].
    apply Nat.le_refl.
Qed.

Ltac budget_step :=
  first
    [ apply within_budget_ret
    | apply within_budget_get_cd
    | apply within_budget_queue_startup
    | apply within_budget_adap_read
    | apply within_budget_adap_write
    | apply within_budget_power
    | apply within_budget_xres
    | apply within_budget_emit; discriminate
    | apply within_budget_modify; intro; reflexivity
    | apply within_budget_bind; [| intro]
    | match goal with
      | |- within_budget (if ?b then _ else _) => destruct b
      | |- within_budget (match ?x with _ => _ end) => destruct x
      end ].

Ltac budget := repeat budget_step.

Lemma within_budget_handshake (hst_mode : Z) :
  within_budget (D := D) (cyttsp4_handshake hst_mode).
Proof. unfold cyttsp4_handshake. budget. Qed.

Lemma within_budget_irq_handshake (mode0 : Z) :
  within_budget (D := D) (cyttsp4_irq_handshake mode0).
Proof.
  unfold cyttsp4_irq_handshake. apply within_budget_bind;
    [apply within_budget_handshake | intro]. budget.
Qed.

Lemma within_budget_deep_sleep (hst_mode_reg : Z) :
  within_budget (D := D) (_cyttsp4_put_device_into_deep_sleep hst_mode_reg).
Proof. unfold _cyttsp4_put_device_into_deep_sleep. budget. Qed.

Lemma within_budget_load_status (optimize : bool) :
  within_budget (D := D) (cyttsp4_load_status_and_touch_regs optimize).
Proof. unfold cyttsp4_load_status_and_touch_regs. budget. Qed.

Lemma within_budget_irq : within_budget (D := D) cyttsp4_irq.
Proof.
  unfold cyttsp4_irq, call_atten_cb, wake_up.
  repeat first
    [ apply within_budget_irq_handshake
    | apply within_budget_deep_sleep
    | apply within_budget_load_status
    | budget_step ].
Qed.

(** An activity raises the budget by at most one, and only when it is the
    exit of [cyttsp4_startup]. *)
Lemma activity_budget (a : activity) (w : world D) :
  exists l,
    log (snd (run_activity a w)) = log w ++ l /\
    (restarts l + startup_budget (cd (snd (run_activity a w)))
     <= startup_budget (cd w) + startup_exits [a])%nat.
Proof.
  destruct a as [| | | | f g]; cbn [run_activity].
  - destruct (within_budget_irq w) as (l & Hl & Hb). exists l.
    split; [exact Hl|]. change (startup_exits [ActIrq]) with 0%nat. lia.
  - destruct (within_budget_queue_startup w) as (l & Hl & Hb). exists l.
    split; [exact Hl|]. change (startup_exits [ActQueueStartup]) with 0%nat. lia.
  - exists []. unfold startup_entry_region, modify_cd, startup_budget.
    cbn [snd cd log startup_state with_startup_state]. rewrite app_nil_r.
    split; [reflexivity|]. cbn. lia.
  - exists [EvWakeUp]. unfold startup_exit_region, bind, modify_cd, wake_up, emit,
      startup_budget.
    cbn [snd cd log startup_state with_startup_state].
    split; [reflexivity|]. cbn. destruct (startup_state (cd w)); lia.
  - exists []. unfold startup_budget.
    cbn [snd cd log startup_state with_startup_state]. rewrite app_nil_r.
    split; [reflexivity|]. change (startup_exits [ActOther f g]) with 0%nat.
    change (restarts []) with 0%nat. lia.
Qed.

Lemma startup_exits_cons (a : activity (D := D)) (acts : list activity) :
  startup_exits (a :: acts) = (startup_exits [a] + startup_exits acts)%nat.
Proof. unfold startup_exits. destruct a; reflexivity. Qed.

Lemma activities_budget (acts : list activity) :
  forall w : world D,
    exists l,
      log (snd (run_activities acts w)) = log w ++ l /\
      (restarts l + startup_budget (cd (snd (run_activities acts w)))
       <= startup_budget (cd w) + startup_exits acts)%nat.
Proof.
  induction acts as [|a rest IH]; intro w.
  - exists []. cbn [run_activities ret snd]. rewrite app_nil_r.
    split; [reflexivity|]. change (restarts []) with 0%nat.
    change (startup_exits (D := D) []) with 0%nat. lia.
  - cbn [run_activities]. unfold bind.
    destruct (activity_budget a w) as (l1 & Hl1 & Hb1).
    destruct (run_activity a w) as [[] w1]. cbn [snd] in Hl1, Hb1.
    destruct (IH w1) as (l2 & Hl2 & Hb2).
    exists (l1 ++ l2). rewrite Hl2, Hl1, app_assoc. split; [reflexivity|].
    rewrite restarts_app, startup_exits_cons. lia.
Qed.

End RestartFacts.

(** X1: the startup work is scheduled at most once more often than
    [cyttsp4_startup] has completed. Over any interleaving of interrupts,
    of calls of [cyttsp4_queue_startup] made under [system_lock] by the
    sleep and wake-up paths, of entries and exits of [cyttsp4_startup] and
    of other code that leaves [startup_state] alone, the driver only
    appends to its log, and the number of
    [schedule_work] calls is at most one plus the number of exits of
    [cyttsp4_startup]; it is at most the number of exits when a startup is
    queued or running at the beginning, and whenever the bound is reached
    a startup is queued or running at the end. *)
Theorem startup_scheduled_once_per_startup_run
  {R : Regs} {D : Type} {H : Hardware D} (acts : list activity) (w : world D) :
  exists l,
    log (snd (run_activities acts w)) = log w ++ l /\
    (restarts l <= 1 + startup_exits acts)%nat /\
    (startup_state (cd w) <> STARTUP_NONE ->
     (restarts l <= startup_exits acts)%nat) /\
    (restarts l = (1 + startup_exits acts)%nat ->
     startup_state (cd (snd (run_activities acts w))) <> STARTUP_NONE).
Proof.
  destruct (activities_budget acts w) as (l & Hl & Hb).
  exists l. split; [exact Hl|]. unfold startup_budget in Hb.
  repeat split.
  - destruct (startup_state (cd w)),
      (startup_state (cd (snd (run_activities acts w)))); lia.
  - intro Hs. destruct (startup_state (cd w)); [congruence | |];
      destruct (startup_state (cd (snd (run_activities acts w)))); lia.
  - intros H1 E. rewrite E in Hb. destruct (startup_state (cd w)); lia.
Qed.

(** The bound is reached: a startup queued, run to its end and queued
    again makes two calls of [schedule_work] with one exit of
    [cyttsp4_startup]. *)
Lemma startup_scheduled_again_after_exit :
  restarts (log (snd (run_activities
                        [ActQueueStartup; ActIrq; ActStartupEnter; ActQueueStartup;
                         ActStartupExit; ActQueueStartup; ActQueueStartup]
                        (sim_world CY_MODE_OPERATIONAL [] [])))) = 2%nat.
Proof. vm_compute. reflexivity. Qed.

(** ** The CRC detects a corrupted byte *)

Section CrcDetection.
Import Crc.

Lemma all_words_complete (bits : nat) :
  forall z, 0 <= z < 2 ^ Z.of_nat bits -> In z (all_words bits).
Proof.
  induction bits as [|k IH]; intros z Hz.
  - cbn in Hz. left. lia.
  - rewrite Nat2Z.inj_succ, Z.pow_succ_r in Hz by lia.
    cbn [all_words]. apply in_flat_map. exists (z / 2). split.
    + apply IH. split; [apply Z.div_pos; lia | apply Z.div_lt_upper_bound; lia].
    + pose proof (Z.div_mod z 2 ltac:(lia)) as Hdm.
      pose proof (Z.mod_pos_bound z 2 ltac:(lia)) as Hm.
      destruct (Z.eq_dec (z mod 2) 0) as [E | E].
      * left. lia.
      * right. left. lia.
Qed.

Lemma crc_shift_undone_all :
  forallb (fun crc => crc_unshift 8 (crc_shift 8 crc) =? crc) (all_words 16) = true.
Proof. vm_compute. reflexivity. Qed.

Lemma crc_shift_undone (crc : Z) :
  0 <= crc < 65536 -> crc_unshift 8 (crc_shift 8 crc) = crc.
Proof.
  intro Hc. apply Z.eqb_eq.
  apply (proj1 (forallb_forall _ _) crc_shift_undone_all crc).
  apply all_words_complete. exact Hc.
Qed.

Lemma u16_range (z : Z) : 0 <= u16 z < 65536.
Proof. unfold u16. apply Z.mod_pos_bound. lia. Qed.

Lemma u8_range (z : Z) : 0 <= u8 z < 256.
Proof. unfold u8. apply Z.mod_pos_bound. lia. Qed.

Lemma u16_of_range (z : Z) : 0 <= z < 65536 -> u16 z = z.
Proof. intro Hz. unfold u16. apply Z.mod_small. exact Hz. Qed.

Lemma crc_update_range (crc b : Z) : 0 <= crc_update crc b < 65536.
Proof. rewrite <- crc_update_u16. apply u16_range. Qed.

Lemma lxor_range16 (a b : Z) :
  0 <= a < 65536 -> 0 <= b < 65536 -> 0 <= Z.lxor a b < 65536.
Proof.
  intros Ha Hb. split.
  - apply Z.lxor_nonneg. lia.
  - destruct (Z.eq_dec (Z.lxor a b) 0) as [E | E]; [lia|].
    assert (Hpos : 0 < Z.lxor a b).
    { assert (0 <= Z.lxor a b) by (apply Z.lxor_nonneg; lia). lia. }
    change 65536 with (2 ^ 16). apply Z.log2_lt_pow2; [exact Hpos|].
    eapply Z.le_lt_trans; [apply Z.log2_lxor; lia|].
    apply Z.max_lub_lt.
    + destruct (Z.eq_dec a 0) as [-> | Ha0]; [cbn; lia|].
      apply Z.log2_lt_pow2; lia.
    + destruct (Z.eq_dec b 0) as [-> | Hb0]; [cbn; lia|].
      apply Z.log2_lt_pow2; lia.
Qed.

Lemma byte_in_register_range (b : Z) : 0 <= Z.shiftl (u16 (u8 b)) 8 < 65536.
Proof.
  pose proof (u8_range b) as Hb.
  rewrite (u16_of_range (u8 b)) by lia. rewrite Z.shiftl_mul_pow2 by lia.
  change (2 ^ 8) with 256. lia.
Qed.

Lemma lxor_cancel_l (c x y : Z) : Z.lxor c x = Z.lxor c y -> x = y.
Proof.
  intro E. assert (E' : Z.lxor c (Z.lxor c x) = Z.lxor c (Z.lxor c y)) by congruence.
  rewrite <- !Z.lxor_assoc, Z.lxor_nilpotent, !Z.lxor_0_l in E'. exact E'.
Qed.

Lemma lxor_cancel_r (c1 c2 x : Z) : Z.lxor c1 x = Z.lxor c2 x -> c1 = c2.
Proof. rewrite (Z.lxor_comm c1), (Z.lxor_comm c2). apply lxor_cancel_l. Qed.

(** The register before a byte is determined by the register after it. *)
Lemma crc_update_inj_crc (c1 c2 b : Z) :
  0 <= c1 < 65536 -> 0 <= c2 < 65536 ->
  crc_update c1 b = crc_update c2 b -> c1 = c2.
Proof.
  intros H1 H2 E. unfold crc_update in E.
  pose proof (byte_in_register_range b) as Hb.
  rewrite (u16_of_range (Z.lxor c1 _)), (u16_of_range (Z.lxor c2 _)) in E
    by (apply lxor_range16; assumption).
  apply (f_equal (crc_unshift 8)) in E.
  rewrite !crc_shift_undone in E by (apply lxor_range16; assumption).
  apply lxor_cancel_r in E. exact E.
Qed.

(** Two bytes that take the register to the same value are the same byte. *)
Lemma crc_update_inj_byte (c a b : Z) :
  0 <= c < 65536 -> crc_update c a = crc_update c b -> u8 a = u8 b.
Proof.
  intros Hc E. unfold crc_update in E.
  pose proof (byte_in_register_range a) as Ha.
  pose proof (byte_in_register_range b) as Hb.
  rewrite (u16_of_range (Z.lxor c (Z.shiftl (u16 (u8 a)) 8))),
    (u16_of_range (Z.lxor c (Z.shiftl (u16 (u8 b)) 8))) in E
    by (apply lxor_range16; assumption).
  apply (f_equal (crc_unshift 8)) in E.
  rewrite !crc_shift_undone in E by (apply lxor_range16; assumption).
  apply lxor_cancel_l in E.
  pose proof (u8_range a) as Ha8. pose proof (u8_range b) as Hb8.
  rewrite !u16_of_range in E by lia.
  rewrite !Z.shiftl_mul_pow2 in E by lia. lia.
Qed.

Lemma crc_loop_inj_crc (data : list Z) :
  forall size c1 c2,
    0 <= c1 < 65536 -> 0 <= c2 < 65536 ->
    crc_loop data size c1 = crc_loop data size c2 -> c1 = c2.
Proof.
  induction data as [|b rest IH]; intros [|n] c1 c2 H1 H2 E; cbn [crc_loop] in E; trivial.
  apply IH in E; try apply crc_update_range.
  apply (crc_update_inj_crc c1 c2 b); assumption.
Qed.

Lemma crc_loop_detects (pre post : list Z) (a b : Z) :
  u8 a <> u8 b ->
  forall size crc,
    0 <= crc < 65536 -> (length pre < size)%nat ->
    crc_loop (pre ++ a :: post) size crc <> crc_loop (pre ++ b :: post) size crc.
Proof.
  intro Hab. induction pre as [|p pre IH]; intros size crc Hc Hsize E.
  - destruct size as [|n]; [cbn in Hsize; lia|].
    cbn [app crc_loop] in E.
    apply crc_loop_inj_crc in E; try apply crc_update_range.
    apply Hab. apply (crc_update_inj_byte crc); assumption.
  - destruct size as [|n]; [cbn in Hsize; lia|].
    cbn [app crc_loop] in E.
    apply (IH n (crc_update crc p)); [apply crc_update_range | cbn in Hsize; lia | exact E].
Qed.

End CrcDetection.

(** X2: the config block CRC detects every corruption of a single byte:
    two buffers that differ in exactly one byte within the first [size]
    bytes have different CRCs, whatever the seed. *)
Theorem crc_detects_single_byte_error
  (pre post : list Z) (a b : Z) (size seed : Z) :
  u8 a <> u8 b ->
  Z.of_nat (length pre) < size ->
  Crc.cyttsp4_calc_partial_app_crc (pre ++ a :: post) size seed <>
  Crc.cyttsp4_calc_partial_app_crc (pre ++ b :: post) size seed.
Proof.
  intros Hab Hsize. unfold Crc.cyttsp4_calc_partial_app_crc.
  apply crc_loop_detects; [exact Hab | apply u16_range | lia].
Qed.

Lemma crc_detects_single_byte_error_witness :
  Crc.cyttsp4_calc_app_crc [1; 2; 3; 5] 4 <> Crc.cyttsp4_calc_app_crc [1; 2; 260; 5] 4 /\
  Crc.cyttsp4_calc_app_crc [1; 2; 3; 5] 4 = Crc.cyttsp4_calc_app_crc [1; 2; 259; 5] 4.
Proof.
  split.
  - apply (crc_detects_single_byte_error [1; 2] [5] 3 260 4 0xFFFF).
    + vm_compute. discriminate.
    + vm_compute. reflexivity.
  - vm_compute. reflexivity.
Defined.

(** ** Decoded touch values stay in range *)

Section TouchBounds.
Import Touch.

Lemma land_bounded (a b : Z) : 0 <= b -> 0 <= Z.land a b <= b.
Proof.
  intro Hb. split; [apply Z.land_nonneg; right; exact Hb|].
  assert (Hdisjoint : Z.land (Z.land a b) (Z.ldiff b a) = 0).
  { apply Z.bits_inj'. intros n Hn.
    rewrite Z.land_spec, Z.land_spec, Z.ldiff_spec, Z.bits_0.
    destruct (Z.testbit a n), (Z.testbit b n); reflexivity. }
  assert (E : b = Z.land a b + Z.ldiff b a).
  { rewrite Z.add_nocarry_lxor by exact Hdisjoint.
    rewrite Z.lxor_lor by exact Hdisjoint.
    rewrite (Z.land_comm a b), Z.lor_comm. symmetry. apply Z.lor_ldiff_and. }
  assert (0 <= Z.ldiff b a) by (apply Z.ldiff_nonneg; left; exact Hb).
  lia.
Qed.

Lemma int32_of_range (z : Z) : -2147483648 <= z <= 2147483647 -> int32 z = z.
Proof. intro Hz. unfold int32. rewrite Z.mod_small by lia. lia. Qed.

Lemma touch_axis_fold_ext (xy1 xy2 : list Z) (bofs : Z) (idx : list nat) :
  (forall i, In i idx -> nth i xy1 0 = nth i xy2 0) ->
  forall acc,
    fold_left
      (fun axis next => int32 (axis * 256 + Z.shiftr (u8 (nth next xy1 0)) bofs))
      idx acc =
    fold_left
      (fun axis next => int32 (axis * 256 + Z.shiftr (u8 (nth next xy2 0)) bofs))
      idx acc.
Proof.
  induction idx as [|i idx IH]; intros Hagree acc; cbn [fold_left]; trivial.
  rewrite (Hagree i) by (left; reflexivity).
  apply IH. intros j Hj. apply Hagree. right. exact Hj.
Qed.

(** The loop reads [xy_data[0 .. size - 1]] and nothing else. *)
Lemma touch_axis_loop_ext (size : Z) (xy1 xy2 : list Z) (bofs : Z) :
  (forall i, (i < Z.to_nat size)%nat -> nth i xy1 0 = nth i xy2 0) ->
  touch_axis_loop size xy1 bofs = touch_axis_loop size xy2 bofs.
Proof.
  intro Hagree. unfold touch_axis_loop. apply touch_axis_fold_ext.
  intros i Hi. apply Hagree. apply in_seq in Hi. lia.
Qed.

End TouchBounds.

(** X3: whatever bytes the device delivers, a decoded touch axis value is
    never negative and always below the field's [max] (for a [max] that is
    a positive [int]). *)
Theorem touch_axis_within_max (size max : Z) (xy_data : list Z) (bofs : Z) :
  1 <= max <= 2147483647 ->
  0 <= Touch.cyttsp4_get_touch_axis size max xy_data bofs < max.
Proof.
  intro Hmax. unfold Touch.cyttsp4_get_touch_axis.
  rewrite (int32_of_range max) by lia.
  rewrite (int32_of_range (max - 1)) by lia.
  pose proof (land_bounded (Touch.touch_axis_loop size xy_data bofs) (max - 1)
                ltac:(lia)).
  lia.
Qed.

Lemma touch_axis_within_max_witness :
  0 <= Touch.cyttsp4_get_touch_axis 2 4096 [0xFF; 0xFF] 0 < 4096.
Proof. apply (touch_axis_within_max 2 4096 [0xFF; 0xFF] 0). lia. Defined.

(** X4: a touch record is decoded from its own bytes only: when every field
    lies inside the record, two report buffers that agree on the bytes of
    record [rec_no] give the same values for it, whatever the other records
    hold. *)
Theorem touch_record_reads_own_bytes
  (tch_abs : list TouchRecord.cyttsp4_tch_abs_params) (tch_rec_size rec_no : Z)
  (xy1 xy2 : list Z) :
  0 <= rec_no -> 0 <= tch_rec_size ->
  (forall p, In p tch_abs ->
     0 <= TouchRecord.ofs p /\ 0 <= TouchRecord.size p <= 2147483647 /\
     TouchRecord.ofs p + TouchRecord.size p <= tch_rec_size) ->
  (forall i, rec_no * tch_rec_size <= Z.of_nat i < (rec_no + 1) * tch_rec_size ->
     nth i xy1 0 = nth i xy2 0) ->
  TouchRecord.cyttsp4_get_touch_record_ tch_abs tch_rec_size xy1 rec_no =
  TouchRecord.cyttsp4_get_touch_record_ tch_abs tch_rec_size xy2 rec_no.
Proof.
  intros Hrec Hsz Hfields Hagree. unfold TouchRecord.cyttsp4_get_touch_record_.
  apply map_ext_in. intros p Hp.
  destruct (Hfields p Hp) as (Hofs & Hsize & Hinside).
  unfold Touch.cyttsp4_get_touch_axis. f_equal.
  rewrite (int32_of_range (TouchRecord.size p)) by lia.
  apply touch_axis_loop_ext. intros i Hi.
  rewrite !nth_skipn. apply Hagree. nia.
Qed.

Lemma touch_record_reads_own_bytes_witness :
  TouchRecord.cyttsp4_get_touch_record_
    [{| TouchRecord.ofs := 0; TouchRecord.size := 2; TouchRecord.max := 4096;
        TouchRecord.bofs := 0 |};
     {| TouchRecord.ofs := 2; TouchRecord.size := 1; TouchRecord.max := 256;
        TouchRecord.bofs := 0 |}]
    3 [9; 9; 9; 1; 2; 3; 9] 1 =
  TouchRecord.cyttsp4_get_touch_record_
    [{| TouchRecord.ofs := 0; TouchRecord.size := 2; TouchRecord.max := 4096;
        TouchRecord.bofs := 0 |};
     {| TouchRecord.ofs := 2; TouchRecord.size := 1; TouchRecord.max := 256;
        TouchRecord.bofs := 0 |}]
    3 [7; 7; 7; 1; 2; 3; 8; 8] 1.
Proof.
  apply touch_record_reads_own_bytes.
  - lia.
  - lia.
  - intros p [<- | [<- | []]]; cbn; lia.
  - intros [|[|[|[|[|[|i]]]]]] Hi; try reflexivity; lia.
Defined.

(** ** Attention subscriptions *)

Section AttenFacts.
Import Atten.

Lemma atten_type_eqb_refl (t : cyttsp4_atten_type) : atten_type_eqb t t = true.
Proof. destruct t; reflexivity. Qed.

Lemma atten_type_eqb_eq (a b : cyttsp4_atten_type) : atten_type_eqb a b = true -> a = b.
Proof. destruct a, b; cbn; congruence. Qed.

Lemma set_list_same (al : atten_lists) (type : cyttsp4_atten_type) (l : list atten_node) :
  set_list al type l type = l.
Proof. unfold set_list. rewrite atten_type_eqb_refl. reflexivity. Qed.

Lemma set_list_other (al : atten_lists) (type t : cyttsp4_atten_type) (l : list atten_node) :
  t <> type -> set_list al type l t = al t.
Proof.
  intro Hne. unfold set_list. destruct (atten_type_eqb t type) eqn:E; trivial.
  apply atten_type_eqb_eq in E. contradiction.
Qed.

Lemma subscribed_iff (i m : Z) (a : atten_node) :
  subscribed i m a = true <-> (Atten.id a, Atten.mode a) = (i, m).
Proof.
  unfold subscribed. rewrite andb_true_iff, !Z.eqb_eq. split.
  - intros [-> ->]. reflexivity.
  - intro E. inversion E. split; reflexivity.
Qed.

Lemma existsb_subscribed (i m : Z) (l : list atten_node) :
  existsb (subscribed i m) l = true <-> In (i, m) (keys l).
Proof.
  rewrite existsb_exists. unfold keys. rewrite in_map_iff. split.
  - intros (a & Ha & Hs). exists a. split; [apply subscribed_iff; exact Hs | exact Ha].
  - intros (a & Hk & Ha). exists a. split; [exact Ha | apply subscribed_iff; exact Hk].
Qed.

Lemma list_del_first_none (i m : Z) (l : list atten_node) :
  list_del_first i m l = None <-> existsb (subscribed i m) l = false.
Proof.
  induction l as [|a l IH]; cbn [list_del_first existsb].
  - split; reflexivity.
  - destruct (subscribed i m a); cbn [orb].
    + split; discriminate.
    + destruct (list_del_first i m l).
      * split; [discriminate|]. intro E. apply IH in E. discriminate.
      * split; [intros _; apply IH; reflexivity | reflexivity].
Qed.

Lemma list_del_first_keys (i m : Z) (l l' : list atten_node) :
  list_del_first i m l = Some l' ->
  exists k1 k2, keys l = k1 ++ (i, m) :: k2 /\ keys l' = k1 ++ k2.
Proof.
  revert l'. induction l as [|a l IH]; intros l' E; cbn [list_del_first] in E.
  - discriminate.
  - destruct (subscribed i m a) eqn:Es.
    + inversion E; subst. apply subscribed_iff in Es.
      exists [], (keys l'). cbn [keys map app]. rewrite Es. split; reflexivity.
    + destruct (list_del_first i m l) as [r|]; [|discriminate].
      inversion E; subst. destruct (IH r eq_refl) as (k1 & k2 & H1 & H2).
      exists ((Atten.id a, Atten.mode a) :: k1), k2.
      cbn [keys map app]. fold (keys l). fold (keys r). rewrite H1, H2.
      split; reflexivity.
Qed.

Lemma step_distinct (al : atten_lists) (c : atten_call) :
  (forall t, NoDup (keys (al t))) ->
  forall t, NoDup (keys (atten_step al c t)).
Proof.
  intros Hal t. destruct c as [alloc d type i f m | type i f m]; cbn [atten_step].
  - unfold _cyttsp4_subscribe_attention.
    destruct alloc; cbn [negb snd]; [|apply Hal].
    destruct (existsb (subscribed i m) (al type)) eqn:E; cbn [snd]; [apply Hal|].
    unfold set_list. destruct (atten_type_eqb t type) eqn:Et; [|apply Hal].
    cbn [keys map Atten.id Atten.mode]. constructor; [|apply Hal].
    intro Hin. apply existsb_subscribed in Hin. congruence.
  - unfold _cyttsp4_unsubscribe_attention.
    destruct (list_del_first i m (al type)) as [l'|] eqn:E; cbn [snd]; [|apply Hal].
    unfold set_list. destruct (atten_type_eqb t type); [|apply Hal].
    destruct (list_del_first_keys i m _ _ E) as (k1 & k2 & H1 & H2).
    rewrite H2. specialize (Hal type). rewrite H1 in Hal.
    apply NoDup_remove_1 in Hal. exact Hal.
Qed.

Lemma run_distinct (calls : list atten_call) :
  forall al, (forall t, NoDup (keys (al t))) ->
  forall t, NoDup (keys (fold_left atten_step calls al t)).
Proof.
  induction calls as [|c calls IH]; intros al Hal t; cbn [fold_left].
  - apply Hal.
  - apply IH. apply step_distinct. exact Hal.
Qed.

End AttenFacts.

(** X5: subscribing and then unsubscribing is a round trip. For an id and
    mode that are not subscribed yet (and a node that can be allocated),
    [_cyttsp4_subscribe_attention] followed by
    [_cyttsp4_unsubscribe_attention] with the same id and mode returns 0
    twice and leaves every attention list as it was; the callback given to
    the second call does not matter. *)
Theorem subscribe_unsubscribe_round_trip
  (al : Atten.atten_lists) (type : cyttsp4_atten_type) (dev id func func' mode : Z) :
  existsb (Atten.subscribed id mode) (al type) = false ->
  let r1 := Atten._cyttsp4_subscribe_attention true al dev type id func mode in
  let r2 := Atten._cyttsp4_unsubscribe_attention (snd r1) type id func' mode in
  fst r1 = 0 /\ fst r2 = 0 /\ forall t, snd r2 t = al t.
Proof.
  intros Hnew r1 r2. subst r2 r1.
  unfold Atten._cyttsp4_subscribe_attention. cbn [negb]. rewrite Hnew. cbn [fst snd].
  unfold Atten._cyttsp4_unsubscribe_attention. rewrite set_list_same.
  cbn [Atten.list_del_first].
  assert (Hs : Atten.subscribed id mode
                 {| Atten.id := id; Atten.func := func; Atten.dev := dev;
                    Atten.mode := mode |} = true).
  { unfold Atten.subscribed. cbn [Atten.id Atten.mode]. rewrite !Z.eqb_refl.
    reflexivity. }
  rewrite Hs. cbn [fst snd].
  repeat split. intro t. unfold Atten.set_list.
  destruct (Atten.atten_type_eqb t type) eqn:E; trivial.
  apply atten_type_eqb_eq in E. subst t. reflexivity.
Qed.

Lemma subscribe_unsubscribe_round_trip_witness :
  let al := Atten.atten_run [Atten.Subscribe true 100 CY_ATTEN_IRQ 1 500 2] in
  let r1 := Atten._cyttsp4_subscribe_attention true al 101 CY_ATTEN_IRQ 2 600 2 in
  let r2 := Atten._cyttsp4_unsubscribe_attention (snd r1) CY_ATTEN_IRQ 2 0 2 in
  fst r1 = 0 /\ fst r2 = 0 /\ forall t, snd r2 t = al t.
Proof.
  apply (subscribe_unsubscribe_round_trip
           (Atten.atten_run [Atten.Subscribe true 100 CY_ATTEN_IRQ 1 500 2])
           CY_ATTEN_IRQ 101 2 600 0 2).
  reflexivity.
Defined.

(** X6: whatever sequence of subscribe and unsubscribe calls the modules
    make, no attention list ever holds two nodes with the same id and mode.
    Hence a subscription that was removed with status 0 is gone: removing it
    again returns -ENODEV and changes nothing. *)
Theorem attention_lists_hold_no_duplicates
  (calls : list Atten.atten_call) (type : cyttsp4_atten_type) (id func mode : Z) :
  let al := Atten.atten_run calls in
  let r1 := Atten._cyttsp4_unsubscribe_attention al type id func mode in
  let r2 := Atten._cyttsp4_unsubscribe_attention (snd r1) type id func mode in
  NoDup (Atten.keys (al type)) /\
  (fst r1 = 0 -> fst r2 = - ENODEV /\ snd r2 = snd r1) /\
  (fst r1 <> 0 -> fst r1 = - ENODEV /\ snd r1 = al).
Proof.
  intros al r1 r2.
  assert (Hal : forall t, NoDup (Atten.keys (al t))).
  { apply run_distinct. intro t. constructor. }
  split; [apply Hal | split].
  - subst r2 r1.
    destruct (Atten._cyttsp4_unsubscribe_attention al type id func mode)
      as [rc1 al1] eqn:Er1.
    unfold Atten._cyttsp4_unsubscribe_attention in Er1.
    destruct (Atten.list_del_first id mode (al type)) as [l'|] eqn:E;
      inversion Er1; subst; cbn [fst snd].
    2:{ intro Hrc. unfold ENODEV in Hrc. discriminate Hrc. }
    intros _. unfold Atten._cyttsp4_unsubscribe_attention. rewrite set_list_same.
    assert (Hgone : Atten.list_del_first id mode l' = None).
    { apply list_del_first_none.
      destruct (existsb (Atten.subscribed id mode) l') eqn:Ex; trivial.
      apply existsb_subscribed in Ex.
      destruct (list_del_first_keys id mode _ _ E) as (k1 & k2 & H1 & H2).
      specialize (Hal type). rewrite H1 in Hal. apply NoDup_remove_2 in Hal.
      rewrite H2 in Ex. contradiction. }
    rewrite Hgone. cbn [fst snd]. split; reflexivity.
  - subst r1. unfold Atten._cyttsp4_unsubscribe_attention.
    destruct (Atten.list_del_first id mode (al type)); cbn [fst snd].
    + intro Hrc. contradiction Hrc. reflexivity.
    + intros _. split; reflexivity.
Qed.

(** X7: a new subscriber is called first. After a successful subscription
    of a callback for an id and mode that were not subscribed, an attention
    of that type calls the new callback with its device, before all the
    callbacks it called before, exactly when the attention's mode is 0 or
    shares a bit with the subscribed mode; subscribers of the other types
    are called as before. *)
Theorem subscribed_callback_is_called
  (al : Atten.atten_lists) (type : cyttsp4_atten_type) (dev id func mode : Z)
  (atten_mode : Z) :
  existsb (Atten.subscribed id mode) (al type) = false ->
  let al' := snd (Atten._cyttsp4_subscribe_attention true al dev type id func mode) in
  Atten.call_atten_cb al' type atten_mode =
  (if (atten_mode =? 0) || negb (Z.land mode atten_mode =? 0)
   then [(func, dev)] else [])
  ++ Atten.call_atten_cb al type atten_mode /\
  forall t, t <> type ->
    Atten.call_atten_cb al' t atten_mode = Atten.call_atten_cb al t atten_mode.
Proof.
  intros Hnew al'. subst al'.
  unfold Atten._cyttsp4_subscribe_attention. cbn [negb]. rewrite Hnew. cbn [snd].
  split.
  - unfold Atten.call_atten_cb. rewrite set_list_same. cbn [filter Atten.mode].
    destruct ((atten_mode =? 0) || negb (Z.land mode atten_mode =? 0)); reflexivity.
  - intros t Ht. unfold Atten.call_atten_cb. rewrite set_list_other by exact Ht.
    reflexivity.
Qed.

Lemma subscribed_callback_is_called_witness :
  Atten.call_atten_cb
    (snd (Atten._cyttsp4_subscribe_attention true
            (Atten.atten_run [Atten.Subscribe true 100 CY_ATTEN_IRQ 1 500 2])
            101 CY_ATTEN_IRQ 2 600 6))
    CY_ATTEN_IRQ 4 = [(600, 101)].
Proof.
  apply (proj1 (subscribed_callback_is_called
                  (Atten.atten_run [Atten.Subscribe true 100 CY_ATTEN_IRQ 1 500 2])
                  CY_ATTEN_IRQ 101 2 600 6 4 eq_refl)).
Defined.

(** ** Bus access, waits and mode changes *)

Section AccessFacts.
Context {R : Regs} {D : Type} {H : Hardware D}.

(** However [_cyttsp4_wait_cmd_exec] ends, the command is no longer
    pending. *)
Lemma wait_cmd_exec_clears_pending (timeout_ms : Z) (w : world D) :
  Z.land (int_status (cd (snd (_cyttsp4_wait_cmd_exec timeout_ms w))))
    CY_INT_EXEC_CMD = 0 /\
  (fst (_cyttsp4_wait_cmd_exec timeout_ms w) = 0 \/
   fst (_cyttsp4_wait_cmd_exec timeout_ms w) = - ETIME).
Proof.
  pose proof (wait_event_timeout_result
                (fun c => Z.land (int_status c) CY_INT_EXEC_CMD =? 0)
                (msecs_to_jiffies timeout_ms) w) as Hwait.
  pose proof (wait_cmd_exec_timeout timeout_ms w) as Htmo.
  unfold _cyttsp4_wait_cmd_exec, bind in *.
  destruct (wait_event_timeout _ _ w) as [t w1]. cbn [fst snd] in Hwait, Htmo.
  unfold IS_TMO in *. destruct (t =? 0) eqn:Et.
  - apply Z.eqb_eq in Et. destruct (Htmo Et) as [Hrc Hclear].
    split; [exact Hclear | right; exact Hrc].
  - apply Z.eqb_neq in Et. destruct Hwait as [Hw | [_ Hclear]]; [contradiction|].
    apply Z.eqb_eq in Hclear. unfold ret. cbn [fst snd]. split; [exact Hclear | left; reflexivity].
Qed.

Lemma exec_cmd_finish_ok_clears_pending (m : cyttsp4_mode) (rc : Z) (return_buf : bool)
  (return_buf_size timeout_ms : Z) (w w' : world D) (data : list Z) :
  exec_cmd_finish m rc return_buf return_buf_size timeout_ms w = ((0, data), w') ->
  timeout_ms <> 0 ->
  Z.land (int_status (cd w')) CY_INT_EXEC_CMD = 0.
Proof.
  intros E Ht. unfold exec_cmd_finish in E.
  destruct (rc <? 0) eqn:Hrc.
  { inversion E; subst. discriminate. }
  apply Z.eqb_neq in Ht. rewrite Ht in E. unfold bind at 1 in E.
  destruct (wait_cmd_exec_clears_pending timeout_ms w) as [Hclear _].
  destruct (_cyttsp4_wait_cmd_exec timeout_ms w) as [rcw w1]. cbn [snd] in Hclear.
  destruct (rcw <? 0) eqn:Hw.
  { inversion E; subst. discriminate. }
  destruct ((return_buf_size =? 0) || negb return_buf).
  { inversion E; subst. exact Hclear. }
  unfold bind at 1 in E. rewrite (_get_cmd_offs_pure m w1) in E.
  destruct (fst (_get_cmd_offs m w1) <? 0) eqn:Ho.
  { inversion E. }
  unfold bind, cyttsp4_adap_read in E.
  destruct (bus_read (dev w1) _ _) as [[rcr bytes] d].
  destruct (rcr <? 0) eqn:Hr; inversion E; subst; clear E.
  { apply Z.ltb_lt in Hr. lia. }
  exact Hclear.
Qed.

End AccessFacts.

(** X8: the bus access offered to the other modules is guarded by the
    mode: [cyttsp4_read_] and [cyttsp4_write_] called for a mode the driver
    is not in return -EACCES and touch neither the bus nor the driver state;
    called for the current mode they do one transfer at the address and
    return its status. *)
Theorem bus_access_guarded_by_mode
  {R : Regs} {D : Type} {H : Hardware D}
  (m : cyttsp4_mode) (addr size : Z) (buf : list Z) (w : world D) :
  (m <> mode (cd w) ->
   cyttsp4_read_ m addr size w = ((- EACCES, []), w) /\
   cyttsp4_write_ m addr buf w = (- EACCES, w)) /\
  (m = mode (cd w) ->
   cyttsp4_read_ m addr size w = cyttsp4_adap_read addr size w /\
   cyttsp4_write_ m addr buf w = cyttsp4_adap_write addr buf w /\
   log (snd (cyttsp4_read_ m addr size w)) =
     log w ++ [EvRead (u16 addr) size
                 (fst (fst (cyttsp4_read_ m addr size w)))
                 (snd (fst (cyttsp4_read_ m addr size w)))] /\
   log (snd (cyttsp4_write_ m addr buf w)) =
     log w ++ [EvWrite (u16 addr) buf (fst (cyttsp4_write_ m addr buf w))]).
Proof.
  unfold cyttsp4_read_, cyttsp4_write_, bind, get_cd. split.
  - intro Hm. apply mode_eqb_neq in Hm. rewrite Hm. cbn [negb]. split; reflexivity.
  - intros ->. rewrite mode_eqb_refl. cbn [negb].
    split; [reflexivity | split; [reflexivity|]].
    unfold cyttsp4_adap_read, cyttsp4_adap_write.
    destruct (bus_read (dev w) (u16 addr) size) as [[rc data] d].
    destruct (bus_write (dev w) (u16 addr) buf) as [rcw dw].
    split; reflexivity.
Qed.

(** X9: a wait that reports success has seen what it waited for:
    [cyttsp4_wait_bl_heartbeat] and [cyttsp4_reset_and_wait] return 0 only
    with the driver in bootloader mode, [cyttsp4_wait_sysinfo_mode] only with
    the driver in SysInfo mode. *)
Theorem successful_wait_reached_its_mode
  {R : Regs} {D : Type} {H : Hardware D} (w : world D) :
  (fst (cyttsp4_wait_bl_heartbeat w) = 0 ->
   mode (cd (snd (cyttsp4_wait_bl_heartbeat w))) = CY_MODE_BOOTLOADER) /\
  (fst (cyttsp4_reset_and_wait w) = 0 ->
   mode (cd (snd (cyttsp4_reset_and_wait w))) = CY_MODE_BOOTLOADER) /\
  (fst (cyttsp4_wait_sysinfo_mode w) = 0 ->
   mode (cd (snd (cyttsp4_wait_sysinfo_mode w))) = CY_MODE_SYSINFO).
Proof.
  assert (Hbl : forall w0 : world D,
             fst (cyttsp4_wait_bl_heartbeat w0) = 0 ->
             mode (cd (snd (cyttsp4_wait_bl_heartbeat w0))) = CY_MODE_BOOTLOADER).
  { intros w0. unfold cyttsp4_wait_bl_heartbeat, bind.
    pose proof (wait_event_timeout_result
                  (fun c => mode_eqb (mode c) CY_MODE_BOOTLOADER)
                  (msecs_to_jiffies CY_CORE_RESET_AND_WAIT_TIMEOUT) w0) as Hwait.
    destruct (wait_event_timeout _ _ w0) as [t w1]. cbn [fst snd] in Hwait.
    unfold IS_TMO. destruct (t =? 0) eqn:Et.
    - unfold ret. cbn [fst]. unfold ETIME. discriminate.
    - apply Z.eqb_neq in Et. destruct Hwait as [Hw | [_ Hc]]; [contradiction|].
      intros _. cbn [snd ret]. apply mode_eqb_eq. exact Hc. }
  split; [apply Hbl | split].
  - destruct (cyttsp4_reset_and_wait w) as [r w'] eqn:E. cbn [fst snd]. intros ->.
    unfold cyttsp4_reset_and_wait in E. unfold bind at 1 in E.
    destruct (cyttsp4_hw_reset_ w) as [rc w1]. unfold bind at 1 in E.
    unfold modify_cd at 1 in E.
    destruct (rc <? 0) eqn:Hrc.
    + unfold ret in E. inversion E; subst. discriminate Hrc.
    + match type of E with
      | cyttsp4_wait_bl_heartbeat ?w0 = _ => pose proof (Hbl w0) as Hw0
      end.
      rewrite E in Hw0. apply Hw0. reflexivity.
  - unfold cyttsp4_wait_sysinfo_mode, bind.
    pose proof (wait_event_timeout_result
                  (fun c => mode_eqb (mode c) CY_MODE_SYSINFO)
                  (msecs_to_jiffies CY_CORE_WAIT_SYSINFO_MODE_TIMEOUT) w) as Hwait.
    destruct (wait_event_timeout _ _ w) as [t w1]. cbn [fst snd] in Hwait.
    unfold IS_TMO. destruct (t =? 0) eqn:Et.
    + unfold clear_int_status, modify_cd, ret. cbn [fst]. unfold ETIME. discriminate.
    + apply Z.eqb_neq in Et. destruct Hwait as [Hw | [_ Hc]]; [contradiction|].
      intros _. cbn [snd ret]. apply mode_eqb_eq. exact Hc.
Qed.

Lemma successful_wait_reached_its_mode_witness :
  fst (cyttsp4_reset_and_wait
         (sim_world CY_MODE_UNKNOWN [(0, [0x01; 0x00; 0x00])] [TickIrq])) = 0 /\
  mode (cd (snd (cyttsp4_reset_and_wait
                   (sim_world CY_MODE_UNKNOWN [(0, [0x01; 0x00; 0x00])] [TickIrq]))))
  = CY_MODE_BOOTLOADER.
Proof.
  split; [vm_compute; reflexivity|].
  apply (proj1 (proj2 (successful_wait_reached_its_mode
                         (sim_world CY_MODE_UNKNOWN [(0, [0x01; 0x00; 0x00])] [TickIrq])))).
  vm_compute. reflexivity.
Defined.

(** X10: a command that [cyttsp4_exec_cmd] reports as done is no longer
    pending: when the caller waits for completion (a timeout that is not 0)
    and the status is 0, the flag [CY_INT_EXEC_CMD] is clear on return. *)
Theorem exec_cmd_success_leaves_no_pending_flag
  {R : Regs} {D : Type} {H : Hardware D}
  (m : cyttsp4_mode) (cmd_buf : list Z) (cmd_size : Z) (return_buf : bool)
  (return_buf_size timeout_ms : Z) (w : world D) :
  timeout_ms <> 0 ->
  fst (fst (cyttsp4_exec_cmd m cmd_buf cmd_size return_buf return_buf_size
              timeout_ms w)) = 0 ->
  Z.land (int_status (cd (snd (cyttsp4_exec_cmd m cmd_buf cmd_size return_buf
                                 return_buf_size timeout_ms w))))
    CY_INT_EXEC_CMD = 0.
Proof.
  intros Ht.
  destruct (cyttsp4_exec_cmd m cmd_buf cmd_size return_buf return_buf_size
              timeout_ms w) as [[r data] w'] eqn:E.
  cbn [fst snd]. intros ->.
  unfold cyttsp4_exec_cmd in E. unfold bind at 1 in E.
  destruct (_cyttsp4_exec_cmd m cmd_buf cmd_size w) as [[rc buf1] w1].
  destruct (rc =? - EBUSY).
  - unfold bind at 1 in E.
    destruct (_cyttsp4_wait_cmd_exec CY_COMMAND_COMPLETE_TIMEOUT w1) as [rcw w2].
    destruct (rcw =? 0) eqn:Hw; cbn [negb] in E.
    + unfold bind at 1 in E.
      destruct (_cyttsp4_exec_cmd m buf1 cmd_size w2) as [[rc2 buf2] w3].
      apply (exec_cmd_finish_ok_clears_pending _ _ _ _ _ _ _ _ E Ht).
    + unfold ret in E. inversion E; subst. discriminate Hw.
  - apply (exec_cmd_finish_ok_clears_pending _ _ _ _ _ _ _ _ E Ht).
Qed.

Lemma exec_cmd_success_leaves_no_pending_flag_witness :
  fst (fst (cyttsp4_exec_cmd CY_MODE_OPERATIONAL [0x02; 0x11] 2 true 2 3
              sim_busy_world)) = 0 /\
  Z.land (int_status (cd (snd (cyttsp4_exec_cmd CY_MODE_OPERATIONAL [0x02; 0x11] 2
                                 true 2 3 sim_busy_world))))
    CY_INT_EXEC_CMD = 0.
Proof.
  split; [vm_compute; reflexivity|].
  apply (exec_cmd_success_leaves_no_pending_flag CY_MODE_OPERATIONAL [0x02; 0x11] 2
           true 2 3 sim_busy_world).
  - discriminate.
  - vm_compute. reflexivity.
Defined.

(** ** Error paths of [set_mode] and the write order of the command executor *)

Section ModeFacts.
Context {R : Regs} {D : Type} {H : Hardware D}.

Lemma set_mode_invalid (new_mode : cyttsp4_mode) (w : world D) :
  new_mode <> CY_MODE_OPERATIONAL -> new_mode <> CY_MODE_SYSINFO ->
  new_mode <> CY_MODE_CAT ->
  set_mode new_mode w = (- EINVAL, w).
Proof. intros H1 H2 H3. destruct new_mode; try reflexivity; congruence. Qed.

End ModeFacts.

(** X11: the error paths of [set_mode]. A mode other than Operational,
    SysInfo and CAT is refused with -EINVAL before anything is read or
    written. When reading the host mode register fails, the bus error is
    returned, nothing is written and no mode change is pending. When
    writing the new host mode fails, the bus error is returned without a
    wait, and the mode-change flag set before the write is left pending. *)
Theorem set_mode_error_paths
  {R : Regs} {D : Type} {H : Hardware D} (new_mode : cyttsp4_mode) (w : world D) :
  (new_mode <> CY_MODE_OPERATIONAL -> new_mode <> CY_MODE_SYSINFO ->
   new_mode <> CY_MODE_CAT ->
   set_mode new_mode w = (- EINVAL, w)) /\
  (forall new_dev_mode rc data d,
     (new_mode = CY_MODE_OPERATIONAL /\ new_dev_mode = u8 CY_HST_OPERATE \/
      new_mode = CY_MODE_SYSINFO /\ new_dev_mode = u8 CY_HST_SYSINFO \/
      new_mode = CY_MODE_CAT /\ new_dev_mode = u8 CY_HST_CAT) ->
     bus_read (dev w) (u16 CY_REG_BASE) 1 = ((rc, data), d) ->
     (rc < 0 ->
      set_mode new_mode w =
      (rc, {| cd := cd w; dev := d;
              log := log w ++ [EvRead (u16 CY_REG_BASE) 1 rc data];
              future := future w |})) /\
     (forall rcw d',
        0 <= rc ->
        bus_write d (u16 CY_REG_BASE)
          [u8 (Z.lor (u8 (Z.land (nth 0 data 0) (Z.lnot CY_HST_DEVICE_MODE)))
                 (Z.lor new_dev_mode CY_HST_MODE_CHANGE))] = (rcw, d') ->
        rcw < 0 ->
        set_mode new_mode w =
        (rcw, {| cd := with_int_status
                         (Z.lor (int_status (cd w)) CY_INT_MODE_CHANGE) (cd w);
                 dev := d';
                 log := log w ++
                   [EvRead (u16 CY_REG_BASE) 1 rc data;
                    EvWrite (u16 CY_REG_BASE)
                      [u8 (Z.lor (u8 (Z.land (nth 0 data 0)
                                        (Z.lnot CY_HST_DEVICE_MODE)))
                             (Z.lor new_dev_mode CY_HST_MODE_CHANGE))] rcw];
                 future := future w |}))).
Proof.
  split; [apply set_mode_invalid|].
  intros new_dev_mode rc data d Hmode Hread. split.
  - intro Hrc. apply Z.ltb_lt in Hrc.
    destruct Hmode as [[-> ->] | [[-> ->] | [-> ->]]];
      cbn [set_mode]; unfold bind at 1, cyttsp4_adap_read; rewrite Hread, Hrc;
      reflexivity.
  - intros rcw d' Hrc Hwrite Hrcw. apply Z.ltb_ge in Hrc. apply Z.ltb_lt in Hrcw.
    destruct Hmode as [[-> ->] | [[-> ->] | [-> ->]]];
      cbn [set_mode]; unfold bind at 1, cyttsp4_adap_read; rewrite Hread, Hrc;
      unfold bind at 1, set_int_status, modify_cd;
      unfold bind at 1, cyttsp4_adap_write; cbn [dev cd log future];
      rewrite Hwrite, Hrcw; unfold ret; rewrite <- app_assoc; reflexivity.
Qed.

Lemma set_mode_error_paths_witness :
  set_mode CY_MODE_BOOTLOADER (sim_world CY_MODE_OPERATIONAL [] []) =
  (- EINVAL, sim_world CY_MODE_OPERATIONAL [] []) /\
  set_mode CY_MODE_CAT (sim_world CY_MODE_OPERATIONAL [] []) =
  (- EIO, {| cd := sim_cd CY_MODE_OPERATIONAL; dev := {| answers := [] |};
             log := [EvRead 0 1 (- EIO) []]; future := [] |}).
Proof.
  destruct (set_mode_error_paths CY_MODE_BOOTLOADER (sim_world CY_MODE_OPERATIONAL [] []))
    as [Hinvalid _].
  destruct (set_mode_error_paths CY_MODE_CAT (sim_world CY_MODE_OPERATIONAL [] []))
    as [_ Hbus].
  split.
  - apply Hinvalid; discriminate.
  - destruct (Hbus (u8 CY_HST_CAT) (- EIO) [] {| answers := [] |}) as [Hread _].
    + right. right. split; reflexivity.
    + reflexivity.
    + apply Hread. reflexivity.
Defined.

(** X12: the write order of the command executor. When
    [_cyttsp4_exec_cmd] returns 0 it has read the command register once and
    found the completion bit set, has then written the parameter bytes (if
    the command has any) right behind the command register, and has written
    the command byte last, with only the bits of [CY_CMD_MASK] taken from
    the caller's byte; the caller's buffer holds the masked byte, the toggle
    of the register is remembered and the command is marked pending. *)
Theorem exec_cmd_writes_command_byte_last
  {R : Regs} {D : Type} {H : Hardware D}
  (m : cyttsp4_mode) (cmd_buf cmd_buf' : list Z) (cmd_size : Z) (w w' : world D) :
  _cyttsp4_exec_cmd m cmd_buf cmd_size w = ((0, cmd_buf'), w') ->
  let cmd_ofs := fst (_get_cmd_offs m w) in
  let command := u8 (Z.land (nth 0 cmd_buf 0) CY_CMD_MASK) in
  exists rc status rcp rcc,
    m = mode (cd w) /\ 0 <= cmd_ofs /\
    Z.land (nth 0 status 0) CY_CMD_COMPLETE_MASK <> 0 /\
    log w' =
      log w ++ EvRead (u16 cmd_ofs) 1 rc status
      :: (if 1 <? cmd_size
          then [EvWrite (u16 (cmd_ofs + 1))
                  (firstn (Z.to_nat (u64 (cmd_size - 1))) (skipn 1 cmd_buf)) rcp]
          else [])
      ++ [EvWrite (u16 cmd_ofs) [command] rcc] /\
    0 <= rc /\ 0 <= rcp /\ 0 <= rcc /\
    cmd_buf' = command :: skipn 1 cmd_buf /\
    cmd_toggle (cd w') = GET_TOGGLE (nth 0 status 0) /\
    int_status (cd w') = Z.lor (int_status (cd w)) CY_INT_EXEC_CMD.
Proof.
  intros E cmd_ofs command. subst cmd_ofs command.
  unfold _cyttsp4_exec_cmd in E. unfold bind at 1, get_cd in E.
  destruct (mode_eqb m (mode (cd w))) eqn:Hm; cbn [negb] in E.
  2:{ unfold ret in E. inversion E. }
  apply mode_eqb_eq in Hm.
  unfold bind at 1 in E. rewrite (_get_cmd_offs_pure m w) in E.
  set (ofs := fst (_get_cmd_offs m w)) in *.
  destruct (ofs <? 0) eqn:Ho.
  { unfold ret in E. inversion E. }
  apply Z.ltb_ge in Ho.
  unfold bind at 1, cyttsp4_adap_read in E.
  destruct (bus_read (dev w) (u16 ofs) 1) as [[rc status] d1].
  destruct (rc <? 0) eqn:Hrc.
  { unfold ret in E. inversion E; subst. discriminate Hrc. }
  apply Z.ltb_ge in Hrc.
  unfold bind at 1, modify_cd in E. unfold bind at 1, set_int_status, modify_cd in E.
  cbn [cd dev log future] in E.
  destruct (Z.land (nth 0 status 0) CY_CMD_COMPLETE_MASK =? 0) eqn:Hbusy.
  { unfold ret in E. inversion E. }
  apply Z.eqb_neq in Hbusy.
  unfold bind at 1 in E.
  destruct (1 <? cmd_size) eqn:Hsize.
  - unfold cyttsp4_adap_write at 1 in E. cbn [cd dev log future] in E.
    destruct (bus_write d1 _ _) as [rcp d2].
    destruct (rcp <? 0) eqn:Hrcp.
    { unfold ret in E. inversion E; subst. discriminate Hrcp. }
    apply Z.ltb_ge in Hrcp.
    unfold bind, cyttsp4_adap_write in E. cbn [cd dev log future firstn] in E.
    destruct (bus_write d2 _ _) as [rcc d3].
    destruct (rcc <? 0) eqn:Hrcc.
    { unfold ret in E. inversion E; subst. discriminate Hrcc. }
    apply Z.ltb_ge in Hrcc. unfold ret in E. inversion E; subst; clear E.
    exists rc, status, rcp, rcc. cbn [cd log int_status cmd_toggle with_int_status
                                      with_cmd_toggle].
    rewrite <- !app_assoc. cbn [app]. repeat split; trivial.
  - unfold ret at 1 in E. cbn [Z.ltb Z.compare] in E.
    unfold bind, cyttsp4_adap_write in E. cbn [cd dev log future firstn] in E.
    destruct (bus_write d1 _ _) as [rcc d3].
    destruct (rcc <? 0) eqn:Hrcc.
    { unfold ret in E. inversion E; subst. discriminate Hrcc. }
    apply Z.ltb_ge in Hrcc. unfold ret in E. inversion E; subst; clear E.
    exists rc, status, 0, rcc. cbn [cd log int_status cmd_toggle with_int_status
                                    with_cmd_toggle].
    rewrite <- !app_assoc. cbn [app]. repeat split; trivial. lia.
Qed.

Lemma exec_cmd_writes_command_byte_last_witness :
  exists rc status rcp rcc,
    log (snd (_cyttsp4_exec_cmd CY_MODE_OPERATIONAL [0xC2; 0x11] 2
                (sim_world CY_MODE_OPERATIONAL [(0, [0x40])] []))) =
    [EvRead 2 1 rc status; EvWrite 3 [0x11] rcp; EvWrite 2 [0x02] rcc].
Proof.
  destruct (exec_cmd_writes_command_byte_last CY_MODE_OPERATIONAL
              [0xC2; 0x11] [0x02; 0x11] 2
              (sim_world CY_MODE_OPERATIONAL [(0, [0x40])] [])
              (snd (_cyttsp4_exec_cmd CY_MODE_OPERATIONAL [0xC2; 0x11] 2
                      (sim_world CY_MODE_OPERATIONAL [(0, [0x40])] []))))
    as (rc & status & rcp & rcc & _ & _ & _ & Hlog & _).
  - vm_compute. reflexivity.
  - exists rc, status, rcp, rcc. exact Hlog.
Defined.

(** ** What a config write stores *)

Section CodecData.
Context {St : Type} {Ops : ConfigBlockOps St}.

Lemma store_at_length (buf : list Z) :
  forall ofs data, length (store_at buf ofs data) = length buf.
Proof.
  induction buf as [|b buf IH]; intros [|ofs] data; cbn [store_at length]; trivial.
  - destruct data as [|x data]; cbn [length]; [reflexivity | rewrite IH; reflexivity].
  - rewrite IH. reflexivity.
Qed.

Lemma store_at_0_prefix (buf : list Z) :
  forall data, (length data <= length buf)%nat ->
  firstn (length data) (store_at buf 0 data) = data.
Proof.
  induction buf as [|b buf IH]; intros [|x data] Hlen; cbn [store_at length firstn] in *;
    trivial; try lia.
  rewrite IH by lia. reflexivity.
Qed.

(** The bytes stored at an index are found there. *)
Lemma store_at_window (buf : list Z) :
  forall ofs data, (ofs + length data <= length buf)%nat ->
  skipn ofs (firstn (ofs + length data) (store_at buf ofs data)) = data.
Proof.
  induction buf as [|b buf IH]; intros [|ofs] data Hlen; cbn [length] in Hlen.
  - destruct data; [reflexivity | cbn in Hlen; lia].
  - lia.
  - cbn [Nat.add skipn]. apply (store_at_0_prefix (b :: buf)). cbn [length]. lia.
  - cbn [store_at Nat.add firstn skipn]. apply IH. lia.
Qed.

Lemma firstn_firstn_skipn {A : Type} (a b : nat) (l : list A) :
  firstn a l ++ firstn b (skipn a l) = firstn (a + b) l.
Proof.
  revert l. induction a as [|a IH]; intros [|x l]; cbn [firstn skipn app Nat.add]; trivial.
  - rewrite firstn_nil. reflexivity.
  - rewrite IH. reflexivity.
Qed.

Lemma written_bytes_app (a b : list cfg_op) :
  written_bytes (a ++ b) = written_bytes a ++ written_bytes b.
Proof. unfold written_bytes. apply flat_map_app. Qed.

(** Whole rows followed by the first [k] bytes of what is left are a prefix
    of the data. *)
Lemma whole_rows_bytes (ebid rsz : Z) (n : nat) :
  0 <= rsz ->
  forall (first : Z) (data : list Z) (k : nat),
    written_bytes (whole_row_writes ebid first n rsz data)
    ++ firstn k (skip_rows n rsz data)
    = firstn (n * Z.to_nat rsz + k) data.
Proof.
  intro Hr. induction n as [|n IH]; intros first data k.
  - reflexivity.
  - cbn [whole_row_writes skip_rows]. unfold written_bytes at 1.
    cbn [flat_map]. fold (written_bytes
                            (whole_row_writes ebid (first + 1) n rsz
                               (skipn (Z.to_nat rsz) data))).
    rewrite <- app_assoc, IH, firstn_firstn_skipn. f_equal. lia.
Qed.

Lemma write_rows_data (ebid offset len rsz : Z) (data : list Z)
  (s s' : St) (tr delta : list cfg_op) :
  0 <= offset -> 0 <= len -> offset + len < 65536 -> 0 < rsz < 65536 ->
  len <= Z.of_nat (length data) ->
  write_rows ebid offset data len rsz (s, tr) = (0, (s', tr ++ delta)) ->
  skipn (Z.to_nat (offset mod rsz)) (written_bytes delta) = firstn (Z.to_nat len) data.
Proof.
  intros Ho Hl Hsum Hr Hdata E.
  pose proof (write_rows_trace ebid offset len rsz data s s' tr (tr ++ delta)
                Ho Hl Hsum Hr E) as Htrace.
  cbv zeta in Htrace.
  set (cur_block := offset / rsz) in *.
  set (cur_off := offset mod rsz) in *.
  set (end_block := (offset + len) / rsz) in *.
  set (end_off := (offset + len) mod rsz) in *.
  assert (Hco : 0 <= cur_off < rsz) by (apply Z.mod_pos_bound; lia).
  assert (Heo : 0 <= end_off < rsz) by (apply Z.mod_pos_bound; lia).
  assert (Hle : cur_block <= end_block) by (apply Z.div_le_mono; lia).
  assert (Hd1 : offset = rsz * cur_block + cur_off) by (apply Z.div_mod; lia).
  assert (Hd2 : offset + len = rsz * end_block + end_off) by (apply Z.div_mod; lia).
  destruct Htrace as [Haligned Hinside].
  destruct (Z.eq_dec cur_off 0) as [Hoff | Hoff].
  - apply Haligned in Hoff as Htr. apply app_inv_head in Htr. subst delta.
    rewrite Hoff. cbn [Z.to_nat skipn].
    rewrite written_bytes_app. unfold written_bytes at 2. cbn [flat_map].
    rewrite app_nil_r, whole_rows_bytes by lia. f_equal. nia.
  - destruct (Hinside Hoff) as (prefix & Htr). apply app_inv_head in Htr. subst delta.
    set (copy_len := if cur_block =? end_block then len else rsz - cur_off) in *.
    assert (Hcl : 0 <= copy_len /\ cur_off + copy_len <= rsz /\ copy_len <= len).
    { unfold copy_len. destruct (cur_block =? end_block) eqn:Ecb.
      - apply Z.eqb_eq in Ecb. nia.
      - apply Z.eqb_neq in Ecb. nia. }
    unfold written_bytes. cbn [flat_map].
    fold (written_bytes
            (if cur_block + 1 <=? end_block
             then
               whole_row_writes ebid (cur_block + 1)
                 (Z.to_nat (end_block - (cur_block + 1))) rsz
                 (skipn (Z.to_nat copy_len) data)
               ++ [OpWrite ebid end_block
                     (firstn (Z.to_nat end_off)
                        (skip_rows (Z.to_nat (end_block - (cur_block + 1))) rsz
                           (skipn (Z.to_nat copy_len) data)))
                     end_off 0]
             else [])).
    cbn [app]. rewrite skipn_app.
    assert (Hfl : length (firstn (Z.to_nat copy_len) data) = Z.to_nat copy_len).
    { apply firstn_length_le. lia. }
    assert (Hwin :
              skipn (Z.to_nat cur_off)
                (firstn (Z.to_nat (cur_off + copy_len))
                   (store_at (store_at (repeat 0 (Z.to_nat rsz)) 0 prefix)
                      (Z.to_nat cur_off) (firstn (Z.to_nat copy_len) data)))
              = firstn (Z.to_nat copy_len) data).
    { replace (Z.to_nat (cur_off + copy_len))
        with (Z.to_nat cur_off + length (firstn (Z.to_nat copy_len) data))%nat
        by (rewrite Hfl; lia).
      apply store_at_window. rewrite store_at_length, repeat_length, Hfl. lia. }
    rewrite Hwin.
    assert (Hlen1 :
              length (firstn (Z.to_nat (cur_off + copy_len))
                        (store_at (store_at (repeat 0 (Z.to_nat rsz)) 0 prefix)
                           (Z.to_nat cur_off) (firstn (Z.to_nat copy_len) data)))
              = Z.to_nat (cur_off + copy_len)).
    { apply firstn_length_le. rewrite !store_at_length, repeat_length. lia. }
    rewrite Hlen1.
    replace (Z.to_nat cur_off - Z.to_nat (cur_off + copy_len))%nat with 0%nat by lia.
    cbn [skipn].
    destruct (cur_block + 1 <=? end_block) eqn:Enx.
    + apply Z.leb_le in Enx.
      assert (Hne : (cur_block =? end_block) = false) by (apply Z.eqb_neq; lia).
      unfold copy_len in *. rewrite Hne in *.
      rewrite written_bytes_app. unfold written_bytes at 2. cbn [flat_map].
      rewrite app_nil_r, whole_rows_bytes by lia.
      rewrite firstn_firstn_skipn. f_equal. nia.
    + apply Z.leb_gt in Enx.
      assert (Heq : (cur_block =? end_block) = true) by (apply Z.eqb_eq; lia).
      unfold copy_len in *. rewrite Heq in *.
      unfold written_bytes. cbn [flat_map]. apply app_nil_r.
Qed.


(** X13: a config write stores the caller's data, all of it and in order.
    When [cyttsp4_write_config_common] succeeds on a buffer that holds the
    [len] bytes to write, the bytes of its block writes taken together are
    the bytes of the first row in front of the offset followed by exactly
    the first [len] bytes of the buffer. *)
Theorem config_write_stores_the_data (ebid offset len : Z) (data : list Z)
  (s s' : St) (tr tr' : list cfg_op) :
  0 <= offset -> 0 <= len -> offset + len < 65536 ->
  len <= Z.of_nat (length data) ->
  cyttsp4_write_config_common ebid offset data len (s, tr) = (0, (s', tr')) ->
  exists rsz ops,
    tr' = tr ++ OpRowSize 0 rsz :: ops /\
    (0 < rsz < 65536 ->
     skipn (Z.to_nat (offset mod rsz)) (written_bytes ops)
     = firstn (Z.to_nat len) data).
Proof.
  intros Ho Hl Hsum Hdata E. unfold cyttsp4_write_config_common in E.
  unfold bind at 1 in E. cbn [cyttsp4_get_config_row_size recording_ops] in E.
  rewrite recorded_run in E.
  destruct (cyttsp4_get_config_row_size s) as [[rc0 rsz] s0].
  cbn [fst snd] in E.
  destruct (rc0 =? 0) eqn:Erc0; cbn [negb] in E.
  2:{ apply Z.eqb_neq in Erc0. unfold ret in E. congruence. }
  apply Z.eqb_eq in Erc0. subst rc0.
  destruct (write_rows_extends _ _ _ _ _ _ _ _ _ _ E) as [delta Hd].
  exists rsz, delta. split.
  - rewrite Hd, <- app_assoc. reflexivity.
  - intro Hr. subst tr'. eapply write_rows_data; eauto.
Qed.

(** X14: [cyttsp4_write_config] refuses a write before it touches a row.
    Without system information it returns -ENODEV and issues no block
    command; a write that would reach past the two bytes of the stored CRC
    (at the maximum length of the block) returns -EINVAL after the one
    command that fetched the lengths. *)
Theorem config_write_refused_before_any_row_access (ebid offset len : Z)
  (data : list Z) (s : St) :
  (fst (sysinfo_ready s) = false ->
   cyttsp4_write_config ebid offset data len (s, [])
   = (- ENODEV, (snd (sysinfo_ready s), []))) /\
  (forall conf_len crc_offset s1,
     fst (sysinfo_ready s) = true ->
     cyttsp4_get_config_length ebid (snd (sysinfo_ready s))
     = ((0, (conf_len, crc_offset)), s1) ->
     crc_offset + 2 < offset + len ->
     cyttsp4_write_config ebid offset data len (s, [])
     = (- EINVAL, (s1, [OpConfigLength ebid 0 conf_len crc_offset]))).
Proof.
  split.
  - intro Hrdy. unfold cyttsp4_write_config. unfold bind at 1.
    cbn [sysinfo_ready recording_ops]. rewrite unrecorded_run, Hrdy. reflexivity.
  - intros conf_len crc_offset s1 Hrdy Hcl Hpast.
    unfold cyttsp4_write_config. unfold bind at 1.
    cbn [sysinfo_ready recording_ops]. rewrite unrecorded_run, Hrdy. cbn [negb].
    unfold bind at 1. cbn [cyttsp4_get_config_length recording_ops].
    rewrite recorded_run, Hcl. cbn [fst snd app Z.eqb negb].
    apply Z.ltb_lt in Hpast. rewrite Hpast. reflexivity.
Qed.

End CodecData.

Lemma config_write_stores_the_data_witness :
  exists rsz ops,
    snd (snd (@cyttsp4_write_config_common _ (recording_ops sim_cfg_ops) 7 100
                sim_cfg_data 60 (sim_cfg_equal_crc, [])))
    = [] ++ OpRowSize 0 rsz :: ops /\
    (0 < rsz < 65536 ->
     skipn (Z.to_nat (100 mod rsz)) (written_bytes ops)
     = firstn (Z.to_nat 60) sim_cfg_data).
Proof.
  apply (config_write_stores_the_data (Ops := sim_cfg_ops) 7 100 60 sim_cfg_data
           sim_cfg_equal_crc sim_cfg_equal_crc []).
  - lia.
  - lia.
  - lia.
  - vm_compute. discriminate.
  - vm_compute. reflexivity.
Defined.

Lemma config_write_refused_before_any_row_access_witness :
  sim_write_config sim_cfg_equal_crc 200 sim_cfg_data 60
  = (- EINVAL, (sim_cfg_equal_crc, [OpConfigLength 0 0 200 254])).
Proof.
  apply (proj2 (config_write_refused_before_any_row_access (Ops := sim_cfg_ops)
                  0 200 60 sim_cfg_data sim_cfg_equal_crc)).
  - reflexivity.
  - reflexivity.
  - reflexivity.
Defined.

(** ** Parameters and scan types *)

Section ParameterFacts.
Context {R : Regs} {OR : OpRegs} {D : Type} {H : Hardware D}.

Lemma u32_add_int32 (a b : Z) : u32 (a + int32 b) = u32 (a + b).
Proof.
  unfold u32, int32.
  replace (a + ((b + 2147483648) mod 4294967296 - 2147483648))
    with (a - 2147483648 + (b + 2147483648) mod 4294967296) by lia.
  rewrite Zplus_mod_idemp_r. f_equal. lia.
Qed.

Lemma int32_add_sub (x inc : Z) :
  -2147483648 <= x <= 2147483647 -> int32 (int32 (x + inc) - inc) = x.
Proof.
  intro Hx. unfold int32.
  replace ((x + inc + 2147483648) mod 4294967296 - 2147483648 - inc + 2147483648)
    with ((x + inc + 2147483648) mod 4294967296 - inc) by lia.
  rewrite Zminus_mod_idemp_l.
  replace (x + inc + 2147483648 - inc) with (x + 2147483648) by lia.
  rewrite Z.mod_small by lia. lia.
Qed.

Lemma set_counter_twice (en : scan_counter) (a b : Z) (ss : scan_state) :
  set_counter en a (set_counter en b ss) = set_counter en a ss.
Proof. destruct en; reflexivity. Qed.

Lemma get_set_counter (en : scan_counter) (a : Z) (ss : scan_state) :
  get_counter en (set_counter en a ss) = a.
Proof. destruct en; reflexivity. Qed.

Lemma set_get_counter (en : scan_counter) (ss : scan_state) :
  set_counter en (get_counter en ss) ss = ss.
Proof. destruct en, ss; reflexivity. Qed.

End ParameterFacts.

(** X15: a parameter value written by [cyttsp4_set_parameter] reads back
    through the decoding of [cyttsp4_get_parameter]. For the sizes 1, 2 and
    4 the value bytes put into the command, decoded by the loop of
    [cyttsp4_get_parameter] with the same size, give the value reduced to
    that many bytes; every other size is refused with -EINVAL before the
    bus is touched. *)
Theorem parameter_value_round_trip
  {R : Regs} {OR : OpRegs} {D : Type} {H : Hardware D}
  (param_id param_size param_value : Z) (w : world D) :
  (param_size = 1 \/ param_size = 2 \/ param_size = 4 ->
   exists bytes,
     param_value_bytes param_size (u32 param_value) = Some bytes /\
     Z.of_nat (length bytes) = param_size /\
     param_value_loop (Z.to_nat param_size) bytes 0
     = u32 param_value mod 2 ^ (8 * param_size)) /\
  (u8 param_size <> 1 -> u8 param_size <> 2 -> u8 param_size <> 4 ->
   cyttsp4_set_parameter param_id param_size param_value w = (- EINVAL, w)).
Proof.
  split.
  - assert (Hv : 0 <= u32 param_value < 4294967296)
      by (unfold u32; apply Z.mod_pos_bound; lia).
    set (v := u32 param_value) in *.
    intros [-> | [-> | ->]]; eexists; (split; [reflexivity | split; [reflexivity|]]).
    + change (Z.to_nat 1) with 1%nat.
      cbn [param_value_loop nth skipn Z.of_nat Z.mul].
      rewrite u32_add_int32. unfold u32, u8. rewrite Z.shiftl_0_r.
      change (2 ^ 8) with 256. cbn [Z.add].
      rewrite Z.mod_small; [reflexivity|].
      pose proof (Z.mod_pos_bound v 256 ltac:(lia)). lia.
    + change (Z.to_nat 2) with 2%nat.
      cbn [param_value_loop nth skipn Z.of_nat Pos.of_succ_nat Z.mul Pos.mul].
      rewrite !u32_add_int32. unfold u32, u8.
      rewrite Z.shiftl_0_r, Z.shiftl_mul_pow2, Z.shiftr_div_pow2 by lia.
      change (2 ^ 8) with 256. change (2 ^ 16) with 65536. cbn [Z.add].
      pose proof (Z.mod_pos_bound v 256 ltac:(lia)).
      pose proof (Z.mod_pos_bound (v / 256) 256 ltac:(lia)).
      rewrite (Z.mod_small (_ * 256)) by lia.
      rewrite Z.mod_small by lia.
      pose proof (Z.div_mod v 256 ltac:(lia)).
      pose proof (Z.div_mod (v / 256) 256 ltac:(lia)).
      pose proof (Z.div_mod v 65536 ltac:(lia)).
      pose proof (Z.mod_pos_bound v 65536 ltac:(lia)).
      assert (v / 65536 = v / 256 / 256) by (rewrite Z.div_div by lia; reflexivity).
      lia.
    + change (Z.to_nat 4) with 4%nat.
      cbn [param_value_loop nth skipn Z.of_nat Pos.of_succ_nat Z.mul Pos.mul Pos.succ].
      rewrite !u32_add_int32. unfold u32, u8.
      rewrite Z.shiftl_0_r, !Z.shiftl_mul_pow2, !Z.shiftr_div_pow2 by lia.
      change (2 ^ 8) with 256. change (2 ^ 16) with 65536.
      change (2 ^ 24) with 16777216. change (2 ^ 32) with 4294967296. cbn [Z.add].
      pose proof (Z.mod_pos_bound v 256 ltac:(lia)).
      pose proof (Z.mod_pos_bound (v / 256) 256 ltac:(lia)).
      pose proof (Z.mod_pos_bound (v / 65536) 256 ltac:(lia)).
      pose proof (Z.mod_pos_bound (v / 16777216) 256 ltac:(lia)).
      pose proof (Z.div_mod v 256 ltac:(lia)).
      pose proof (Z.div_mod (v / 256) 256 ltac:(lia)).
      pose proof (Z.div_mod (v / 65536) 256 ltac:(lia)).
      pose proof (Z.div_mod (v / 16777216) 256 ltac:(lia)).
      assert (v / 65536 = v / 256 / 256) by (rewrite Z.div_div by lia; reflexivity).
      assert (v / 16777216 = v / 65536 / 256) by (rewrite Z.div_div by lia; reflexivity).
      assert (v / 16777216 < 256) by (apply Z.div_lt_upper_bound; lia).
      set (b3 := (v / 16777216) mod 256) in *.
      set (b2 := (v / 65536) mod 256) in *.
      set (b1 := (v / 256) mod 256) in *.
      set (b0 := v mod 256) in *.
      rewrite (Z.mod_small (b3 * 16777216) 4294967296) by lia.
      rewrite (Z.mod_small (b3 * 16777216 + b2 * 65536) 4294967296) by lia.
      rewrite (Z.mod_small (b3 * 16777216 + b2 * 65536 + b1 * 256) 4294967296) by lia.
      rewrite (Z.mod_small (b3 * 16777216 + b2 * 65536 + b1 * 256 + b0) 4294967296)
        by lia.
      rewrite (Z.mod_small v 4294967296) by lia.
      assert (v / 16777216 / 256 = 0)
        by (apply Z.div_small; split; [apply Z.div_pos; lia | lia]).
      lia.
  - intros H1 H2 H4. unfold cyttsp4_set_parameter, param_value_bytes.
    apply Z.eqb_neq in H1, H2, H4. rewrite H1, H2, H4. reflexivity.
Qed.

(** X16: changing a scan type is all or nothing. A scan type that is none
    of glove, stylus, proximity and APA-MC is refused with -EINVAL and
    nothing happens. Otherwise the type's enable counter is moved by one and
    the resulting scan type byte is sent to the device; when the device
    accepts it (status 0) the counter keeps its new value and nothing else
    changes, and when it does not, the counter is moved back and all scan
    type fields are as before. *)
Theorem scan_type_change_is_all_or_nothing
  {R : Regs} {OR : OpRegs} {D : Type} {H : Hardware D}
  (scan_type : Z) (enable : bool) (ss : scan_state) (w : world D) :
  (select_counter scan_type = None ->
   cyttsp4_set_new_scan_type scan_type enable ss w = ((- EINVAL, ss), w)) /\
  (forall en,
     select_counter scan_type = Some en ->
     -2147483648 <= get_counter en ss <= 2147483647 ->
     let moved :=
       set_counter en (int32 (get_counter en ss + (if enable then 1 else -1))) ss in
     let sent := cyttsp4_set_scantype (_cyttsp4_generate_new_scantype moved) w in
     snd (cyttsp4_set_new_scan_type scan_type enable ss w) = snd sent /\
     fst (fst (cyttsp4_set_new_scan_type scan_type enable ss w)) = fst sent /\
     snd (fst (cyttsp4_set_new_scan_type scan_type enable ss w))
     = if fst sent =? 0 then moved else ss).
Proof.
  split.
  - intro Hsel. unfold cyttsp4_set_new_scan_type. rewrite Hsel. reflexivity.
  - intros en Hsel Hint moved sent. subst sent.
    unfold cyttsp4_set_new_scan_type. rewrite Hsel. unfold bind. fold moved.
    destruct (cyttsp4_set_scantype (_cyttsp4_generate_new_scantype moved) w)
      as [rc w1].
    cbn [fst snd]. destruct (rc =? 0); cbn [negb]; unfold ret; cbn [fst snd].
    + repeat split.
    + repeat split. unfold moved. rewrite get_set_counter, set_counter_twice.
      rewrite int32_add_sub by exact Hint. apply set_get_counter.
Qed.

Lemma scan_type_change_is_all_or_nothing_witness :
  fst (fst (cyttsp4_set_new_scan_type CY_ST_STYLUS true sim_scan_state
              (sim_world CY_MODE_OPERATIONAL [] []))) = - EIO /\
  snd (fst (cyttsp4_set_new_scan_type CY_ST_STYLUS true sim_scan_state
              (sim_world CY_MODE_OPERATIONAL [] []))) = sim_scan_state.
Proof.
  destruct (scan_type_change_is_all_or_nothing CY_ST_STYLUS true sim_scan_state
              (sim_world CY_MODE_OPERATIONAL [] [])) as [_ Hsel].
  destruct (Hsel StylusEn eq_refl) as (_ & Hrc & Hss).
  - cbn. lia.
  - split.
    + rewrite Hrc. vm_compute. reflexivity.
    + rewrite Hss. vm_compute. reflexivity.
Defined.
(** ** Sleep and wake-up *)

Section SleepFacts.
Context {R : Regs} {OR : OpRegs} {D : Type} {H : Hardware D}.

(** In [SS_SLEEP_ON] the interrupt handler returns at once. *)
Lemma irq_asleep (w : world D) :
  sleep_state (cd w) = SS_SLEEP_ON -> cyttsp4_irq w = (tt, w).
Proof. intro Hs. unfold cyttsp4_irq, bind, get_cd. rewrite Hs. reflexivity. Qed.

Lemma irq_times_asleep (n : nat) (w : world D) :
  sleep_state (cd w) = SS_SLEEP_ON -> irq_times n w = (tt, w).
Proof.
  intro Hs. induction n as [|n IH]; cbn [irq_times]; [reflexivity|].
  unfold bind. rewrite (irq_asleep w Hs). exact IH.
Qed.

(** Nothing but [cyttsp4_core_sleep_] and [cyttsp4_core_wake_] writes
    [sleep_state] on the way to sleep. *)
Ltac keeps_more :=
  repeat first
    [ apply keeps_ret
    | apply keeps_get_cd
    | apply keeps_adap_read
    | apply keeps_adap_write
    | apply keeps_power
    | apply keeps_xres
    | apply keeps_emit
    | apply keeps_modify; intro; reflexivity
    | apply keeps_bind; [| intro]
    | match goal with
      | |- keeps _ (if ?b then _ else _) => destruct b
      | |- keeps _ (match ?x with _ => _ end) => destruct x
      end ].

Lemma keeps_sleep_queue_startup : keeps (D := D) sleep_state cyttsp4_queue_startup.
Proof. unfold cyttsp4_queue_startup. keeps_more. Qed.

Lemma keeps_sleep_deep_sleep (hst_mode_reg : Z) :
  keeps (D := D) sleep_state (_cyttsp4_put_device_into_deep_sleep hst_mode_reg).
Proof. unfold _cyttsp4_put_device_into_deep_sleep. keeps_more. Qed.

Lemma keeps_sleep_irq : keeps (D := D) sleep_state cyttsp4_irq.
Proof.
  unfold cyttsp4_irq, call_atten_cb, wake_up, cyttsp4_irq_handshake,
    cyttsp4_handshake, cyttsp4_load_status_and_touch_regs.
  repeat first
    [ apply keeps_sleep_queue_startup
    | apply keeps_sleep_deep_sleep
    | progress keeps_more ].
Qed.

Lemma keeps_sleep_next_tick : keeps (D := D) sleep_state next_tick.
Proof.
  intro w. unfold next_tick. destruct (future w) as [|t rest]; [reflexivity|].
  destruct t; cbn [run_tick].
  - apply (keeps_sleep_irq
             {| cd := cd w; dev := dev w; log := log w; future := rest |}).
  - reflexivity.
Qed.

Lemma keeps_sleep_wait (condition : cyttsp4_core_data -> bool) (n : nat) :
  keeps (D := D) sleep_state (wait_event_timeout condition n).
Proof.
  induction n as [|n IH]; intro w; cbn [wait_event_timeout].
  - destruct (condition (cd w)); reflexivity.
  - destruct (condition (cd w)); [reflexivity|].
    rewrite IH. apply keeps_sleep_next_tick.
Qed.

Lemma keeps_sleep_set_mode (new_mode : cyttsp4_mode) :
  keeps (D := D) sleep_state (set_mode new_mode).
Proof.
  unfold set_mode, set_mode_wait, set_int_status, clear_int_status.
  destruct new_mode;
    repeat first [apply keeps_sleep_wait | progress keeps_more].
Qed.

Lemma keeps_sleep_put_device_into_sleep (hst_mode_reg : Z) :
  keeps (D := D) sleep_state (_cyttsp4_put_device_into_sleep hst_mode_reg).
Proof.
  unfold _cyttsp4_put_device_into_sleep, _cyttsp4_put_device_into_easy_wakeup,
    _cyttsp4_exec_cmd, _get_cmd_offs, set_int_status, clear_int_status.
  repeat first [apply keeps_sleep_deep_sleep | progress keeps_more].
Qed.

(** [_cyttsp4_core_sleep_device] entered without the lock always returns;
    it leaves [sleep_state] alone, and it returns with the lock held
    exactly when the first read of the host mode succeeds and shows the
    application outside operating mode. *)
Lemma core_sleep_device_lock (w1 : world D) (rc0 : Z) (mode2 : list Z) (d : D) :
  bus_read (dev w1) (u16 CY_REG_BASE) 2 = ((rc0, mode2), d) ->
  let r := _cyttsp4_core_sleep_device (w1, false) in
  (exists rc, fst r = Some rc) /\
  sleep_state (cd (fst (snd r))) = sleep_state (cd w1) /\
  snd (snd r)
  = (rc0 =? 0) && negb (IS_BOOTLOADER (nth 0 mode2 0) (nth 1 mode2 0))
    && negb (GET_HSTMODE (nth 0 mode2 0) =? CY_HST_OPERATE).
Proof.
  intros Hrd r.
  assert (Er : r = _cyttsp4_core_sleep_device (w1, false)) by reflexivity.
  clearbody r. unfold _cyttsp4_core_sleep_device in Er.
  unfold lbind at 1 in Er. unfold lift at 1 in Er. cbn [fst snd] in Er.
  pose proof (keeps_adap_read sleep_state CY_REG_BASE 2 w1) as Hk1.
  unfold cyttsp4_adap_read at 1 in Er. unfold cyttsp4_adap_read in Hk1.
  rewrite Hrd in Hk1, Er. cbn [snd] in Hk1.
  match type of Hk1 with
  | sleep_state (cd ?x) = _ => set (w2 := x) in *
  end.
  destruct (rc0 =? 0) eqn:Hrc; cbn [negb andb] in Er |- *.
  2:{ unfold lret in Er. subst r. cbn [fst snd].
      split; [eauto | split; [exact Hk1 | reflexivity]]. }
  destruct (IS_BOOTLOADER (nth 0 mode2 0) (nth 1 mode2 0)) eqn:Hbl;
    cbn [negb andb] in Er |- *.
  { unfold lret in Er. subst r. cbn [fst snd].
    split; [eauto | split; [exact Hk1 | reflexivity]]. }
  destruct (GET_HSTMODE (nth 0 mode2 0) =? CY_HST_OPERATE) eqn:Hop;
    cbn [negb] in Er |- *.
  - unfold lift in Er. cbn [fst snd] in Er.
    pose proof (keeps_sleep_put_device_into_sleep (nth 0 mode2 0) w2) as Hk2.
    destruct (_cyttsp4_put_device_into_sleep (nth 0 mode2 0) w2) as [rc w3].
    subst r. cbn [fst snd] in *. split; [eauto | split; [congruence | reflexivity]].
  - unfold lbind at 1 in Er. unfold mutex_unlock at 1 in Er. cbn [fst snd] in Er.
    unfold lbind at 1 in Er. unfold lift at 1 in Er. cbn [fst snd] in Er.
    pose proof (keeps_sleep_set_mode CY_MODE_OPERATIONAL w2) as Hk2.
    destruct (set_mode CY_MODE_OPERATIONAL w2) as [rc w3]. cbn [snd] in Hk2.
    unfold lbind at 1 in Er. unfold mutex_lock at 1 in Er. cbn [fst snd] in Er.
    destruct (rc <? 0).
    + unfold lbind, lift, lret in Er. cbn [fst snd] in Er.
      pose proof (keeps_sleep_queue_startup w3) as Hk3.
      destruct (cyttsp4_queue_startup w3) as [u w4].
      subst r. cbn [fst snd] in *.
      split; [eauto | split; [congruence | reflexivity]].
    + unfold lbind at 1 in Er. unfold lift at 1 in Er. cbn [fst snd] in Er.
      pose proof (keeps_adap_read sleep_state CY_REG_BASE 2 w3) as Hk3.
      destruct (cyttsp4_adap_read CY_REG_BASE 2 w3) as [[rc1 mode2'] w4].
      cbn [snd] in Hk3.
      destruct (rc1 =? 0); cbn [negb] in Er.
      * unfold lift in Er. cbn [fst snd] in Er.
        pose proof (keeps_sleep_put_device_into_sleep (nth 0 mode2' 0) w4) as Hk4.
        destruct (_cyttsp4_put_device_into_sleep (nth 0 mode2' 0) w4) as [rc2 w5].
        subst r. cbn [fst snd] in *.
        split; [eauto | split; [congruence | reflexivity]].
      * unfold lret in Er. subst r. cbn [fst snd].
        split; [eauto | split; [congruence | reflexivity]].
Qed.

(** [cyttsp4_core_sleep_] entered in [SS_SLEEP_OFF] with the lock free,
    step by step. *)
Lemma core_sleep_eq (w : world D) :
  sleep_state (cd w) = SS_SLEEP_OFF ->
  let w1 := snd (cyttsp4_stop_wd_timer
                   {| cd := with_sleep_state SS_SLEEPING (cd w); dev := dev w;
                      log := log w; future := future w |}) in
  let asleep (w2 : world D) :=
    {| cd := with_sleep_state SS_SLEEP_ON (cd w2); dev := dev w2;
       log := log w2; future := future w2 |} in
  cyttsp4_core_sleep_ (w, false)
  = if negb (Z.land (flags (cpdata (cd w))) CY_CORE_FLAG_POWEROFF_ON_SLEEP =? 0)
    then (Some (fst (cpdata_power 0 w1)), (asleep (snd (cpdata_power 0 w1)), false))
    else
      match _cyttsp4_core_sleep_device (w1, false) with
      | (Some rc, (w2, false)) => (Some rc, (asleep w2, false))
      | (Some rc, (w2, true)) => (None, (w2, true))
      | (None, s) => (None, s)
      end.
Proof.
  intros Hs w1 asleep. subst w1 asleep. unfold cyttsp4_core_sleep_.
  unfold lbind at 1. unfold mutex_lock at 1. cbn [fst snd].
  unfold lbind at 1. unfold lift at 1. unfold get_cd at 1. cbn [fst snd].
  rewrite Hs.
  unfold lbind at 1. unfold lift at 1, modify_cd at 1. cbn [fst snd].
  unfold lbind at 1. unfold mutex_unlock at 1. cbn [fst snd].
  unfold lbind at 1. unfold lift at 1. cbn [fst snd].
  destruct (cyttsp4_stop_wd_timer _) as [u w1]. cbn [snd].
  unfold lbind at 1.
  destruct (negb (Z.land (flags (cpdata (cd w))) CY_CORE_FLAG_POWEROFF_ON_SLEEP =? 0)).
  - unfold lift at 1, _cyttsp4_core_poweroff_device. cbn [fst snd].
    destruct (cpdata_power 0 w1) as [rc w2].
    reflexivity.
  - destruct (_cyttsp4_core_sleep_device (w1, false)) as [[rc|] [w2 held]];
      [|reflexivity].
    unfold lbind at 1. unfold mutex_lock at 1. cbn [fst snd].
    destruct held; reflexivity.
Qed.

End SleepFacts.

(** X17: going to sleep ends asleep or never returns.
    [cyttsp4_core_sleep_] entered with [system_lock] held by the caller
    never returns. Entered with the lock free in a sleep state other than
    [SS_SLEEP_OFF] it returns 1 and changes nothing. Entered with the lock
    free in [SS_SLEEP_OFF]: when it returns, the lock is free again, the
    driver is in [SS_SLEEP_ON] whether or not the device could be put to
    sleep, and from then on the interrupt handler ignores every interrupt
    (no bus access, no change of state); when it does not return, the
    driver is left in [SS_SLEEPING] with the lock held; and it does not
    return exactly when the platform does not power the device off for
    sleeping and the first read of the host mode succeeds and shows the
    application outside operating mode, the path on which
    [_cyttsp4_core_sleep_device] comes back with the lock taken at
    line 3345. *)
Theorem core_sleep_ends_asleep_or_never_returns
  {R : Regs} {OR : OpRegs} {D : Type} {H : Hardware D} (w : world D) :
  cyttsp4_core_sleep_ (w, true) = (None, (w, true)) /\
  (sleep_state (cd w) <> SS_SLEEP_OFF ->
   cyttsp4_core_sleep_ (w, false) = (Some 1, (w, false))) /\
  (sleep_state (cd w) = SS_SLEEP_OFF ->
   let r := cyttsp4_core_sleep_ (w, false) in
   let w' := fst (snd r) in
   (fst r <> None ->
    snd (snd r) = false /\ sleep_state (cd w') = SS_SLEEP_ON /\
    forall n, irq_times n w' = (tt, w')) /\
   (fst r = None ->
    snd (snd r) = true /\ sleep_state (cd w') = SS_SLEEPING) /\
   forall rc0 mode2 d,
     bus_read (dev w) (u16 CY_REG_BASE) 2 = ((rc0, mode2), d) ->
     (fst r = None <->
      Z.land (flags (cpdata (cd w))) CY_CORE_FLAG_POWEROFF_ON_SLEEP = 0 /\
      rc0 = 0 /\
      IS_BOOTLOADER (nth 0 mode2 0) (nth 1 mode2 0) = false /\
      GET_HSTMODE (nth 0 mode2 0) <> CY_HST_OPERATE)).
Proof.
  split; [reflexivity | split].
  - intro Hs. unfold cyttsp4_core_sleep_, lbind, mutex_lock, lift, get_cd.
    cbn [fst snd]. destruct (sleep_state (cd w)); try reflexivity. congruence.
  - intros Hs r w'. subst w' r. rewrite (core_sleep_eq w Hs). cbv zeta.
    match goal with
    | |- context [cyttsp4_stop_wd_timer ?x] => set (ws := x)
    end.
    assert (Hwd : cd (snd (cyttsp4_stop_wd_timer ws)) = cd ws
                  /\ dev (snd (cyttsp4_stop_wd_timer ws)) = dev w).
    { unfold cyttsp4_stop_wd_timer. destruct (CY_WATCHDOG_TIMEOUT =? 0);
        split; reflexivity. }
    set (w1 := snd (cyttsp4_stop_wd_timer ws)) in *.
    destruct Hwd as [Hcd1 Hdev1].
    assert (Hs1 : sleep_state (cd w1) = SS_SLEEPING) by (rewrite Hcd1; reflexivity).
    destruct (negb (Z.land (flags (cpdata (cd w))) CY_CORE_FLAG_POWEROFF_ON_SLEEP =? 0))
      eqn:Hflag.
    + (* power off: the lock is not touched *)
      cbn [fst snd cd sleep_state with_sleep_state].
      split; [|split].
      * intros _. split; [reflexivity | split; [reflexivity|]].
        intro n. apply irq_times_asleep. reflexivity.
      * discriminate.
      * intros rc0 mode2 d Hrd. split; [discriminate|].
        intros (Hf & _). apply negb_true_iff, Z.eqb_neq in Hflag. contradiction.
    + apply negb_false_iff, Z.eqb_eq in Hflag.
      destruct (bus_read (dev w1) (u16 CY_REG_BASE) 2) as [[rc1 m1] d1] eqn:Hrd1.
      destruct (core_sleep_device_lock w1 rc1 m1 d1 Hrd1) as ((rc & Hret) & Hss & Hlock).
      destruct (_cyttsp4_core_sleep_device (w1, false)) as [o [w2 held]].
      cbn [fst snd] in Hret, Hss, Hlock. subst o.
      rewrite Hdev1 in Hrd1.
      destruct held.
      * (* the lock is still held: line 3401 never returns *)
        cbn [fst snd]. split; [|split].
        -- intro Hne. contradiction Hne. reflexivity.
        -- intros _. split; [reflexivity | congruence].
        -- intros rc0 mode2 d Hrd. rewrite Hrd in Hrd1.
           inversion Hrd1; subst rc1 m1 d1. symmetry in Hlock.
           apply andb_prop in Hlock. destruct Hlock as [Hlock Hop].
           apply andb_prop in Hlock. destruct Hlock as [Hrc Hbl].
           apply Z.eqb_eq in Hrc. apply negb_true_iff in Hbl.
           apply negb_true_iff, Z.eqb_neq in Hop.
           split; [intros _; auto | reflexivity].
      * cbn [fst snd cd sleep_state with_sleep_state].
        split; [|split].
        -- intros _. split; [reflexivity | split; [reflexivity|]].
           intro n. apply irq_times_asleep. reflexivity.
        -- discriminate.
        -- intros rc0 mode2 d Hrd. rewrite Hrd in Hrd1.
           inversion Hrd1; subst rc1 m1 d1.
           split; [discriminate|]. intros (_ & Hrc & Hbl & Hop).
           apply Z.eqb_eq in Hrc. apply Z.eqb_neq in Hop.
           rewrite Hrc, Hbl, Hop in Hlock. discriminate.
Qed.

Lemma core_sleep_ends_asleep_or_never_returns_witness :
  (fst (cyttsp4_core_sleep_ (sim_world CY_MODE_OPERATIONAL [] [], false))
   = Some (- EIO) /\
   sleep_state (cd (fst (snd (cyttsp4_core_sleep_
                                (sim_world CY_MODE_OPERATIONAL [] [], false)))))
   = SS_SLEEP_ON) /\
  (fst (cyttsp4_core_sleep_
          (sim_world CY_MODE_OPERATIONAL [(0, [0x10; 0x00])] [], false)) = None /\
   sleep_state (cd (fst (snd (cyttsp4_core_sleep_
                                (sim_world CY_MODE_OPERATIONAL [(0, [0x10; 0x00])] [],
                                 false)))))
   = SS_SLEEPING).
Proof.
  split.
  - split; [vm_compute; reflexivity|].
    destruct (core_sleep_ends_asleep_or_never_returns
                (sim_world CY_MODE_OPERATIONAL [] []))
      as (_ & _ & Hoff).
    destruct (Hoff eq_refl) as (Hret & _).
    apply Hret. vm_compute. discriminate.
  - destruct (core_sleep_ends_asleep_or_never_returns
                (sim_world CY_MODE_OPERATIONAL [(0, [0x10; 0x00])] []))
      as (_ & _ & Hoff).
    destruct (Hoff eq_refl) as (_ & Hblock & Hiff).
    assert (Hnone : fst (cyttsp4_core_sleep_
                           (sim_world CY_MODE_OPERATIONAL [(0, [0x10; 0x00])] [],
                            false)) = None).
    { apply (Hiff 0 [0x10; 0x00] {| answers := [] |}); [reflexivity|].
      repeat split; vm_compute; discriminate. }
    split; [exact Hnone | apply Hblock; exact Hnone].
Defined.

(** X18: waking up never fails silently. [cyttsp4_core_wake_] called in a
    sleep state other than [SS_SLEEP_ON] returns 1 and does nothing. Called
    in [SS_SLEEP_ON] it clears the ignore flag, returns 0 and leaves the
    driver in [SS_SLEEP_OFF]; and whenever waking the device itself reported
    an error, a startup is queued or running when it returns. *)
Theorem core_wake_never_fails_silently
  {R : Regs} {OR : OpRegs} {D : Type} {H : Hardware D} (w : world D) :
  (sleep_state (cd w) <> SS_SLEEP_ON -> cyttsp4_core_wake_ w = (1, w)) /\
  (sleep_state (cd w) = SS_SLEEP_ON ->
   let waking :=
     {| cd := with_sleep_state SS_WAKING
                (with_int_status (Z.land (int_status (cd w)) (Z.lnot CY_INT_IGNORE))
                   (with_sleep_state SS_WAKING (cd w)));
        dev := dev w; log := log w; future := future w |} in
   fst (cyttsp4_core_wake_ w) = 0 /\
   sleep_state (cd (snd (cyttsp4_core_wake_ w))) = SS_SLEEP_OFF /\
   (fst (wake_device waking) <> 0 ->
    startup_state (cd (snd (cyttsp4_core_wake_ w))) <> STARTUP_NONE)).
Proof.
  split.
  - intro Hs. unfold cyttsp4_core_wake_, bind, get_cd.
    destruct (sleep_state (cd w)); try reflexivity. congruence.
  - intros Hs waking.
    assert (Hwd : forall w3 : world D, cd (snd (cyttsp4_start_wd_timer w3)) = cd w3).
    { intro w3. unfold cyttsp4_start_wd_timer.
      destruct (CY_WATCHDOG_TIMEOUT =? 0); reflexivity. }
    assert (Hq : forall w1 : world D,
               startup_state (cd (snd (cyttsp4_queue_startup w1))) <> STARTUP_NONE).
    { intro w1. unfold cyttsp4_queue_startup, bind, get_cd.
      destruct (startup_state (cd w1)) eqn:Ess; cbn; congruence. }
    unfold cyttsp4_core_wake_, bind, get_cd. rewrite Hs.
    unfold clear_int_status, modify_cd. cbn [cd dev log future].
    match goal with
    | |- context [wake_device ?x] => change x with waking
    end.
    destruct (wake_device waking) as [rc w1]. cbn [fst].
    pose proof (Hq w1) as Hq1.
    destruct (rc =? 0) eqn:Hrc; cbn [negb] in *.
    + unfold ret. cbn [snd].
      match goal with
      | |- context [cyttsp4_start_wd_timer ?x] =>
          pose proof (Hwd x) as Hcd; destruct (cyttsp4_start_wd_timer x) as [[] w4]
      end.
      cbn [snd] in Hcd. cbn [fst snd ret].
      rewrite Hcd. cbn [cd sleep_state
        with_sleep_state]. repeat split.
      intro Hne. apply Z.eqb_eq in Hrc. contradiction.
    + destruct (cyttsp4_queue_startup w1) as [[] w2]. cbn [snd] in Hq1.
      unfold ret.
      match goal with
      | |- context [cyttsp4_start_wd_timer ?x] =>
          pose proof (Hwd x) as Hcd; destruct (cyttsp4_start_wd_timer x) as [[] w4]
      end.
      cbn [snd] in Hcd. cbn [fst snd ret]. rewrite Hcd. cbn [cd sleep_state
        startup_state with_sleep_state]. repeat split.
      intros _. exact Hq1.
Qed.

Lemma core_wake_never_fails_silently_witness :
  fst (cyttsp4_core_wake_ (sim_asleep_world [] [TickIdle; TickIdle])) = 0 /\
  sleep_state (cd (snd (cyttsp4_core_wake_ (sim_asleep_world [] [TickIdle; TickIdle]))))
  = SS_SLEEP_OFF /\
  startup_state (cd (snd (cyttsp4_core_wake_ (sim_asleep_world [] [TickIdle; TickIdle]))))
  <> STARTUP_NONE.
Proof.
  destruct (core_wake_never_fails_silently (sim_asleep_world [] [TickIdle; TickIdle]))
    as [_ Hon].
  destruct (Hon eq_refl) as (Hrc & Hoff & Hq).
  split; [exact Hrc | split; [exact Hoff|]].
  apply Hq. vm_compute. discriminate.
Defined.

(** ** A corrupted config block is not accepted *)

Section ReadBlockFacts.
Context {R : Regs} {C : CatRegs} {D : Type} {H : Hardware D}.

(** [cyttsp4_read_config_block] is the command followed by the check. *)
Lemma bus_read_config_block_eq (ebid row length : Z) (w : world D) :
  bus_read_config_block ebid row length w =
  (let '((rc, return_buf), w') :=
     cyttsp4_exec_cmd CY_MODE_CAT (read_config_block_command ebid row length)
       CY_CMD_CAT_READ_CFG_BLK_CMD_SZ true
       (CY_CMD_CAT_READ_CFG_BLK_RET_SZ + u16 length) CY_COMMAND_COMPLETE_TIMEOUT w in
   if negb (rc =? 0) then ((rc, []), w')
   else if read_config_block_response_ok ebid length return_buf
        then ((rc, firstn (Z.to_nat (u16 length))
                     (skipn (Z.to_nat CY_CMD_CAT_READ_CFG_BLK_RET_HDR_SZ) return_buf)),
              w')
        else ((- EINVAL, []), w')).
Proof.
  unfold bus_read_config_block, read_config_block_command,
    read_config_block_response_ok, bind.
  destruct (cyttsp4_exec_cmd _ _ _ _ _ _ w) as [[rc return_buf] w'].
  destruct (rc =? 0); cbn [negb]; [|reflexivity].
  destruct (nth 0 return_buf 0 =? u8 CY_CMD_STATUS_SUCCESS); cbn [negb orb andb];
    [|reflexivity].
  destruct (nth 1 return_buf 0 =? u8 ebid); cbn [negb orb andb]; [|reflexivity].
  destruct (nth 2 return_buf 0 =? HI_BYTE (u16 length)); cbn [negb orb andb];
    [|reflexivity].
  destruct (nth 3 return_buf 0 =? LO_BYTE (u16 length)); cbn [negb orb andb];
    [|reflexivity].
  match goal with
  | |- context [nth ?i return_buf 0 =? HI_BYTE ?c] =>
      destruct (nth i return_buf 0 =? HI_BYTE c); cbn [negb orb andb]; [|reflexivity]
  end.
  match goal with
  | |- context [nth ?i return_buf 0 =? LO_BYTE ?c] =>
      destruct (nth i return_buf 0 =? LO_BYTE c); cbn [negb orb andb]; reflexivity
  end.
Qed.

Lemma skipn_exact {A : Type} (l1 l2 : list A) : skipn (List.length l1) (l1 ++ l2) = l2.
Proof. induction l1 as [|x l1 IH]; [reflexivity | exact IH]. Qed.

Lemma hi_lo_byte (x y : Z) :
  0 <= x < 65536 -> 0 <= y < 65536 ->
  HI_BYTE x = HI_BYTE y -> LO_BYTE x = LO_BYTE y -> x = y.
Proof.
  unfold HI_BYTE, LO_BYTE, u8. rewrite !Z.shiftr_div_pow2 by lia.
  change (2 ^ 8) with 256. intros Hx Hy Hhi Hlo.
  assert (x / 256 < 256) by (apply Z.div_lt_upper_bound; lia).
  assert (y / 256 < 256) by (apply Z.div_lt_upper_bound; lia).
  assert (0 <= x / 256) by (apply Z.div_pos; lia).
  assert (0 <= y / 256) by (apply Z.div_pos; lia).
  rewrite !(Z.mod_small (_ / 256)) in Hhi by lia.
  pose proof (Z.div_mod x 256 ltac:(lia)). pose proof (Z.div_mod y 256 ltac:(lia)).
  lia.
Qed.

Lemma app_crc_range (data : list Z) (size : Z) :
  0 <= Crc.cyttsp4_calc_app_crc data size < 65536.
Proof.
  unfold Crc.cyttsp4_calc_app_crc, Crc.cyttsp4_calc_partial_app_crc.
  rewrite <- crc_loop_u16 by apply u16_idem. apply u16_range.
Qed.

(** The check fails on a response whose data differ in one byte from the
    data of a response that passes. *)
Lemma response_check_detects (ebid length : Z) (hdr pre post trailer : list Z) (a b : Z) :
  List.length hdr = Z.to_nat CY_CMD_CAT_READ_CFG_BLK_RET_HDR_SZ ->
  List.length (pre ++ a :: post) = Z.to_nat (u16 length) ->
  u8 a <> u8 b ->
  read_config_block_response_ok ebid length (hdr ++ (pre ++ a :: post) ++ trailer) = true ->
  read_config_block_response_ok ebid length (hdr ++ (pre ++ b :: post) ++ trailer) = false.
Proof.
  intros Hhdr Hlen Hab Hok.
  destruct (read_config_block_response_ok ebid length
              (hdr ++ (pre ++ b :: post) ++ trailer)) eqn:Hbad; [exfalso | reflexivity].
  unfold read_config_block_response_ok in Hok, Hbad.
  rewrite <- Hhdr in Hok, Hbad.
  rewrite !andb_true_iff in Hok, Hbad.
  destruct Hok as [[_ Hhi_a] Hlo_a]. destruct Hbad as [[_ Hhi_b] Hlo_b].
  rewrite !skipn_exact in Hhi_a, Hlo_a, Hhi_b, Hlo_b.
  assert (Hlen_b : List.length (pre ++ b :: post) = Z.to_nat (u16 length)).
  { rewrite <- Hlen, !length_app. reflexivity. }
  assert (Hnth : forall body k,
             List.length body = Z.to_nat (u16 length) ->
             nth (List.length hdr + Z.to_nat (u16 length) + k)
               (hdr ++ body ++ trailer) 0 = nth k trailer 0).
  { intros body k Hb.
    rewrite app_nth2 by lia. rewrite app_nth2 by lia. f_equal. lia. }
  rewrite <- (Nat.add_0_r (List.length hdr + Z.to_nat (u16 length))) in Hhi_a, Hhi_b.
  rewrite (Hnth _ 0%nat Hlen) in Hhi_a. rewrite (Hnth _ 1%nat Hlen) in Hlo_a.
  rewrite (Hnth _ 0%nat Hlen_b) in Hhi_b. rewrite (Hnth _ 1%nat Hlen_b) in Hlo_b.
  apply Z.eqb_eq in Hhi_a, Hlo_a, Hhi_b, Hlo_b.
  assert (Hcrc :
            Crc.cyttsp4_calc_app_crc ((pre ++ a :: post) ++ trailer) (u16 length) =
            Crc.cyttsp4_calc_app_crc ((pre ++ b :: post) ++ trailer) (u16 length)).
  { apply hi_lo_byte; try apply app_crc_range; congruence. }
  unfold Crc.cyttsp4_calc_app_crc, Crc.cyttsp4_calc_partial_app_crc in Hcrc.
  rewrite <- !app_assoc in Hcrc. cbn [app] in Hcrc.
  revert Hcrc. apply crc_loop_detects; [exact Hab | apply u16_range |].
  rewrite <- Hlen, length_app. cbn [List.length]. lia.
Qed.

End ReadBlockFacts.

(** X20: a config block that was corrupted on its way is not accepted. If
    the response to a read block command differs in one data byte from a
    response that passes the check of [cyttsp4_read_config_block] (status,
    block id and length echoed, CRC of the data behind the data), the
    function returns -EINVAL and no data. *)
Theorem corrupted_config_block_is_rejected
  {R : Regs} {C : CatRegs} {D : Type} {H : Hardware D}
  (ebid row length : Z) (hdr pre post trailer : list Z) (a b : Z) (w w' : world D) :
  List.length hdr = Z.to_nat CY_CMD_CAT_READ_CFG_BLK_RET_HDR_SZ ->
  List.length (pre ++ a :: post) = Z.to_nat (u16 length) ->
  read_config_block_response_ok ebid length (hdr ++ (pre ++ a :: post) ++ trailer) = true ->
  u8 a <> u8 b ->
  cyttsp4_exec_cmd CY_MODE_CAT (read_config_block_command ebid row length)
    CY_CMD_CAT_READ_CFG_BLK_CMD_SZ true
    (CY_CMD_CAT_READ_CFG_BLK_RET_SZ + u16 length) CY_COMMAND_COMPLETE_TIMEOUT w
  = ((0, hdr ++ (pre ++ b :: post) ++ trailer), w') ->
  bus_read_config_block ebid row length w = ((- EINVAL, []), w').
Proof.
  intros Hhdr Hlen Hok Hab Hexec.
  rewrite bus_read_config_block_eq, Hexec. cbn [Z.eqb negb].
  rewrite (response_check_detects ebid length hdr pre post trailer a b Hhdr Hlen Hab Hok).
  reflexivity.
Qed.

Lemma corrupted_config_block_is_rejected_witness :
  fst (bus_read_config_block 0 0 3 (sim_cat_world [0; 0; 0; 3; 1; 2; 3; 173; 173]))
  = (0, [1; 2; 3]) /\
  fst (bus_read_config_block 0 0 3 (sim_cat_world [0; 0; 0; 3; 1; 9; 3; 173; 173]))
  = (- EINVAL, []).
Proof.
  split; [vm_compute; reflexivity|].
  rewrite (corrupted_config_block_is_rejected 0 0 3 [0; 0; 0; 3] [1] [3] [173; 173] 2 9
             (sim_cat_world [0; 0; 0; 3; 1; 9; 3; 173; 173])
             (snd (cyttsp4_exec_cmd CY_MODE_CAT (read_config_block_command 0 0 3)
                     CY_CMD_CAT_READ_CFG_BLK_CMD_SZ true
                     (CY_CMD_CAT_READ_CFG_BLK_RET_SZ + u16 3)
                     CY_COMMAND_COMPLETE_TIMEOUT
                     (sim_cat_world [0; 0; 0; 3; 1; 9; 3; 173; 173])))).
  - reflexivity.
  - reflexivity.
  - reflexivity.
  - vm_compute. reflexivity.
  - vm_compute. discriminate.
  - vm_compute. reflexivity.
Defined.

(** ** Reading the touch report *)

(** X21: the touch report is read in at most two transfers, and the second
    one never asks for more than [max_tchs] touch records, however many the
    status byte of the device announces. Without a report buffer the
    function returns -EINVAL and reads nothing. *)
Theorem touch_report_read_is_bounded
  {R : Regs} {D : Type} {H : Hardware D} (optimize : bool) (w : world D) :
  let ofs := si_ofs (sysinfo (cd w)) in
  0 <= max_tchs ofs -> 0 <= tch_rec_size ofs ->
  max_tchs ofs * tch_rec_size ofs <= 2147483647 ->
  (xy_mode (sysinfo (cd w)) = None ->
   cyttsp4_load_status_and_touch_regs optimize w = (- EINVAL, w)) /\
  (xy_mode (sysinfo (cd w)) <> None ->
   exists rc1 data1,
     let first :=
       EvRead (u16 (rep_ofs ofs))
         (int32 (if optimize then rep_hdr_size ofs + tch_rec_size ofs
                 else rep_hdr_size ofs)) rc1 data1 in
     log (snd (cyttsp4_load_status_and_touch_regs optimize w)) = log w ++ [first] \/
     exists addr size rc2 data2,
       log (snd (cyttsp4_load_status_and_touch_regs optimize w))
       = log w ++ [first; EvRead addr size rc2 data2] /\
       0 <= size <= max_tchs ofs * tch_rec_size ofs).
Proof.
  intros ofs Hmax Hrec Hprod. split.
  - intro Hnone. unfold cyttsp4_load_status_and_touch_regs, bind, get_cd.
    rewrite Hnone. reflexivity.
  - intro Hbuf.
    destruct (cyttsp4_load_status_and_touch_regs optimize w) as [r w'] eqn:E.
    cbn [snd]. unfold cyttsp4_load_status_and_touch_regs in E.
    unfold bind at 1, get_cd in E.
    destruct (xy_mode (sysinfo (cd w))) as [buf|] eqn:Exy; [|congruence].
    fold ofs in E. unfold bind at 1, cyttsp4_adap_read at 1 in E.
    destruct (bus_read (dev w) _ _) as [[rc1 data1] d1].
    exists rc1, data1. unfold bind at 1, modify_cd at 1 in E.
    cbn [cd dev log future] in E.
    destruct (rc1 <? 0); [left; unfold ret in E; inversion E; reflexivity|].
    set (buf1 := store_at buf (Z.to_nat (rep_ofs ofs)) data1) in *.
    set (num := u8 (GET_NUM_TOUCH_RECORDS (nth (Z.to_nat (tt_stat_ofs ofs)) buf1 0)))
      in *.
    destruct ((nth (Z.to_nat (rep_ofs ofs)) buf1 0 =? 0) && (0 <? num));
      [left; unfold ret in E; inversion E; reflexivity|].
    set (num_cur := if max_tchs ofs <? num then u8 (max_tchs ofs) else num) in *.
    assert (Hnum : num_cur <= max_tchs ofs).
    { unfold num_cur. destruct (max_tchs ofs <? num) eqn:Elt.
      - unfold u8. apply Z.mod_le; lia.
      - apply Z.ltb_ge in Elt. exact Elt. }
    set (num_read := if optimize then num_cur - 1 else num_cur) in *.
    assert (Hread : num_read <= max_tchs ofs) by (unfold num_read; destruct optimize; lia).
    destruct (num_read <=? 0) eqn:Epos;
      [left; unfold ret in E; inversion E; reflexivity|].
    apply Z.leb_gt in Epos.
    unfold bind at 1, cyttsp4_adap_read at 1 in E. cbn [cd dev log future] in E.
    destruct (bus_read d1 _ _) as [[rc2 data2] d2].
    right.
    assert (Hsz : 0 <= num_read * tch_rec_size ofs <= max_tchs ofs * tch_rec_size ofs)
      by nia.
    unfold bind, modify_cd in E. cbn [cd dev log future] in E.
    eexists _, _, rc2, data2. split.
    + destruct (rc2 <? 0); unfold ret in E; inversion E; cbn [log];
        rewrite <- app_assoc; reflexivity.
    + rewrite int32_of_range by lia. lia.
Qed.

Lemma touch_report_read_is_bounded_witness :
  exists rc1 data1,
    log (snd (cyttsp4_load_status_and_touch_regs false sim_report_world))
    = [EvRead 3 3 rc1 data1] \/
    exists addr size rc2 data2,
      log (snd (cyttsp4_load_status_and_touch_regs false sim_report_world))
      = [EvRead 3 3 rc1 data1; EvRead addr size rc2 data2] /\
      0 <= size <= 100.
Proof.
  apply (proj2 (touch_report_read_is_bounded false sim_report_world
                  ltac:(cbn; lia) ltac:(cbn; lia) ltac:(cbn; lia))).
  discriminate.
Defined.

Lemma touch_report_clamped_scenario :
  map (fun e => match e with EvRead addr size _ _ => (addr, size) | _ => (0, 0) end)
    (log (snd (cyttsp4_load_status_and_touch_regs false sim_report_world)))
  = [(3, 3); (6, 100)].
Proof. vm_compute. reflexivity. Qed.

(** ** Block commands outside CAT mode *)

Section ModeGuardFacts.
Context {R : Regs} {C : CatRegs} {D : Type} {H : Hardware D}.



End ModeGuardFacts.



(** ** The frame of a block write *)

Section WriteBlockFacts.
Context {R : Regs} {C : CatRegs} {D : Type} {H : Hardware D}.

Lemma nth_store_at (buf : list Z) :
  forall (ofs : nat) (data : list Z) (i : nat),
    nth i (store_at buf ofs data) 0 =
    if (ofs <=? i)%nat && (i <? ofs + List.length data)%nat && (i <? List.length buf)%nat
    then nth (i - ofs) data 0 else nth i buf 0.
Proof.
  induction buf as [|b buf IH]; intros ofs data i.
  - replace (store_at [] ofs data) with (@nil Z) by (destruct ofs; reflexivity).
    cbn [List.length]. rewrite (proj2 (Nat.ltb_ge i 0)) by lia.
    rewrite Bool.andb_false_r. destruct i; reflexivity.
  - destruct ofs as [|ofs].
    + destruct data as [|x data].
      * cbn [store_at List.length Nat.add].
        rewrite (proj2 (Nat.ltb_ge i 0)) by lia.
        rewrite Bool.andb_false_r. reflexivity.
      * cbn [store_at List.length]. destruct i as [|i]; [reflexivity|].
        cbn [nth]. rewrite IH. cbn [Nat.leb Nat.add Nat.sub].
        rewrite Nat.sub_0_r. reflexivity.
    + cbn [store_at List.length]. destruct i as [|i]; [reflexivity|].
      cbn [nth]. rewrite IH. reflexivity.
Qed.

Lemma nth_store_at_in (buf : list Z) (ofs : nat) (data : list Z) (i : nat) :
  (ofs <= i)%nat -> (i < ofs + List.length data)%nat -> (i < List.length buf)%nat ->
  nth i (store_at buf ofs data) 0 = nth (i - ofs) data 0.
Proof.
  intros H1 H2 H3. rewrite nth_store_at.
  apply Nat.leb_le in H1. apply Nat.ltb_lt in H2, H3. rewrite H1, H2, H3. reflexivity.
Qed.

Lemma nth_store_at_out (buf : list Z) (ofs : nat) (data : list Z) (i : nat) :
  (i < ofs \/ ofs + List.length data <= i)%nat ->
  nth i (store_at buf ofs data) 0 = nth i buf 0.
Proof.
  intros Hout. rewrite nth_store_at. destruct Hout as [Hlt | Hge].
  - apply Nat.leb_gt in Hlt. rewrite Hlt. reflexivity.
  - apply Nat.ltb_ge in Hge. rewrite Hge, Bool.andb_false_r. reflexivity.
Qed.

Lemma nth_firstn_lt (l : list Z) :
  forall i n, (i < n)%nat -> nth i (firstn n l) 0 = nth i l 0.
Proof.
  induction l as [|x l IH]; intros i n Hi.
  - rewrite firstn_nil. reflexivity.
  - destruct n as [|n]; [lia|]. destruct i as [|i]; [reflexivity|].
    cbn [firstn nth]. apply IH. lia.
Qed.

(** [cyttsp4_write_config_block] is the command followed by the check of
    the response. *)
Lemma bus_write_config_block_eq (ebid row : Z) (data : list Z) (length : Z)
  (w : world D) :
  bus_write_config_block ebid row data length w =
  (let '((rc, return_buf), w') :=
     cyttsp4_exec_cmd CY_MODE_CAT (write_config_block_command ebid row data length)
       (CY_CMD_CAT_WRITE_CFG_BLK_CMD_SZ + u16 length
        + Z.of_nat (List.length security_key))
       true CY_CMD_CAT_WRITE_CFG_BLK_RET_SZ CY_COMMAND_COMPLETE_TIMEOUT w in
   if negb (rc =? 0) then (rc, w')
   else if negb (nth 0 return_buf 0 =? u8 CY_CMD_STATUS_SUCCESS)
           || negb (nth 1 return_buf 0 =? u8 ebid)
           || negb (nth 2 return_buf 0 =? HI_BYTE (u16 length))
           || negb (nth 3 return_buf 0 =? LO_BYTE (u16 length))
        then (- EINVAL, w')
        else (rc, w')).
Proof.
  unfold bus_write_config_block, write_config_block_command, bind.
  destruct (cyttsp4_exec_cmd _ _ _ _ _ _ w) as [[rc return_buf] w'].
  destruct (negb (rc =? 0)); [reflexivity|].
  match goal with |- context [if ?b then _ else _] => destruct b end; reflexivity.
Qed.

End WriteBlockFacts.

(** X23: the frame of a block write. The command that
    [cyttsp4_write_config_block] hands to the command executor has room for
    header, data, key and CRC; behind the header it carries the [length]
    data bytes, then the eight bytes of the security key, then the CRC of
    the data, high byte first. *)
Theorem write_block_command_layout
  {R : Regs} {C : CatRegs} {D : Type} {H : Hardware D}
  (ebid row : Z) (data : list Z) (length : Z) :
  0 <= CY_CMD_CAT_WRITE_CFG_BLK_CMD_HDR_SZ ->
  CY_CMD_CAT_WRITE_CFG_BLK_CMD_HDR_SZ + 2 <= CY_CMD_CAT_WRITE_CFG_BLK_CMD_SZ ->
  u16 length <= Z.of_nat (List.length data) ->
  let hdr := Z.to_nat CY_CMD_CAT_WRITE_CFG_BLK_CMD_HDR_SZ in
  let len := Z.to_nat (u16 length) in
  let command_buf := write_config_block_command ebid row data length in
  let crc := Crc.cyttsp4_calc_app_crc data (u16 length) in
  Z.of_nat (List.length command_buf) = CY_CMD_CAT_WRITE_CFG_BLK_CMD_SZ + u16 length + 8 /\
  (forall i, (i < len)%nat -> nth (hdr + i) command_buf 0 = nth i data 0) /\
  (forall i, (i < 8)%nat -> nth (hdr + len + i) command_buf 0 = nth i security_key 0) /\
  nth (hdr + len + 8) command_buf 0 = HI_BYTE crc /\
  nth (hdr + len + 9) command_buf 0 = LO_BYTE crc /\
  (forall w : world D,
     fst (bus_write_config_block ebid row data length w) = 0 ->
     exists return_buf,
       fst (cyttsp4_exec_cmd CY_MODE_CAT command_buf
              (CY_CMD_CAT_WRITE_CFG_BLK_CMD_SZ + u16 length + 8)
              true CY_CMD_CAT_WRITE_CFG_BLK_RET_SZ CY_COMMAND_COMPLETE_TIMEOUT w)
       = (0, return_buf)).
Proof.
  intros Hhdr Hsz Hdata hdr len command_buf crc.
  assert (Hu : 0 <= u16 length < 65536) by apply u16_range.
  assert (Hlenbuf : List.length command_buf
                    = Z.to_nat (CY_CMD_CAT_WRITE_CFG_BLK_CMD_SZ + u16 length + 8)).
  { unfold command_buf, write_config_block_command, new_buf.
    rewrite !store_at_length, repeat_length. reflexivity. }
  assert (Hfl : List.length (firstn len data) = len).
  { apply firstn_length_le. unfold len. lia. }
  assert (Hexec : forall w : world D,
             fst (bus_write_config_block ebid row data length w) = 0 ->
             exists return_buf,
               fst (cyttsp4_exec_cmd CY_MODE_CAT command_buf
                      (CY_CMD_CAT_WRITE_CFG_BLK_CMD_SZ + u16 length + 8)
                      true CY_CMD_CAT_WRITE_CFG_BLK_RET_SZ
                      CY_COMMAND_COMPLETE_TIMEOUT w)
               = (0, return_buf)).
  { intros w Hok. rewrite bus_write_config_block_eq in Hok.
    change (Z.of_nat (List.length security_key)) with 8 in Hok.
    fold command_buf in Hok.
    destruct (cyttsp4_exec_cmd CY_MODE_CAT command_buf _ _ _ _ w)
      as [[rc return_buf] w'].
    exists return_buf. cbn [fst].
    destruct (rc =? 0) eqn:Hrc; cbn [negb] in Hok.
    + apply Z.eqb_eq in Hrc. subst rc. reflexivity.
    + cbn [fst] in Hok. subst rc. discriminate Hrc. }
  assert (Hbuf :
            exists buf0,
              (hdr + len + 10 <= List.length buf0)%nat /\
              command_buf =
              store_at
                (store_at
                   (store_at (store_at buf0 (hdr + len + 8) [HI_BYTE crc])
                      (hdr + len + 9) [LO_BYTE crc])
                   hdr (firstn len data))
                (hdr + len) security_key).
  { eexists. split; [|unfold command_buf, write_config_block_command; fold crc;
                      change (Z.of_nat (List.length security_key)) with 8;
                      replace (Z.to_nat (CY_CMD_CAT_WRITE_CFG_BLK_CMD_HDR_SZ
                                         + u16 length + 8))
                        with (hdr + len + 8)%nat by (unfold hdr, len; lia);
                      replace (Z.to_nat (CY_CMD_CAT_WRITE_CFG_BLK_CMD_HDR_SZ + 1
                                         + u16 length + 8))
                        with (hdr + len + 9)%nat by (unfold hdr, len; lia);
                      replace (Z.to_nat (CY_CMD_CAT_WRITE_CFG_BLK_CMD_HDR_SZ
                                         + u16 length))
                        with (hdr + len)%nat by (unfold hdr, len; lia);
                      reflexivity].
    unfold new_buf. rewrite store_at_length, repeat_length. unfold hdr, len. lia. }
  destruct Hbuf as (buf0 & Hroom & Hcmd).
  split; [rewrite Hlenbuf; lia|].
  split; [|split; [|split; [|split; [|exact Hexec]]]]; rewrite Hcmd.
  - intros i Hi.
    rewrite nth_store_at_out
      by (change (List.length security_key) with 8%nat; lia).
    rewrite nth_store_at_in by (rewrite ?store_at_length, ?Hfl; lia).
    replace (hdr + i - hdr)%nat with i by lia. apply nth_firstn_lt. exact Hi.
  - intros i Hi.
    rewrite nth_store_at_in
      by (rewrite ?store_at_length; change (List.length security_key) with 8%nat; lia).
    f_equal. lia.
  - rewrite nth_store_at_out
      by (change (List.length security_key) with 8%nat; lia).
    rewrite nth_store_at_out by (rewrite Hfl; lia).
    rewrite nth_store_at_out by (cbn [List.length]; lia).
    rewrite nth_store_at_in by (rewrite ?store_at_length; cbn [List.length]; lia).
    rewrite Nat.sub_diag. reflexivity.
  - rewrite nth_store_at_out
      by (change (List.length security_key) with 8%nat; lia).
    rewrite nth_store_at_out by (rewrite Hfl; lia).
    rewrite nth_store_at_in by (rewrite ?store_at_length; cbn [List.length]; lia).
    rewrite Nat.sub_diag. reflexivity.
Qed.

Lemma write_block_command_layout_witness :
  let command_buf := write_config_block_command 0 1 [0xAA; 0xBB] 2 in
  Z.of_nat (List.length command_buf) = 18 /\
  (forall i, (i < 2)%nat -> nth (6 + i) command_buf 0 = nth i [0xAA; 0xBB] 0) /\
  (forall i, (i < 8)%nat -> nth (8 + i) command_buf 0 = nth i security_key 0) /\
  nth 16 command_buf 0 = HI_BYTE (Crc.cyttsp4_calc_app_crc [0xAA; 0xBB] 2) /\
  nth 17 command_buf 0 = LO_BYTE (Crc.cyttsp4_calc_app_crc [0xAA; 0xBB] 2).
Proof.
  destruct (write_block_command_layout (R := tma4xx_regs) (C := sim_cat_regs)
              (D := sim_device) (H := sim_hardware) 0 1 [0xAA; 0xBB] 2
              ltac:(cbn; lia) ltac:(cbn; lia) ltac:(cbn; lia))
    as (Hlen & Hdata & Hkey & Hhi & Hlo & _).
  repeat split; assumption.
Defined.

(** ** A mode change that the device acknowledges *)

Section ModeChangeFacts.
Context {R : Regs} {D : Type} {H : Hardware D}.

(** The interrupt that acknowledges a pending mode change: the world it
    leaves. *)
Lemma irq_mode_change_ack (w : world D) (hdr : list Z) (d' d'' : D) (rch : Z) :
  sleep_state (cd w) <> SS_SLEEP_ON ->
  bus_read (dev w) (u16 CY_REG_BASE) 3 = ((0, hdr), d') ->
  IS_BOOTLOADER (nth 0 hdr 0) (nth 1 hdr 0) = false ->
  Z.land (int_status (cd w)) CY_INT_IGNORE = 0 ->
  Z.land (int_status (cd w)) CY_INT_AWAKE = 0 ->
  Z.land (int_status (cd w)) CY_INT_MODE_CHANGE <> 0 ->
  Z.land (nth 0 hdr 0) CY_HST_MODE_CHANGE = 0 ->
  bus_write d' (u16 CY_REG_BASE) [u8 (Z.lxor (nth 0 hdr 0) CY_HST_TOGGLE)] = (rch, d'') ->
  cyttsp4_irq w =
  (tt, {| cd := with_mode (classify_hst_mode (nth 0 hdr 0))
                  (with_int_status
                     (Z.land (int_status (cd w)) (Z.lnot CY_INT_MODE_CHANGE)) (cd w));
          dev := d'';
          log := log w ++
            [EvRead (u16 CY_REG_BASE) 3 0 hdr; EvWakeUp;
             EvWrite (u16 CY_REG_BASE) [u8 (Z.lxor (nth 0 hdr 0) CY_HST_TOGGLE)] rch;
             EvUdelay (level_irq_udelay (cpdata (cd w)))];
          future := future w |}).
Proof.
  intros Hs Hrd Hbl Hig Haw Hmc Hmk Hhs.
  destruct w as [c d l f].
  destruct c as [md ist hb sst slp tog inv ble wake gest si cp].
  cbn [cd dev log future mode sleep_state int_status cpdata] in *.
  apply Z.eqb_neq in Hmc.
  unfold cyttsp4_irq, cyttsp4_adap_read.
  assert (Hslp : forall (A : Type) (x y : A),
             match slp with SS_SLEEP_ON => x | _ => y end = y)
    by (intros; destruct slp; congruence).
  cbv beta iota zeta delta
    [bind ret get_cd cd dev log future mode sleep_state int_status].
  rewrite Hslp, Hrd.
  cbv beta iota zeta delta
    [bind ret get_cd modify_cd emit call_atten_cb wake_up
     cd dev log future mode sleep_state int_status negb fst snd].
  change (0 =? 0) with true. cbv iota.
  rewrite Hbl. cbv iota.
  rewrite Hig. change (0 =? 0) with true. cbv beta iota delta [negb andb].
  rewrite Haw. change (0 =? 0) with true. cbv beta iota delta [negb andb].
  rewrite Hmc, Hmk. change (0 =? 0) with true. cbv beta iota delta [negb andb].
  unfold cyttsp4_irq_handshake, cyttsp4_handshake.
  rewrite Hmk. change (0 =? 0) with true. cbv beta iota delta [negb].
  unfold cyttsp4_adap_write.
  cbv beta iota zeta delta
    [bind ret get_cd modify_cd emit cd dev log future fst snd].
  rewrite Hhs.
  cbv beta iota zeta delta
    [cd dev log future with_mode with_int_status mode int_status heartbeat_count
     startup_state sleep_state cmd_toggle invalid_touch_app bl_fast_exit
     wake_initiated_by_device easy_wakeup_gesture sysinfo cpdata].
  rewrite <- !app_assoc. cbn [app]. reflexivity.
Qed.

Lemma wait_event_timeout_ready (condition : cyttsp4_core_data -> bool) (n : nat)
  (w : world D) :
  condition (cd w) = true ->
  wait_event_timeout condition n w = (Z.max 1 (Z.of_nat n), w).
Proof. intro Hc. destruct n; cbn [wait_event_timeout]; rewrite Hc; reflexivity. Qed.

Lemma land_lor_flag_clear (s flag other : Z) :
  Z.land s other = 0 -> Z.land flag other = 0 -> Z.land (Z.lor s flag) other = 0.
Proof. intros Hs Hf. rewrite Z.land_lor_distr_l, Hs, Hf. reflexivity. Qed.

Lemma land_lor_flag_set (s flag : Z) : flag <> 0 -> Z.land (Z.lor s flag) flag <> 0.
Proof.
  intros Hf E. rewrite Z.land_lor_distr_l, Z.land_diag in E.
  apply Z.lor_eq_0_iff in E. destruct E as [_ E]. contradiction.
Qed.

(** The wait of [set_mode] when the next tick brings the acknowledging
    interrupt. *)
Lemma set_mode_wait_ack (rc : Z) (w : world D) (rest : list tick) (hdr : list Z)
  (d' d'' : D) (rch : Z) :
  (0 < msecs_to_jiffies CY_CORE_MODE_CHANGE_TIMEOUT)%nat ->
  future w = TickIrq :: rest ->
  sleep_state (cd w) <> SS_SLEEP_ON ->
  bus_read (dev w) (u16 CY_REG_BASE) 3 = ((0, hdr), d') ->
  IS_BOOTLOADER (nth 0 hdr 0) (nth 1 hdr 0) = false ->
  Z.land (int_status (cd w)) CY_INT_IGNORE = 0 ->
  Z.land (int_status (cd w)) CY_INT_AWAKE = 0 ->
  Z.land (int_status (cd w)) CY_INT_MODE_CHANGE <> 0 ->
  Z.land (nth 0 hdr 0) CY_HST_MODE_CHANGE = 0 ->
  bus_write d' (u16 CY_REG_BASE) [u8 (Z.lxor (nth 0 hdr 0) CY_HST_TOGGLE)] = (rch, d'') ->
  set_mode_wait rc w =
  (rc, {| cd := with_mode (classify_hst_mode (nth 0 hdr 0))
                  (with_int_status
                     (Z.land (int_status (cd w)) (Z.lnot CY_INT_MODE_CHANGE)) (cd w));
          dev := d'';
          log := log w ++
            [EvRead (u16 CY_REG_BASE) 3 0 hdr; EvWakeUp;
             EvWrite (u16 CY_REG_BASE) [u8 (Z.lxor (nth 0 hdr 0) CY_HST_TOGGLE)] rch;
             EvUdelay (level_irq_udelay (cpdata (cd w)))];
          future := rest |}).
Proof.
  intros Ht Hf Hs Hrd Hbl Hig Haw Hmc Hmk Hhs.
  unfold set_mode_wait. unfold bind at 1.
  destruct (msecs_to_jiffies CY_CORE_MODE_CHANGE_TIMEOUT) as [|t]; [lia|].
  cbn [wait_event_timeout].
  rewrite (proj2 (Z.eqb_neq _ _) Hmc).
  unfold next_tick. rewrite Hf. cbn [run_tick].
  rewrite (irq_mode_change_ack _ hdr d' d'' rch); cbn [cd dev log future]; trivial.
  cbn [snd]. rewrite wait_event_timeout_ready.
  - unfold IS_TMO. replace (Z.max 1 (Z.of_nat t) =? 0) with false
      by (symmetry; apply Z.eqb_neq; lia).
    reflexivity.
  - cbn [cd int_status with_mode with_int_status]. apply Z.eqb_eq.
    apply land_lnot_clear.
Qed.

End ModeChangeFacts.

(** X24: a mode change that the device acknowledges succeeds. When the
    driver is not asleep, no ignore or wake-up wait is pending, the host
    mode register can be read and the request written, and the next timer
    tick brings an interrupt whose header shows the application (no
    bootloader) without the mode-change marker, then [set_mode] returns the
    status of its write; the driver's mode is the one the header shows, no
    mode change is pending any more, the waiters were woken once and the
    interrupt was acknowledged with one handshake. *)
Theorem set_mode_succeeds_when_device_acknowledges
  {R : Regs} {D : Type} {H : Hardware D}
  (new_mode : cyttsp4_mode) (new_dev_mode : Z) (w : world D) (rest : list tick)
  (rc0 rcw rch : Z) (data0 hdr : list Z) (d1 d2 d3 d4 : D) :
  (new_mode = CY_MODE_OPERATIONAL /\ new_dev_mode = u8 CY_HST_OPERATE \/
   new_mode = CY_MODE_SYSINFO /\ new_dev_mode = u8 CY_HST_SYSINFO \/
   new_mode = CY_MODE_CAT /\ new_dev_mode = u8 CY_HST_CAT) ->
  (0 < msecs_to_jiffies CY_CORE_MODE_CHANGE_TIMEOUT)%nat ->
  CY_INT_MODE_CHANGE <> 0 ->
  Z.land CY_INT_MODE_CHANGE CY_INT_IGNORE = 0 ->
  Z.land CY_INT_MODE_CHANGE CY_INT_AWAKE = 0 ->
  sleep_state (cd w) <> SS_SLEEP_ON ->
  Z.land (int_status (cd w)) CY_INT_IGNORE = 0 ->
  Z.land (int_status (cd w)) CY_INT_AWAKE = 0 ->
  future w = TickIrq :: rest ->
  bus_read (dev w) (u16 CY_REG_BASE) 1 = ((rc0, data0), d1) -> 0 <= rc0 ->
  let request :=
    u8 (Z.lor (u8 (Z.land (nth 0 data0 0) (Z.lnot CY_HST_DEVICE_MODE)))
          (Z.lor new_dev_mode CY_HST_MODE_CHANGE)) in
  bus_write d1 (u16 CY_REG_BASE) [request] = (rcw, d2) -> 0 <= rcw ->
  bus_read d2 (u16 CY_REG_BASE) 3 = ((0, hdr), d3) ->
  IS_BOOTLOADER (nth 0 hdr 0) (nth 1 hdr 0) = false ->
  Z.land (nth 0 hdr 0) CY_HST_MODE_CHANGE = 0 ->
  let handshake := u8 (Z.lxor (nth 0 hdr 0) CY_HST_TOGGLE) in
  bus_write d3 (u16 CY_REG_BASE) [handshake] = (rch, d4) ->
  let w' := snd (set_mode new_mode w) in
  fst (set_mode new_mode w) = rcw /\
  mode (cd w') = classify_hst_mode (nth 0 hdr 0) /\
  Z.land (int_status (cd w')) CY_INT_MODE_CHANGE = 0 /\
  dev w' = d4 /\ future w' = rest /\
  log w' = log w ++
    [EvRead (u16 CY_REG_BASE) 1 rc0 data0;
     EvWrite (u16 CY_REG_BASE) [request] rcw;
     EvRead (u16 CY_REG_BASE) 3 0 hdr; EvWakeUp;
     EvWrite (u16 CY_REG_BASE) [handshake] rch;
     EvUdelay (level_irq_udelay (cpdata (cd w)))].
Proof.
  intros Hmode Ht Hmc0 Hmci Hmca Hs Hig Haw Hf Hrd0 Hrc0 request Hwr Hrcw Hrd Hbl Hmk
    handshake Hhs w'.
  apply Z.ltb_ge in Hrc0, Hrcw.
  assert (E : set_mode new_mode w =
              set_mode_wait rcw
                {| cd := with_int_status
                           (Z.lor (int_status (cd w)) CY_INT_MODE_CHANGE) (cd w);
                   dev := d2;
                   log := (log w ++ [EvRead (u16 CY_REG_BASE) 1 rc0 data0])
                          ++ [EvWrite (u16 CY_REG_BASE) [request] rcw];
                   future := future w |}).
  { destruct Hmode as [[-> ->] | [[-> ->] | [-> ->]]];
      cbn [set_mode]; unfold bind at 1, cyttsp4_adap_read; rewrite Hrd0, Hrc0;
      unfold bind at 1, set_int_status, modify_cd;
      unfold bind at 1, cyttsp4_adap_write; cbn [dev cd log future];
      fold request; rewrite Hwr, Hrcw; reflexivity. }
  subst w'. rewrite E.
  rewrite (set_mode_wait_ack rcw _ rest hdr d3 d4 rch);
    cbn [cd dev log future int_status sleep_state with_int_status cpdata]; trivial.
  - repeat split.
    + apply land_lnot_clear.
    + rewrite <- !app_assoc. reflexivity.
  - apply land_lor_flag_clear; assumption.
  - apply land_lor_flag_clear; assumption.
  - apply land_lor_flag_set. exact Hmc0.
Qed.

Lemma set_mode_succeeds_when_device_acknowledges_witness :
  fst (set_mode CY_MODE_CAT
         (sim_world CY_MODE_OPERATIONAL [(0, [0x00]); (0, [0x20; 0x00; 0x00])] [TickIrq]))
  = 0 /\
  mode (cd (snd (set_mode CY_MODE_CAT
                   (sim_world CY_MODE_OPERATIONAL
                      [(0, [0x00]); (0, [0x20; 0x00; 0x00])] [TickIrq]))))
  = CY_MODE_CAT.
Proof.
  destruct (set_mode_succeeds_when_device_acknowledges CY_MODE_CAT (u8 CY_HST_CAT)
              (sim_world CY_MODE_OPERATIONAL [(0, [0x00]); (0, [0x20; 0x00; 0x00])]
                 [TickIrq])
              [] 0 0 0 [0x00] [0x20; 0x00; 0x00]
              {| answers := [(0, [0x20; 0x00; 0x00])] |}
              {| answers := [(0, [0x20; 0x00; 0x00])] |}
              {| answers := [] |} {| answers := [] |})
    as (Hrc & Hmode & _).
  - right. right. split; reflexivity.
  - cbn. lia.
  - discriminate.
  - reflexivity.
  - reflexivity.
  - discriminate.
  - reflexivity.
  - reflexivity.
  - reflexivity.
  - reflexivity.
  - lia.
  - reflexivity.
  - lia.
  - reflexivity.
  - reflexivity.
  - reflexivity.
  - reflexivity.
  - split; [exact Hrc | exact Hmode].
Defined.
